(** * Shallow embedding of cura/Machines/MaterialManager.py and
      cura/Machines/VariantManager.py.

    Conventions of the embedding.
    - A Python dict keyed by strings is a [gmap string _] (dict equality in
      Python ignores insertion order, and no code path here depends on it).
    - A metadata dict is a record holding the keys the code reads; a key read
      with [md["k"]] is a mandatory field, a key read with [md.get("k")] is an
      [option].
    - Python objects with a mutable slot (a [MaterialNode]'s [container], a
      variant entry's ["container"]) are identified by an allocated location;
      the slots live in a store [gmap nat InstanceContainer] of the manager.
      Calls of [findInstanceContainers] are recorded, with the node they were
      made for, in a list of the manager (instrumentation only, never read
      by the code).
    - A raised exception is [Err]; the state reached before the raise is kept,
      as Python keeps the mutations done before an exception.
    - A Python float is modelled by its exact value, a rational number. *)

From Stdlib Require Import ZArith QArith Qround Qabs Lqa String Ascii.
From stdpp Require Import base gmap strings list.

Open Scope string_scope.

(** ** Exceptions and a state/error monad *)

Inductive PyError :=
| KeyError (key : string)
| RuntimeError (msg : string).

Inductive result (A : Type) :=
| Ok (a : A)
| Err (e : PyError).
Arguments Ok {A} a.
Arguments Err {A} e.

Definition SE (S A : Type) := S -> result A * S.

Definition se_ret {S A} (a : A) : SE S A := fun s => (Ok a, s).

Definition se_bind {S A B} (m : SE S A) (k : A -> SE S B) : SE S B :=
  fun s =>
    match m s with
    | (Ok a, s') => k a s'
    | (Err e, s') => (Err e, s')
    end.

Notation "x <-- m ;; k" := (se_bind m (fun x => k))
  (at level 100, m at next level, right associativity).

(** ** Python built-ins used by the managers *)

(** [round(x)] on a float: round half to even, on the exact value. *)
Definition py_round (x : Q) : Z :=
  let f := Qfloor x in
  match Qcompare (x - inject_Z f) (1 # 2) with
  | Lt => f
  | Gt => (f + 1)%Z
  | Eq => if Z.even f then f else (f + 1)%Z
  end.

Fixpoint pos_digits (fuel : nat) (n : Z) (acc : string) : string :=
  match fuel with
  | O => acc
  | S fuel' =>
      let acc' := String (ascii_of_nat (48 + Z.to_nat (n mod 10))) acc in
      if Z.eqb (n / 10) 0 then acc' else pos_digits fuel' (n / 10) acc'
  end.

(** [str(i)] on an int: its decimal rendering. *)
Definition py_str_int (z : Z) : string :=
  match z with
  | Z0 => "0"
  | Zpos p => pos_digits (Pos.size_nat p) (Zpos p) ""
  | Zneg p => "-" ++ pos_digits (Pos.size_nat p) (Zpos p) ""
  end.

(** Truth value of an optional string ([not variant_name] is its negation). *)
Definition py_truthy_str (s : option string) : bool :=
  match s with
  | None => false
  | Some v => negb (String.eqb v "")
  end.

(** An [InstanceContainer] returned by the registry: an object handle. *)
Inductive InstanceContainer := mkInstanceContainer (handle : nat).

Global Instance InstanceContainer_eq_dec : EqDecision InstanceContainer.
Proof. solve_decision. Qed.

(** ** MaterialManager.py *)
Module MaterialManager.

Record MaterialMetadata := {
  md_id : string;
  md_GUID : string;
  md_base_file : option string;
  md_definition : string;
  md_approximate_diameter : string;
  md_variant_name : option string
}.

(** A [MaterialNode(metadata)]: a leaf carrying a metadata dict, with its
    container slot at [node_loc] in the manager's store. *)
Record MaterialNode := {
  node_loc : nat;
  metadata : MaterialMetadata
}.

(** A structural [MaterialNode()] under a machine node (a variant node): only
    its [material_map] is used. *)
Record VariantNode := {
  variant_material_map : gmap string MaterialNode
}.

(** A structural [MaterialNode()] directly under a diameter bucket (a machine
    node): its [material_map] and its [children_map]. *)
Record MachineNode := {
  material_map : gmap string MaterialNode;
  children_map : gmap string VariantNode
}.

Definition empty_variant_node : VariantNode := {| variant_material_map := ∅ |}.
Definition empty_machine_node : MachineNode :=
  {| material_map := ∅; children_map := ∅ |}.

Record MaterialManager := {
  guid_to_root_materials_map : gmap string MaterialNode;
  diameter_machine_variant_material_map : gmap string (gmap string MachineNode);
  containers : gmap nat InstanceContainer;
  registry_calls : list MaterialNode;
  next_loc : nat
}.

(** [MaterialManager.__init__]. *)
Definition init : MaterialManager := {|
  guid_to_root_materials_map := ∅;
  diameter_machine_variant_material_map := ∅;
  containers := ∅;
  registry_calls := [];
  next_loc := 0
|}.

Definition default_machine_definition_id : string := "fdmprinter".

Definition set_guid_map (m : gmap string MaterialNode) (st : MaterialManager)
  : MaterialManager :=
  {| guid_to_root_materials_map := m;
     diameter_machine_variant_material_map := diameter_machine_variant_material_map st;
     containers := containers st; registry_calls := registry_calls st;
     next_loc := next_loc st |}.

Definition set_tree (m : gmap string (gmap string MachineNode)) (st : MaterialManager)
  : MaterialManager :=
  {| guid_to_root_materials_map := guid_to_root_materials_map st;
     diameter_machine_variant_material_map := m;
     containers := containers st; registry_calls := registry_calls st;
     next_loc := next_loc st |}.

Definition set_container (l : nat) (c : InstanceContainer) (st : MaterialManager)
  : MaterialManager :=
  {| guid_to_root_materials_map := guid_to_root_materials_map st;
     diameter_machine_variant_material_map := diameter_machine_variant_material_map st;
     containers := <[l := c]> (containers st); registry_calls := registry_calls st;
     next_loc := next_loc st |}.

Definition log_call (n : MaterialNode) (st : MaterialManager) : MaterialManager :=
  {| guid_to_root_materials_map := guid_to_root_materials_map st;
     diameter_machine_variant_material_map := diameter_machine_variant_material_map st;
     containers := containers st; registry_calls := registry_calls st ++ [n];
     next_loc := next_loc st |}.

(** [MaterialNode(material_metadata)]: allocates a fresh node. *)
Definition new_node (md : MaterialMetadata) (st : MaterialManager)
  : MaterialNode * MaterialManager :=
  ({| node_loc := next_loc st; metadata := md |},
   {| guid_to_root_materials_map := guid_to_root_materials_map st;
      diameter_machine_variant_material_map := diameter_machine_variant_material_map st;
      containers := containers st; registry_calls := registry_calls st;
      next_loc := S (next_loc st) |}).

(** Table #1 of [initialize]: GUID -> root material node. *)
Definition add_guid_entry (material_metadata : MaterialMetadata) (st : MaterialManager)
  : MaterialManager :=
  let material_id := md_id material_metadata in
  if String.eqb material_id "empty_material" then st
  else
    let guid := md_GUID material_metadata in
    let base_file := md_base_file material_metadata in
    if bool_decide (Some material_id = base_file) then
      match guid_to_root_materials_map st !! guid with
      | None =>
          let '(n, st1) := new_node material_metadata st in
          set_guid_map (<[guid := n]> (guid_to_root_materials_map st1)) st1
      | Some _ => st
      end
    else st.

Fixpoint initialize_guid_table (l : list MaterialMetadata) (st : MaterialManager)
  : MaterialManager :=
  match l with
  | [] => st
  | material_metadata :: l' => initialize_guid_table l' (add_guid_entry material_metadata st)
  end.

Definition duplicate_message (variant_name definition material_id : string) : string :=
  "Found duplicate variant name [" ++ variant_name ++ "] for machine [" ++ definition
  ++ "] in material [" ++ material_id ++ "]".

(** Table #2 of [initialize]: one iteration of the second loop. The nested
    dicts are values here, so each level is written back after an update. *)
Definition add_material_to_tree (material_metadata : MaterialMetadata)
  : SE MaterialManager unit := fun st =>
  if String.eqb (md_id material_metadata) "empty_material" then (Ok tt, st)
  else
    let material_guid := md_GUID material_metadata in
    match guid_to_root_materials_map st !! material_guid with
    | None => (Err (KeyError material_guid), st)
    | Some root =>
      let root_material_id := md_id (metadata root) in
      let definition := md_definition material_metadata in
      let approximate_diameter := md_approximate_diameter material_metadata in
      let tree := diameter_machine_variant_material_map st in
      let machine_variant_material_map := default ∅ (tree !! approximate_diameter) in
      let machine_node := default empty_machine_node
                            (machine_variant_material_map !! definition) in
      let variant_name := md_variant_name material_metadata in
      let write_back (machine_node' : MachineNode) (st' : MaterialManager) :=
        set_tree (<[approximate_diameter :=
                     <[definition := machine_node']> machine_variant_material_map]> tree) st' in
      if negb (py_truthy_str variant_name) then
        let '(n, st1) := new_node material_metadata st in
        (Ok tt, write_back
                  {| material_map := <[root_material_id := n]> (material_map machine_node);
                     children_map := children_map machine_node |} st1)
      else
        let vname := default "" variant_name in
        let variant_node := default empty_variant_node (children_map machine_node !! vname) in
        match variant_material_map variant_node !! root_material_id with
        | None =>
            let '(n, st1) := new_node material_metadata st in
            let variant_node' :=
              {| variant_material_map :=
                   <[root_material_id := n]> (variant_material_map variant_node) |} in
            (Ok tt, write_back
                      {| material_map := material_map machine_node;
                         children_map := <[vname := variant_node']> (children_map machine_node) |}
                      st1)
        | Some _ =>
            (* the bucket, machine node and variant node all exist already here *)
            (Err (RuntimeError (duplicate_message vname definition (md_id material_metadata))), st)
        end
    end.

Fixpoint initialize_material_tree (l : list MaterialMetadata) : SE MaterialManager unit :=
  match l with
  | [] => se_ret tt
  | material_metadata :: l' =>
      _ <-- add_material_to_tree material_metadata ;; initialize_material_tree l'
  end.

(** [initialize], given the result of [findContainersMetadata(type = "material")]. *)
Definition initialize (material_metadata_list : list MaterialMetadata)
  : SE MaterialManager unit := fun st =>
  initialize_material_tree material_metadata_list
    (initialize_guid_table material_metadata_list st).

(** [getAvailableMaterials]. The local [material_id_metadata_dict] may hold a
    dict or [None], so it is an [option]. *)
Definition getAvailableMaterials (machine_definition_id : string)
  (variant_name : option string) (diameter : Q) (st : MaterialManager)
  : option (gmap string MaterialMetadata) :=
  let rounded_diameter := py_str_int (py_round diameter) in
  match diameter_machine_variant_material_map st !! rounded_diameter with
  | None => Some ∅
  | Some machine_variant_material_map =>
    let machine_node :=
      match machine_variant_material_map !! machine_definition_id with
      | Some n => Some n
      | None => machine_variant_material_map !! default_machine_definition_id
      end in
    let variant_node :=
      match variant_name, machine_node with
      | Some vn, Some mn => children_map mn !! vn
      | _, _ => None
      end in
    let material_id_metadata_dict : option (gmap string MaterialMetadata) := Some ∅ in
    let material_id_metadata_dict :=
      match variant_node with
      | Some vn => Some (metadata <$> variant_material_map vn)
      | None => material_id_metadata_dict
      end in
    match material_id_metadata_dict with
    | None =>
        match machine_node with
        | Some mn => Some (metadata <$> material_map mn)
        | None => material_id_metadata_dict
        end
    | Some _ => material_id_metadata_dict
    end
  end.

Section Registry.

(** [ContainerRegistry.findInstanceContainers(id = ...)]. *)
Variable findInstanceContainers : string -> list InstanceContainer.

(** [_getContainerOnNode]. *)
Definition getContainerOnNode (node : MaterialNode) : SE MaterialManager InstanceContainer :=
  fun st =>
  match containers st !! node_loc node with
  | Some c => (Ok c, st)
  | None =>
    let container_id := md_id (metadata node) in
    let st1 := log_call node st in
    match findInstanceContainers container_id with
    | [] =>
        (Err (RuntimeError ("Cannot lazy-load material container [" ++ container_id
                            ++ "], cannot be found in ContainerRegistry")), st1)
    | c :: _ => (Ok c, set_container (node_loc node) c st1)
    end
  end.

Definition getMaterial (machine_definition_id : string) (variant_name : option string)
  (diameter : Q) (root_material_id : string) : SE MaterialManager (option InstanceContainer) :=
  fun st =>
  let rounded_diameter := py_str_int (py_round diameter) in
  match diameter_machine_variant_material_map st !! rounded_diameter with
  | None => (Ok None, st)
  | Some machine_variant_material_map =>
    let machine_node :=
      match machine_variant_material_map !! machine_definition_id with
      | Some n => Some n
      | None => machine_variant_material_map !! default_machine_definition_id
      end in
    let variant_node :=
      match machine_node, variant_name with
      | Some mn, Some vn => children_map mn !! vn
      | _, _ => None
      end in
    (material <--
       match variant_node with
       | Some vnode =>
           match variant_material_map vnode !! root_material_id with
           | Some material_node => c <-- getContainerOnNode material_node ;; se_ret (Some c)
           | None => se_ret None
           end
       | None => se_ret None
       end ;;
     match material with
     | None =>
         match machine_node with
         | Some mn =>
             match material_map mn !! root_material_id with
             | Some material_node => c <-- getContainerOnNode material_node ;; se_ret (Some c)
             | None => se_ret None
             end
         | None => se_ret None
         end
     | Some _ => se_ret material
     end) st
  end.

Definition getMaterialByGUID (guid : string) : SE MaterialManager (option InstanceContainer) :=
  fun st =>
  match guid_to_root_materials_map st !! guid with
  | Some node => (c <-- getContainerOnNode node ;; se_ret (Some c)) st
  | None => (Ok None, st)
  end.

End Registry.

End MaterialManager.

(** ** VariantManager.py *)
Module VariantManager.

Record VariantMetadata := {
  vm_id : string;
  vm_name : string;
  vm_definition : string;
  vm_hardware_type : string
}.

(** The dict [{"metadata": ..., "container": ...}] of one variant; its
    ["container"] slot is at [entry_loc] in the manager's store. *)
Record VariantEntry := {
  entry_loc : nat;
  entry_metadata : VariantMetadata
}.

Record VariantManager := {
  machine_to_variant_dict_map : gmap string (gmap string VariantEntry);
  containers : gmap nat InstanceContainer;
  registry_calls : list VariantEntry;
  next_loc : nat
}.

(** [VariantManager.__init__]. *)
Definition init : VariantManager := {|
  machine_to_variant_dict_map := ∅;
  containers := ∅;
  registry_calls := [];
  next_loc := 0
|}.

Definition exclude_variant_id_list : list string := ["empty_variant"].

Definition set_map (m : gmap string (gmap string VariantEntry)) (st : VariantManager)
  : VariantManager :=
  {| machine_to_variant_dict_map := m; containers := containers st;
     registry_calls := registry_calls st; next_loc := next_loc st |}.

Definition set_container (l : nat) (c : InstanceContainer) (st : VariantManager)
  : VariantManager :=
  {| machine_to_variant_dict_map := machine_to_variant_dict_map st;
     containers := <[l := c]> (containers st);
     registry_calls := registry_calls st; next_loc := next_loc st |}.

Definition log_call (e : VariantEntry) (st : VariantManager) : VariantManager :=
  {| machine_to_variant_dict_map := machine_to_variant_dict_map st;
     containers := containers st;
     registry_calls := registry_calls st ++ [e]; next_loc := next_loc st |}.

(** [{"metadata": variant_metadata, "container": None}]: a fresh entry. *)
Definition new_entry (md : VariantMetadata) (st : VariantManager)
  : VariantEntry * VariantManager :=
  ({| entry_loc := next_loc st; entry_metadata := md |},
   {| machine_to_variant_dict_map := machine_to_variant_dict_map st;
      containers := containers st;
      registry_calls := registry_calls st; next_loc := S (next_loc st) |}).

Definition duplicate_message (variant_name variant_type variant_definition : string) : string :=
  "Found duplicated variant name [" ++ variant_name ++ "], type [" ++ variant_type
  ++ "] for machine [" ++ variant_definition ++ "]".

(** One iteration of the loop of [initialize]. *)
Definition add_variant (variant_metadata : VariantMetadata) : SE VariantManager unit :=
  fun st =>
  if bool_decide (vm_id variant_metadata ∈ exclude_variant_id_list) then (Ok tt, st)
  else
    let variant_name := vm_name variant_metadata in
    let variant_definition := vm_definition variant_metadata in
    let st :=
      match machine_to_variant_dict_map st !! variant_definition with
      | None => set_map (<[variant_definition := ∅]> (machine_to_variant_dict_map st)) st
      | Some _ => st
      end in
    let variant_type := vm_hardware_type variant_metadata in
    let variant_dict := default ∅ (machine_to_variant_dict_map st !! variant_definition) in
    match variant_dict !! variant_name with
    | Some _ =>
        (Err (RuntimeError (duplicate_message variant_name variant_type variant_definition)), st)
    | None =>
        let '(e, st1) := new_entry variant_metadata st in
        (Ok tt, set_map (<[variant_definition := <[variant_name := e]> variant_dict]>
                           (machine_to_variant_dict_map st1)) st1)
    end.

Fixpoint initialize_loop (l : list VariantMetadata) : SE VariantManager unit :=
  match l with
  | [] => se_ret tt
  | variant_metadata :: l' => _ <-- add_variant variant_metadata ;; initialize_loop l'
  end.

(** [initialize], given the result of [findContainersMetadata(type = "variant")]. *)
Definition initialize (variant_metadata_list : list VariantMetadata) : SE VariantManager unit :=
  initialize_loop variant_metadata_list.

(** [getVariantMetadata]; [variant_type] is accepted and not read. The
    subscript [self._machine_to_variant_dict_map[machine_type_name]] raises
    [KeyError] on an unknown machine. *)
Definition getVariantMetadata (machine_type_name variant_name : string)
  (variant_type : option string) (st : VariantManager) : result (option VariantMetadata) :=
  match machine_to_variant_dict_map st !! machine_type_name with
  | None => Err (KeyError machine_type_name)
  | Some d =>
      match d !! variant_name with
      | None => Ok None
      | Some variant_dict => Ok (Some (entry_metadata variant_dict))
      end
  end.

Section Registry.

Variable findInstanceContainers : string -> list InstanceContainer.

(** [getVariant], with its inline lazy loading; [variant_type] is not read. *)
Definition getVariant (machine_type_name variant_name : string)
  (variant_type : option string) : SE VariantManager (option InstanceContainer) :=
  fun st =>
  match machine_to_variant_dict_map st !! machine_type_name with
  | None => (Err (KeyError machine_type_name), st)
  | Some d =>
    match d !! variant_name with
    | None => (Ok None, st)
    | Some variant_dict =>
      match containers st !! entry_loc variant_dict with
      | Some c => (Ok (Some c), st)
      | None =>
        let variant_id := vm_id (entry_metadata variant_dict) in
        let st1 := log_call variant_dict st in
        match findInstanceContainers variant_id with
        | [] =>
            (Err (RuntimeError ("Cannot lazy-load variant container [" ++ variant_id
                                ++ "], cannot be found in ContainerRegistry")), st1)
        | c :: _ => (Ok (Some c), set_container (entry_loc variant_dict) c st1)
        end
      end
    end
  end.

End Registry.

End VariantManager.

(** ** Helpers for the statements and concrete inputs *)

(** The machine node the two material queries resolve inside a bucket: the
    node of the machine, else the node of the default machine. *)
Definition resolved_machine_node
  (machine_variant_material_map : gmap string MaterialManager.MachineNode)
  (machine_definition_id : string) : option MaterialManager.MachineNode :=
  match machine_variant_material_map !! machine_definition_id with
  | Some n => Some n
  | None => machine_variant_material_map !! MaterialManager.default_machine_definition_id
  end.

(** The exact values of the float literals 2.84, 2.85 and 1.75. *)
Definition float_2_84 : Q := 799388933858263 # 281474976710656.
Definition float_2_85 : Q := 6417629469002957 # 2251799813685248.
Definition float_1_75 : Q := 7 # 4.

(** A record of the Table #1 loop that is a root material: not the empty
    material, and its id equals its [base_file]. *)
Definition is_root_record (md : MaterialManager.MaterialMetadata) : bool :=
  negb (String.eqb (MaterialManager.md_id md) "empty_material")
  && bool_decide (Some (MaterialManager.md_id md) = MaterialManager.md_base_file md).

(** The first root record of [l] declaring [guid]. *)
Definition first_root (l : list MaterialManager.MaterialMetadata) (guid : string)
  : option MaterialManager.MaterialMetadata :=
  find (fun md => is_root_record md && String.eqb (MaterialManager.md_GUID md) guid) l.

(** The root material id Table #2 files a record of [l] under. *)
Definition leaf_root_id (l : list MaterialManager.MaterialMetadata)
  (md : MaterialManager.MaterialMetadata) : option string :=
  MaterialManager.md_id <$> first_root l (MaterialManager.md_GUID md).

(** The (diameter, machine, root material) key of the machine-level leaf a
    record of [l] becomes, if it becomes one. *)
Definition machine_leaf_key (l : list MaterialManager.MaterialMetadata)
  (md : MaterialManager.MaterialMetadata) : option (string * string * string) :=
  if String.eqb (MaterialManager.md_id md) "empty_material"
     || py_truthy_str (MaterialManager.md_variant_name md) then None
  else (fun r => (MaterialManager.md_approximate_diameter md,
                  MaterialManager.md_definition md, r)) <$> leaf_root_id l md.

(** The (diameter, machine, variant name, root material) key of the
    variant-level leaf a record of [l] becomes, if it becomes one. *)
Definition variant_leaf_key (l : list MaterialManager.MaterialMetadata)
  (md : MaterialManager.MaterialMetadata) : option (string * string * string * string) :=
  if String.eqb (MaterialManager.md_id md) "empty_material"
     || negb (py_truthy_str (MaterialManager.md_variant_name md)) then None
  else (fun r => (MaterialManager.md_approximate_diameter md,
                  MaterialManager.md_definition md,
                  default "" (MaterialManager.md_variant_name md), r)) <$> leaf_root_id l md.

Definition machine_leaf (st : MaterialManager.MaterialManager) (k : string * string * string)
  : option MaterialManager.MaterialNode :=
  let '(d, m, r) := k in
  match MaterialManager.diameter_machine_variant_material_map st !! d with
  | Some mvm =>
      match mvm !! m with
      | Some mn => MaterialManager.material_map mn !! r
      | None => None
      end
  | None => None
  end.

Definition variant_leaf (st : MaterialManager.MaterialManager)
  (k : string * string * string * string) : option MaterialManager.MaterialNode :=
  let '(d, m, v, r) := k in
  match MaterialManager.diameter_machine_variant_material_map st !! d with
  | Some mvm =>
      match mvm !! m with
      | Some mn =>
          match MaterialManager.children_map mn !! v with
          | Some vn => MaterialManager.variant_material_map vn !! r
          | None => None
          end
      | None => None
      end
  | None => None
  end.

(** The machine node of a diameter bucket, if both exist. *)
Definition machine_node_at (st : MaterialManager.MaterialManager) (d m : string)
  : option MaterialManager.MachineNode :=
  match MaterialManager.diameter_machine_variant_material_map st !! d with
  | Some mvm => mvm !! m
  | None => None
  end.

(** The entry of the Variant Index at (machine, variant name). *)
Definition variant_entry (st : VariantManager.VariantManager) (m n : string)
  : option VariantManager.VariantEntry :=
  match VariantManager.machine_to_variant_dict_map st !! m with
  | Some d => d !! n
  | None => None
  end.

(** The (machine, variant name) key of the entry a variant record becomes. *)
Definition variant_entry_key (md : VariantManager.VariantMetadata) : option (string * string) :=
  if bool_decide (VariantManager.vm_id md ∈ VariantManager.exclude_variant_id_list) then None
  else Some (VariantManager.vm_definition md, VariantManager.vm_name md).

Module Scenario.
Import MaterialManager VariantManager.

(** The records of the scenario of the specification, with a machine-level
    material for ultimaker3 added. *)
Definition generic_pla : MaterialMetadata := {|
  md_id := "generic_pla"; md_GUID := "G1"; md_base_file := Some "generic_pla";
  md_definition := "fdmprinter"; md_approximate_diameter := "3";
  md_variant_name := None |}.

Definition generic_pla_um3_aa04 : MaterialMetadata := {|
  md_id := "generic_pla_um3_aa04"; md_GUID := "G1"; md_base_file := Some "generic_pla";
  md_definition := "ultimaker3"; md_approximate_diameter := "3";
  md_variant_name := Some "AA 0.4" |}.

Definition generic_pla_um3 : MaterialMetadata := {|
  md_id := "generic_pla_ultimaker3"; md_GUID := "G1"; md_base_file := Some "generic_pla";
  md_definition := "ultimaker3"; md_approximate_diameter := "3";
  md_variant_name := None |}.

(** A second machine-level ultimaker3 record for the same root material. *)
Definition generic_pla_um3_copy : MaterialMetadata := {|
  md_id := "generic_pla_ultimaker3_copy"; md_GUID := "G1"; md_base_file := Some "generic_pla";
  md_definition := "ultimaker3"; md_approximate_diameter := "3";
  md_variant_name := None |}.

Definition materials : list MaterialMetadata :=
  [generic_pla; generic_pla_um3_aa04; generic_pla_um3].

Definition material_index : MaterialManager.MaterialManager :=
  snd (MaterialManager.initialize materials MaterialManager.init).

Definition aa04 : VariantMetadata := {|
  vm_id := "ultimaker3_aa04"; vm_name := "AA 0.4"; vm_definition := "ultimaker3";
  vm_hardware_type := "nozzle" |}.

Definition bb04 : VariantMetadata := {|
  vm_id := "ultimaker3_bb04"; vm_name := "BB 0.4"; vm_definition := "ultimaker3";
  vm_hardware_type := "nozzle" |}.

Definition variant_index : VariantManager.VariantManager :=
  snd (VariantManager.initialize [aa04; bb04] VariantManager.init).

(** A registry that finds one container for every id but "missing". *)
Definition registry (id : string) : list InstanceContainer :=
  if String.eqb id "missing" then [] else [mkInstanceContainer (String.length id)].

(** A second root record declaring the GUID "G1". *)
Definition generic_pla_dup_root : MaterialMetadata := {|
  md_id := "generic_pla_dup"; md_GUID := "G1"; md_base_file := Some "generic_pla_dup";
  md_definition := "fdmprinter"; md_approximate_diameter := "2";
  md_variant_name := None |}.

(** A registry that finds no container at all. *)
Definition empty_registry (id : string) : list InstanceContainer := [].

End Scenario.

(** ** Sequences of queries over the process lifetime *)

Module Queries.
Import MaterialManager.

Global Instance MaterialMetadata_eq_dec : EqDecision MaterialMetadata.
Proof. solve_decision. Defined.
Global Instance MaterialNode_eq_dec : EqDecision MaterialNode.
Proof. solve_decision. Defined.
Global Instance VariantMetadata_eq_dec : EqDecision VariantManager.VariantMetadata.
Proof. solve_decision. Defined.
Global Instance VariantEntry_eq_dec : EqDecision VariantManager.VariantEntry.
Proof. solve_decision. Defined.

Inductive MaterialQuery :=
| QGetMaterial (machine_definition_id : string) (variant_name : option string)
    (diameter : Q) (root_material_id : string)
| QGetMaterialByGUID (guid : string)
| QGetAvailableMaterials (machine_definition_id : string) (variant_name : option string)
    (diameter : Q).

(** The state after one query, whether it returned or raised. *)
Definition run_material_query (findInstanceContainers : string -> list InstanceContainer)
  (q : MaterialQuery) (st : MaterialManager) : MaterialManager :=
  match q with
  | QGetMaterial m v d r => snd (getMaterial findInstanceContainers m v d r st)
  | QGetMaterialByGUID g => snd (getMaterialByGUID findInstanceContainers g st)
  | QGetAvailableMaterials _ _ _ => st
  end.

Fixpoint run_material_queries (findInstanceContainers : string -> list InstanceContainer)
  (qs : list MaterialQuery) (st : MaterialManager) : MaterialManager :=
  match qs with
  | [] => st
  | q :: qs' => run_material_queries findInstanceContainers qs'
                  (run_material_query findInstanceContainers q st)
  end.

Inductive VariantQuery :=
| QGetVariant (machine_type_name variant_name : string) (variant_type : option string)
| QGetVariantMetadata (machine_type_name variant_name : string) (variant_type : option string).

Definition run_variant_query (findInstanceContainers : string -> list InstanceContainer)
  (q : VariantQuery) (st : VariantManager.VariantManager) : VariantManager.VariantManager :=
  match q with
  | QGetVariant m n t => snd (VariantManager.getVariant findInstanceContainers m n t st)
  | QGetVariantMetadata _ _ _ => st
  end.

Fixpoint run_variant_queries (findInstanceContainers : string -> list InstanceContainer)
  (qs : list VariantQuery) (st : VariantManager.VariantManager)
  : VariantManager.VariantManager :=
  match qs with
  | [] => st
  | q :: qs' => run_variant_queries findInstanceContainers qs'
                  (run_variant_query findInstanceContainers q st)
  end.

(** Number of registry lookups made for a node (resp. a variant entry). *)
Definition calls_for_node (n : MaterialNode) (calls : list MaterialNode) : nat :=
  count_occ (fun x y : MaterialNode => decide (x = y)) calls n.

Definition calls_for_entry (e : VariantManager.VariantEntry)
  (calls : list VariantManager.VariantEntry) : nat :=
  count_occ (fun x y : VariantManager.VariantEntry => decide (x = y)) calls e.

End Queries.

(** * Theorems *)

Import MaterialManager.

(** ** Material queries: scope resolution *)

(** C4: when the resolved machine node has a variant node [variant_name]
    holding a leaf for [root_material_id], [getMaterial] materializes that
    variant-level leaf and returns its container, even when the machine
    node's primary map also holds a leaf for [root_material_id]; when neither
    scope holds such a leaf, it returns [None] and changes nothing. *)
Theorem getMaterial_variant_leaf_first
  (findInstanceContainers : string -> list InstanceContainer) (st : MaterialManager)
  (machine_definition_id variant_name : string) (diameter : Q) (root_material_id : string) :
  (forall mvm mn vn leaf leaf',
     diameter_machine_variant_material_map st !! py_str_int (py_round diameter) = Some mvm ->
     resolved_machine_node mvm machine_definition_id = Some mn ->
     children_map mn !! variant_name = Some vn ->
     variant_material_map vn !! root_material_id = Some leaf ->
     material_map mn !! root_material_id = Some leaf' ->
     getMaterial findInstanceContainers machine_definition_id (Some variant_name) diameter
       root_material_id st
     = (c <-- getContainerOnNode findInstanceContainers leaf ;; se_ret (Some c)) st
     /\ (forall c st', getMaterial findInstanceContainers machine_definition_id
                         (Some variant_name) diameter root_material_id st = (Ok (Some c), st') ->
                       containers st' !! node_loc leaf = Some c))
  /\ ((forall mvm mn,
         diameter_machine_variant_material_map st !! py_str_int (py_round diameter) = Some mvm ->
         resolved_machine_node mvm machine_definition_id = Some mn ->
         material_map mn !! root_material_id = None /\
         forall vn, children_map mn !! variant_name = Some vn ->
                    variant_material_map vn !! root_material_id = None) ->
      getMaterial findInstanceContainers machine_definition_id (Some variant_name) diameter
        root_material_id st = (Ok None, st)).
Proof.
  split.
  - intros mvm mn vn leaf leaf' Hb Hm Hv Hl Hl'.
    assert (Heq : getMaterial findInstanceContainers machine_definition_id (Some variant_name)
                    diameter root_material_id st
                  = (c <-- getContainerOnNode findInstanceContainers leaf ;; se_ret (Some c)) st).
    { unfold getMaterial. rewrite Hb. unfold resolved_machine_node in Hm.
      change (match mvm !! machine_definition_id with Some n => Some n
              | None => mvm !! default_machine_definition_id end) with
        (resolved_machine_node mvm machine_definition_id).
      unfold resolved_machine_node. rewrite Hm, Hv, Hl.
      unfold se_bind, se_ret.
      destruct (getContainerOnNode findInstanceContainers leaf st) as [[c|e] s]; reflexivity. }
    split; [exact Heq|].
    intros c st' Hr. rewrite Heq in Hr. unfold se_bind, se_ret, getContainerOnNode in Hr.
    destruct (containers st !! node_loc leaf) as [c0|] eqn:Hc.
    + inversion Hr; subst. exact Hc.
    + destruct (findInstanceContainers (md_id (metadata leaf))) as [|c0 cs];
        inversion Hr; subst.
      simpl. apply lookup_insert_eq.
  - intros Hn. unfold getMaterial.
    destruct (diameter_machine_variant_material_map st !! py_str_int (py_round diameter))
      as [mvm|] eqn:Hb; [|reflexivity].
    change (match mvm !! machine_definition_id with Some n => Some n
            | None => mvm !! default_machine_definition_id end) with
      (resolved_machine_node mvm machine_definition_id).
    destruct (resolved_machine_node mvm machine_definition_id) as [mn|] eqn:Hm;
      [|reflexivity].
    destruct (Hn mvm mn eq_refl Hm) as [Hp Hv].
    destruct (children_map mn !! variant_name) as [vn|] eqn:Hc.
    + rewrite (Hv vn eq_refl). unfold se_bind, se_ret. rewrite Hp. reflexivity.
    + unfold se_bind, se_ret. rewrite Hp. reflexivity.
Qed.

(** Witness of C4 on the scenario: the ultimaker3 "AA 0.4" leaf wins over the
    ultimaker3 machine-level leaf, and an unknown root material gives [None]. *)
Lemma getMaterial_variant_leaf_first_witness :
  getMaterial Scenario.registry "ultimaker3" (Some "AA 0.4") float_2_85 "generic_pla"
    Scenario.material_index
  = (c <-- getContainerOnNode Scenario.registry
             {| node_loc := 2; metadata := Scenario.generic_pla_um3_aa04 |} ;;
     se_ret (Some c)) Scenario.material_index
  /\ getMaterial Scenario.registry "ultimaker3" (Some "AA 0.4") float_2_85 "generic_abs"
       Scenario.material_index = (Ok None, Scenario.material_index).
Proof.
  destruct (getMaterial_variant_leaf_first Scenario.registry Scenario.material_index
              "ultimaker3" "AA 0.4" float_2_85 "generic_pla") as [H1 _].
  destruct (getMaterial_variant_leaf_first Scenario.registry Scenario.material_index
              "ultimaker3" "AA 0.4" float_2_85 "generic_abs") as [_ H2].
  split.
  - eapply H1; vm_compute; reflexivity.
  - apply H2. intros mvm mn Hb Hm.
    set (bucket := default ∅ (diameter_machine_variant_material_map Scenario.material_index
                                !! "3")).
    set (um3 := default empty_machine_node (bucket !! "ultimaker3")).
    assert (E1 : diameter_machine_variant_material_map Scenario.material_index
                 !! py_str_int (py_round float_2_85) = Some bucket)
      by (vm_compute; reflexivity).
    assert (E2 : resolved_machine_node bucket "ultimaker3" = Some um3)
      by (vm_compute; reflexivity).
    rewrite E1 in Hb. apply (inj Some) in Hb. subst mvm.
    rewrite E2 in Hm. apply (inj Some) in Hm. subst mn.
    split; [vm_compute; reflexivity|].
    intros vn Hv.
    assert (E3 : children_map um3 !! "AA 0.4"
                 = Some (default empty_variant_node (children_map um3 !! "AA 0.4")))
      by (vm_compute; reflexivity).
    rewrite E3 in Hv. apply (inj Some) in Hv. subst vn. vm_compute. reflexivity.
Defined.

(** C5: inside an existing diameter bucket with no node for
    [machine_definition_id], [getMaterial] and [getAvailableMaterials] answer
    exactly as for the default machine id "fdmprinter". *)
Theorem unknown_machine_uses_default_machine
  (findInstanceContainers : string -> list InstanceContainer) (st : MaterialManager)
  (machine_definition_id : string) (variant_name : option string) (diameter : Q)
  (root_material_id : string) (mvm : gmap string MachineNode)
  (Hbucket : diameter_machine_variant_material_map st !! py_str_int (py_round diameter)
             = Some mvm)
  (Hmachine : mvm !! machine_definition_id = None) :
  getMaterial findInstanceContainers machine_definition_id variant_name diameter
    root_material_id st
  = getMaterial findInstanceContainers default_machine_definition_id variant_name diameter
      root_material_id st
  /\ getAvailableMaterials machine_definition_id variant_name diameter st
     = getAvailableMaterials default_machine_definition_id variant_name diameter st.
Proof.
  unfold getMaterial, getAvailableMaterials. rewrite Hbucket, Hmachine.
  destruct (mvm !! default_machine_definition_id); split; reflexivity.
Qed.

(** Witness of C5: "ultimaker2_plus" has no node in bucket "3" of the
    scenario, and "generic_pla" resolves through "fdmprinter". *)
Lemma unknown_machine_uses_default_machine_witness :
  getMaterial Scenario.registry "ultimaker2_plus" None float_2_85 "generic_pla"
    Scenario.material_index
  = getMaterial Scenario.registry default_machine_definition_id None float_2_85 "generic_pla"
      Scenario.material_index
  /\ fst (getMaterial Scenario.registry "ultimaker2_plus" None float_2_85 "generic_pla"
            Scenario.material_index) = Ok (Some (mkInstanceContainer 11)).
Proof.
  split.
  - refine (proj1 (unknown_machine_uses_default_machine Scenario.registry
                     Scenario.material_index "ultimaker2_plus" None float_2_85 "generic_pla"
                     (default ∅ (diameter_machine_variant_material_map Scenario.material_index
                                   !! "3")) _ _)); vm_compute; reflexivity.
  - vm_compute. reflexivity.
Defined.

(** C2 (evaluation at a failing input): with only the root record
    generic_pla for "fdmprinter" in bucket "3", [getAvailableMaterials
    "fdmprinter" None 2.85] returns the empty dict, although the machine node
    of "fdmprinter" maps "generic_pla" to that record: the machine-level
    fallback is guarded by [material_id_metadata_dict is None], and that
    local always holds a dict. *)
Theorem getAvailableMaterials_no_machine_fallback :
  let st := snd (initialize [Scenario.generic_pla] init) in
  (exists mn, diameter_machine_variant_material_map st !! "3"
                ≫= (fun mvm => mvm !! "fdmprinter") = Some mn
              /\ metadata <$> material_map mn = {[ "generic_pla" := Scenario.generic_pla ]})
  /\ getAvailableMaterials "fdmprinter" None float_2_85 st = Some ∅.
Proof.
  simpl. split.
  - eexists. split; [vm_compute; reflexivity|]. vm_compute. reflexivity.
  - vm_compute. reflexivity.
Qed.

(** ** Variant queries *)

(** C3 (evaluation at a failing input): in the Variant Index built from the
    two ultimaker3 nozzles, [getVariantMetadata] and [getVariant] on the
    machine "ultimaker2_plus", which has no entry, raise [KeyError] instead of
    returning [None]; an unknown variant name of a known machine gives [None]. *)
Theorem variant_lookup_unknown_machine_raises :
  VariantManager.getVariantMetadata "ultimaker2_plus" "AA 0.4" None Scenario.variant_index
  = Err (KeyError "ultimaker2_plus")
  /\ fst (VariantManager.getVariant Scenario.registry "ultimaker2_plus" "AA 0.4" None
            Scenario.variant_index) = Err (KeyError "ultimaker2_plus")
  /\ VariantManager.getVariantMetadata "ultimaker3" "AA 0.8" None Scenario.variant_index
     = Ok None
  /\ fst (VariantManager.getVariant Scenario.registry "ultimaker3" "AA 0.8" None
            Scenario.variant_index) = Ok None.
Proof. vm_compute. repeat split. Qed.

(** C10: the [variant_type] argument of [getVariantMetadata] and
    [getVariant] never changes their result nor the state they leave. *)
Theorem variant_type_is_ignored (st : VariantManager.VariantManager)
  (machine_type_name variant_name : string) (t1 t2 : option string) :
  VariantManager.getVariantMetadata machine_type_name variant_name t1 st
  = VariantManager.getVariantMetadata machine_type_name variant_name t2 st
  /\ forall findInstanceContainers : string -> list InstanceContainer,
       VariantManager.getVariant findInstanceContainers machine_type_name variant_name t1 st
       = VariantManager.getVariant findInstanceContainers machine_type_name variant_name t2 st.
Proof. split; [reflexivity | intros; reflexivity]. Qed.

(** ** Diameter buckets *)

Section Diameter.
Local Open Scope Q_scope.

Lemma py_round_spec (x : Q) :
  (py_round x = Qfloor x /\ x - inject_Z (Qfloor x) <= 1 # 2) \/
  (py_round x = (Qfloor x + 1)%Z /\ 1 # 2 <= x - inject_Z (Qfloor x)).
Proof.
  unfold py_round.
  destruct (Qcompare_spec (x - inject_Z (Qfloor x)) (1 # 2)) as [H|H|H].
  - destruct (Z.even (Qfloor x)).
    + left. split; [reflexivity|]. rewrite H. apply Qle_refl.
    + right. split; [reflexivity|]. rewrite H. apply Qle_refl.
  - left. split; [reflexivity|]. apply Qlt_le_weak. exact H.
  - right. split; [reflexivity|]. apply Qlt_le_weak. exact H.
Qed.

Lemma py_round_nearest (x : Q) (z : Z) :
  Qabs (x - inject_Z (py_round x)) <= Qabs (x - inject_Z z).
Proof.
  pose proof (Qfloor_le x) as Hf1. pose proof (Qlt_floor x) as Hf2.
  rewrite inject_Z_plus in Hf2. change (inject_Z 1) with 1 in Hf2.
  assert (HB1 : x - inject_Z z <= Qabs (x - inject_Z z)) by apply Qle_Qabs.
  assert (HB2 : - (x - inject_Z z) <= Qabs (x - inject_Z z))
    by (rewrite <- Qabs_opp; apply Qle_Qabs).
  assert (Hz : inject_Z z <= inject_Z (Qfloor x) \/ inject_Z (Qfloor x) + 1 <= inject_Z z).
  { destruct (Z.le_gt_cases z (Qfloor x)) as [Hz|Hz].
    - left. rewrite <- Zle_Qle. exact Hz.
    - right. change 1 with (inject_Z 1). rewrite <- inject_Z_plus, <- Zle_Qle. lia. }
  destruct (py_round_spec x) as [[-> Hr]|[-> Hr]].
  - assert (HA : Qabs (x - inject_Z (Qfloor x)) <= x - inject_Z (Qfloor x))
      by (apply Qabs_Qle_condition; split; lra).
    destruct Hz; lra.
  - rewrite inject_Z_plus. change (inject_Z 1) with 1.
    assert (HA : Qabs (x - (inject_Z (Qfloor x) + 1)) <= inject_Z (Qfloor x) + 1 - x)
      by (apply Qabs_Qle_condition; split; lra).
    destruct Hz; lra.
Qed.

(** C9: the bucket key of [getMaterial] and [getAvailableMaterials] is
    [str(round(diameter))]: the integer [py_round d] is a nearest integer to
    [d], the two queries depend on [d] only through it, and 2.84 and 2.85 give
    the key "3" while 1.75 gives "2". *)
Theorem diameter_bucket_key :
  (forall (d : Q) (z : Z), Qabs (d - inject_Z (py_round d)) <= Qabs (d - inject_Z z))
  /\ py_str_int (py_round float_2_84) = "3"
  /\ py_str_int (py_round float_2_85) = "3"
  /\ py_str_int (py_round float_1_75) = "2"
  /\ (forall (d d' : Q), py_round d = py_round d' ->
      forall findInstanceContainers st machine_definition_id variant_name root_material_id,
        getMaterial findInstanceContainers machine_definition_id variant_name d
          root_material_id st
        = getMaterial findInstanceContainers machine_definition_id variant_name d'
            root_material_id st
        /\ getAvailableMaterials machine_definition_id variant_name d st
           = getAvailableMaterials machine_definition_id variant_name d' st).
Proof.
  split; [exact py_round_nearest|].
  split; [vm_compute; reflexivity|].
  split; [vm_compute; reflexivity|].
  split; [vm_compute; reflexivity|].
  intros d d' Hd findInstanceContainers st machine_definition_id variant_name
    root_material_id.
  unfold getMaterial, getAvailableMaterials. rewrite Hd. split; reflexivity.
Qed.

(** Witness of C9: 2.84 and 2.85 round alike, so every query agrees on them. *)
Lemma diameter_bucket_key_witness :
  py_round float_2_84 = py_round float_2_85 /\
  getMaterial Scenario.registry "ultimaker3" (Some "AA 0.4") float_2_84 "generic_pla"
    Scenario.material_index
  = getMaterial Scenario.registry "ultimaker3" (Some "AA 0.4") float_2_85 "generic_pla"
      Scenario.material_index.
Proof.
  split; [vm_compute; reflexivity|].
  destruct diameter_bucket_key as [_ [_ [_ [_ H]]]].
  refine (proj1 (H float_2_84 float_2_85 _ Scenario.registry Scenario.material_index
                   "ultimaker3" (Some "AA 0.4") "generic_pla")).
  vm_compute. reflexivity.
Defined.

End Diameter.

(** ** Lazy materialization *)

Section Materialization.

Variable findInstanceContainers : string -> list InstanceContainer.

Lemma getMaterial_variant_leaf (st : MaterialManager) machine_definition_id variant_name
  diameter root_material_id mvm mn vn leaf :
  diameter_machine_variant_material_map st !! py_str_int (py_round diameter) = Some mvm ->
  resolved_machine_node mvm machine_definition_id = Some mn ->
  children_map mn !! variant_name = Some vn ->
  variant_material_map vn !! root_material_id = Some leaf ->
  getMaterial findInstanceContainers machine_definition_id (Some variant_name) diameter
    root_material_id st
  = (c <-- getContainerOnNode findInstanceContainers leaf ;; se_ret (Some c)) st.
Proof.
  intros Hb Hm Hv Hl. unfold getMaterial. rewrite Hb.
  change (match mvm !! machine_definition_id with Some n => Some n
          | None => mvm !! default_machine_definition_id end) with
    (resolved_machine_node mvm machine_definition_id).
  rewrite Hm, Hv, Hl. unfold se_bind, se_ret.
  destruct (getContainerOnNode findInstanceContainers leaf st) as [[c|e] s]; reflexivity.
Qed.

Lemma getMaterial_machine_leaf (st : MaterialManager) machine_definition_id variant_name
  diameter root_material_id mvm mn leaf :
  diameter_machine_variant_material_map st !! py_str_int (py_round diameter) = Some mvm ->
  resolved_machine_node mvm machine_definition_id = Some mn ->
  (forall vname vn, variant_name = Some vname -> children_map mn !! vname = Some vn ->
                    variant_material_map vn !! root_material_id = None) ->
  material_map mn !! root_material_id = Some leaf ->
  getMaterial findInstanceContainers machine_definition_id variant_name diameter
    root_material_id st
  = (c <-- getContainerOnNode findInstanceContainers leaf ;; se_ret (Some c)) st.
Proof.
  intros Hb Hm Hv Hl. unfold getMaterial. rewrite Hb.
  change (match mvm !! machine_definition_id with Some n => Some n
          | None => mvm !! default_machine_definition_id end) with
    (resolved_machine_node mvm machine_definition_id).
  rewrite Hm.
  assert (Hvn : match variant_name with
                | Some vname => match children_map mn !! vname with
                                | Some vn => variant_material_map vn !! root_material_id
                                | None => None end
                | None => None end = None).
  { destruct variant_name as [vname|]; [|reflexivity].
    destruct (children_map mn !! vname) as [vn|] eqn:E; [|reflexivity].
    exact (Hv vname vn eq_refl E). }
  destruct variant_name as [vname|].
  - destruct (children_map mn !! vname) as [vn|].
    + rewrite Hvn. unfold se_bind, se_ret. rewrite Hl. reflexivity.
    + unfold se_bind, se_ret. rewrite Hl. reflexivity.
  - unfold se_bind, se_ret. rewrite Hl. reflexivity.
Qed.

Lemma getContainerOnNode_err (st st' : MaterialManager) node e :
  getContainerOnNode findInstanceContainers node st = (Err e, st') ->
  containers st !! node_loc node = None
  /\ findInstanceContainers (md_id (metadata node)) = []
  /\ containers st' = containers st.
Proof.
  unfold getContainerOnNode.
  destruct (containers st !! node_loc node); [discriminate|].
  destruct (findInstanceContainers (md_id (metadata node))); [|discriminate].
  intros H. inversion H. subst. auto.
Qed.

Lemma getContainerOnNode_err_iff (st : MaterialManager) node :
  (exists e st', getContainerOnNode findInstanceContainers node st = (Err e, st'))
  <-> containers st !! node_loc node = None
      /\ findInstanceContainers (md_id (metadata node)) = [].
Proof.
  split.
  - intros (e & st' & H). apply getContainerOnNode_err in H. tauto.
  - intros [Hc Hr]. unfold getContainerOnNode. rewrite Hc, Hr. eauto.
Qed.

Lemma lift_err (st : MaterialManager) node :
  containers st !! node_loc node = None ->
  findInstanceContainers (md_id (metadata node)) = [] ->
  exists e st',
    (c <-- getContainerOnNode findInstanceContainers node ;; se_ret (Some c)) st = (Err e, st')
    /\ containers st' !! node_loc node = None.
Proof.
  intros Hc Hr. unfold se_bind, getContainerOnNode. rewrite Hc, Hr.
  do 2 eexists. split; [reflexivity|]. exact Hc.
Qed.

End Materialization.

(** C7: the materialization step raises exactly when the node has no cached
    container and the registry lookup of its id returns an empty list, and
    it then leaves the node's slot unset. [getMaterialByGUID], [getMaterial]
    (on the variant-level leaf it resolves, or else on the machine-level
    leaf) and [getVariant] (on a found entry) raise in that case. *)
Theorem materialization_raises_only_on_empty_lookup :
  (forall findInstanceContainers (st : MaterialManager) node,
     (exists e st', getContainerOnNode findInstanceContainers node st = (Err e, st'))
     <-> containers st !! node_loc node = None
         /\ findInstanceContainers (md_id (metadata node)) = [])
  /\ (forall findInstanceContainers (st st' : MaterialManager) node e,
        getContainerOnNode findInstanceContainers node st = (Err e, st') ->
        containers st' !! node_loc node = None)
  /\ (forall findInstanceContainers (st : MaterialManager) guid node,
        guid_to_root_materials_map st !! guid = Some node ->
        containers st !! node_loc node = None ->
        findInstanceContainers (md_id (metadata node)) = [] ->
        exists e st', getMaterialByGUID findInstanceContainers guid st = (Err e, st')
                      /\ containers st' !! node_loc node = None)
  /\ (forall findInstanceContainers (st : MaterialManager) machine_definition_id variant_name
             diameter root_material_id mvm mn vn leaf,
        diameter_machine_variant_material_map st !! py_str_int (py_round diameter) = Some mvm ->
        resolved_machine_node mvm machine_definition_id = Some mn ->
        children_map mn !! variant_name = Some vn ->
        variant_material_map vn !! root_material_id = Some leaf ->
        containers st !! node_loc leaf = None ->
        findInstanceContainers (md_id (metadata leaf)) = [] ->
        exists e st', getMaterial findInstanceContainers machine_definition_id
                        (Some variant_name) diameter root_material_id st = (Err e, st')
                      /\ containers st' !! node_loc leaf = None)
  /\ (forall findInstanceContainers (st : MaterialManager) machine_definition_id variant_name
             diameter root_material_id mvm mn leaf,
        diameter_machine_variant_material_map st !! py_str_int (py_round diameter) = Some mvm ->
        resolved_machine_node mvm machine_definition_id = Some mn ->
        (forall vname vn, variant_name = Some vname -> children_map mn !! vname = Some vn ->
                          variant_material_map vn !! root_material_id = None) ->
        material_map mn !! root_material_id = Some leaf ->
        containers st !! node_loc leaf = None ->
        findInstanceContainers (md_id (metadata leaf)) = [] ->
        exists e st', getMaterial findInstanceContainers machine_definition_id
                        variant_name diameter root_material_id st = (Err e, st')
                      /\ containers st' !! node_loc leaf = None)
  /\ (forall findInstanceContainers (st : VariantManager.VariantManager) machine_type_name
             variant_name variant_type d entry,
        VariantManager.machine_to_variant_dict_map st !! machine_type_name = Some d ->
        d !! variant_name = Some entry ->
        ((exists e st', VariantManager.getVariant findInstanceContainers machine_type_name
                          variant_name variant_type st = (Err e, st'))
         <-> VariantManager.containers st !! VariantManager.entry_loc entry = None
             /\ findInstanceContainers
                  (VariantManager.vm_id (VariantManager.entry_metadata entry)) = [])
        /\ (forall e st', VariantManager.getVariant findInstanceContainers machine_type_name
                            variant_name variant_type st = (Err e, st') ->
                          VariantManager.containers st' !! VariantManager.entry_loc entry
                          = None)).
Proof.
  split; [exact getContainerOnNode_err_iff|].
  split.
  { intros f st st' node e H. destruct (getContainerOnNode_err f st st' node e H)
      as (Hc & _ & ->). exact Hc. }
  split.
  { intros f st guid node Hg Hc Hr. unfold getMaterialByGUID. rewrite Hg.
    exact (lift_err f st node Hc Hr). }
  split.
  { intros f st m vname d r mvm mn vn leaf Hb Hm Hv Hl Hc Hr.
    rewrite (getMaterial_variant_leaf f st m vname d r mvm mn vn leaf Hb Hm Hv Hl).
    exact (lift_err f st leaf Hc Hr). }
  split.
  { intros f st m v d r mvm mn leaf Hb Hm Hv Hl Hc Hr.
    rewrite (getMaterial_machine_leaf f st m v d r mvm mn leaf Hb Hm Hv Hl).
    exact (lift_err f st leaf Hc Hr). }
  intros f st m n t d entry Hm Hn. unfold VariantManager.getVariant. rewrite Hm, Hn.
  split.
  - split.
    + intros (e & st' & H).
      destruct (VariantManager.containers st !! VariantManager.entry_loc entry);
        [discriminate|].
      destruct (f (VariantManager.vm_id (VariantManager.entry_metadata entry)));
        [auto|discriminate].
    + intros [Hc Hr]. rewrite Hc, Hr. eauto.
  - intros e st' H.
    destruct (VariantManager.containers st !! VariantManager.entry_loc entry) eqn:Hc;
      [discriminate|].
    destruct (f (VariantManager.vm_id (VariantManager.entry_metadata entry)));
      [|discriminate].
    inversion H. subst. exact Hc.
Qed.

(** Witness of C7: with a registry that finds nothing, the GUID lookup, the
    variant-level and the machine-level material lookups and the variant
    lookup of the scenario all raise. *)
Lemma materialization_raises_only_on_empty_lookup_witness :
  (exists e st', getMaterialByGUID Scenario.empty_registry "G1" Scenario.material_index
                 = (Err e, st') /\ containers st' !! 0 = None)
  /\ (exists e st', getMaterial Scenario.empty_registry "ultimaker3" (Some "AA 0.4")
                      float_2_85 "generic_pla" Scenario.material_index = (Err e, st')
                    /\ containers st' !! 2 = None)
  /\ (exists e st', getMaterial Scenario.empty_registry "ultimaker2_plus" None
                      float_2_85 "generic_pla" Scenario.material_index = (Err e, st')
                    /\ containers st' !! 1 = None)
  /\ (exists e st', VariantManager.getVariant Scenario.empty_registry "ultimaker3" "AA 0.4"
                      None Scenario.variant_index = (Err e, st')).
Proof.
  destruct materialization_raises_only_on_empty_lookup
    as (_ & _ & Hguid & Hvar & Hmach & Hvm).
  split; [|split; [|split]].
  - refine (Hguid Scenario.empty_registry Scenario.material_index "G1"
              {| node_loc := 0; metadata := Scenario.generic_pla |} _ _ _);
      vm_compute; reflexivity.
  - refine (Hvar Scenario.empty_registry Scenario.material_index "ultimaker3" "AA 0.4"
              float_2_85 "generic_pla"
              (default ∅ (diameter_machine_variant_material_map Scenario.material_index !! "3"))
              (default empty_machine_node (default ∅ (diameter_machine_variant_material_map
                 Scenario.material_index !! "3") !! "ultimaker3"))
              (default empty_variant_node (children_map (default empty_machine_node
                 (default ∅ (diameter_machine_variant_material_map Scenario.material_index
                   !! "3") !! "ultimaker3")) !! "AA 0.4"))
              {| node_loc := 2; metadata := Scenario.generic_pla_um3_aa04 |} _ _ _ _ _ _);
      vm_compute; reflexivity.
  - refine (Hmach Scenario.empty_registry Scenario.material_index "ultimaker2_plus" None
              float_2_85 "generic_pla"
              (default ∅ (diameter_machine_variant_material_map Scenario.material_index !! "3"))
              (default empty_machine_node (default ∅ (diameter_machine_variant_material_map
                 Scenario.material_index !! "3") !! "fdmprinter"))
              {| node_loc := 1; metadata := Scenario.generic_pla |} _ _ _ _ _ _);
      try (vm_compute; reflexivity).
    intros vname vn Hv. discriminate Hv.
  - refine (proj2 (proj1 (Hvm Scenario.empty_registry Scenario.variant_index "ultimaker3"
              "AA 0.4" None
              (default ∅ (VariantManager.machine_to_variant_dict_map Scenario.variant_index
                 !! "ultimaker3"))
              {| VariantManager.entry_loc := 0; VariantManager.entry_metadata := Scenario.aa04 |}
              _ _)) _); vm_compute; try reflexivity.
    split; reflexivity.
Defined.

(** ** Registry lookups over a sequence of queries *)

Section Lifetime.

Variable findInstanceContainers : string -> list InstanceContainer.

(** A state change of the material manager made by one materialization. *)
Definition cont_step (st st' : MaterialManager) : Prop :=
  exists n, snd (getContainerOnNode findInstanceContainers n st) = st'.

Lemma bind_steps {A B} (m : SE MaterialManager A) (k : A -> SE MaterialManager B) st :
  rtc cont_step st (snd (m st)) ->
  (forall a s, rtc cont_step s (snd (k a s))) ->
  rtc cont_step st (snd (se_bind m k st)).
Proof.
  unfold se_bind. destruct (m st) as [[a|e] s]; simpl; intros H1 H2.
  - etrans; [exact H1|apply H2].
  - exact H1.
Qed.

Ltac mm_steps :=
  repeat first
    [ apply rtc_refl
    | apply bind_steps
    | apply rtc_once; eexists; reflexivity
    | progress intros
    | match goal with |- context [match ?x with _ => _ end] => destruct x end ].

Lemma getMaterial_steps st m v d r :
  rtc cont_step st (snd (getMaterial findInstanceContainers m v d r st)).
Proof. unfold getMaterial. cbv zeta. mm_steps. Qed.

Lemma getMaterialByGUID_steps st g :
  rtc cont_step st (snd (getMaterialByGUID findInstanceContainers g st)).
Proof. unfold getMaterialByGUID. mm_steps. Qed.

Lemma run_material_queries_steps qs st :
  rtc cont_step st (Queries.run_material_queries findInstanceContainers qs st).
Proof.
  revert st. induction qs as [|q qs IH]; intros st; simpl; [apply rtc_refl|].
  etrans; [|apply IH]. destruct q; simpl;
    [apply getMaterial_steps | apply getMaterialByGUID_steps | apply rtc_refl].
Qed.

(** Every node looked up in the registry with success is cached, and was
    looked up once. *)
Definition calls_inv (st : MaterialManager) : Prop :=
  (forall n, In n (registry_calls st) -> findInstanceContainers (md_id (metadata n)) <> [] ->
             containers st !! node_loc n <> None)
  /\ (forall n, findInstanceContainers (md_id (metadata n)) <> [] ->
                Queries.calls_for_node n (registry_calls st) <= 1).

Lemma calls_inv_step st st' : cont_step st st' -> calls_inv st -> calls_inv st'.
Proof.
  intros [n <-] [I1 I2]. unfold getContainerOnNode.
  destruct (containers st !! node_loc n) as [c|] eqn:Hc; [split; assumption|].
  unfold Queries.calls_for_node in *.
  destruct (findInstanceContainers (md_id (metadata n))) as [|c cs] eqn:Hr; simpl; split.
  - intros x Hx Hf. apply in_app_or in Hx as [Hx|[<-|[]]]; [exact (I1 x Hx Hf)|].
    congruence.
  - intros x Hf. unfold Queries.calls_for_node. simpl. rewrite count_occ_app. simpl.
    destruct (decide (n = x)) as [<-|]; [congruence|]. specialize (I2 x Hf). lia.
  - intros x Hx Hf. simpl. destruct (decide (node_loc x = node_loc n)) as [E|E].
    + rewrite E, lookup_insert_eq. discriminate.
    + rewrite lookup_insert_ne by congruence.
      apply in_app_or in Hx as [Hx|[<-|[]]]; [exact (I1 x Hx Hf)|congruence].
  - intros x Hf. unfold Queries.calls_for_node. simpl. rewrite count_occ_app. simpl.
    destruct (decide (n = x)) as [<-|].
    + assert (~ In n (registry_calls st)) as Hn.
      { intros Hin. exact (I1 n Hin Hf Hc). }
      apply (count_occ_not_In (fun x y : MaterialNode => decide (x = y))) in Hn.
      rewrite Hn. lia.
    + specialize (I2 x Hf). lia.
Qed.

Lemma cached_step st st' l c :
  cont_step st st' -> containers st !! l = Some c -> containers st' !! l = Some c.
Proof.
  intros [n <-] H. unfold getContainerOnNode.
  destruct (containers st !! node_loc n) as [c'|] eqn:Hc; [exact H|].
  destruct (findInstanceContainers (md_id (metadata n))); [exact H|].
  cbn [snd containers set_container log_call].
  rewrite lookup_insert_ne; [exact H|]. intros E. rewrite E in Hc. congruence.
Qed.

Lemma initialize_guid_table_calls l st :
  registry_calls (initialize_guid_table l st) = registry_calls st.
Proof.
  revert st. induction l as [|md l IH]; intros st; simpl; [reflexivity|].
  rewrite IH. unfold add_guid_entry.
  destruct (String.eqb _ _); [reflexivity|].
  destruct (bool_decide _); [|reflexivity].
  destruct (guid_to_root_materials_map st !! md_GUID md); reflexivity.
Qed.

Lemma add_material_to_tree_calls md st :
  registry_calls (snd (add_material_to_tree md st)) = registry_calls st.
Proof.
  unfold add_material_to_tree, new_node. cbv zeta.
  repeat match goal with |- context [match ?x with _ => _ end] => destruct x
                    | |- context [if ?x then _ else _] => destruct x end;
    reflexivity.
Qed.

Lemma initialize_material_tree_calls l st :
  registry_calls (snd (initialize_material_tree l st)) = registry_calls st.
Proof.
  revert st. induction l as [|md l IH]; intros st; [reflexivity|].
  simpl. unfold se_bind. pose proof (add_material_to_tree_calls md st) as H.
  destruct (add_material_to_tree md st) as [[u|e] s]; simpl in *; [rewrite IH|]; exact H.
Qed.

Lemma initialize_calls l : registry_calls (snd (initialize l init)) = [].
Proof.
  unfold initialize. rewrite initialize_material_tree_calls, initialize_guid_table_calls.
  reflexivity.
Qed.

End Lifetime.

Section VariantLifetime.

Variable findInstanceContainers : string -> list InstanceContainer.

Definition variant_calls_inv (st : VariantManager.VariantManager) : Prop :=
  (forall e, In e (VariantManager.registry_calls st) ->
             findInstanceContainers (VariantManager.vm_id (VariantManager.entry_metadata e)) <> [] ->
             VariantManager.containers st !! VariantManager.entry_loc e <> None)
  /\ (forall e, findInstanceContainers (VariantManager.vm_id (VariantManager.entry_metadata e))
                <> [] ->
                Queries.calls_for_entry e (VariantManager.registry_calls st) <= 1).

Lemma variant_calls_inv_getVariant st m n t :
  variant_calls_inv st ->
  variant_calls_inv (snd (VariantManager.getVariant findInstanceContainers m n t st)).
Proof.
  intros [I1 I2]. unfold VariantManager.getVariant.
  destruct (VariantManager.machine_to_variant_dict_map st !! m) as [d|];
    [|split; assumption].
  destruct (d !! n) as [x|]; [|split; assumption].
  destruct (VariantManager.containers st !! VariantManager.entry_loc x) as [c|] eqn:Hc;
    [split; assumption|].
  destruct (findInstanceContainers (VariantManager.vm_id (VariantManager.entry_metadata x)))
    as [|c cs] eqn:Hr; cbn [snd]; split.
  - intros y Hy Hf. apply in_app_or in Hy as [Hy|[<-|[]]]; [exact (I1 y Hy Hf)|].
    congruence.
  - intros y Hf. unfold Queries.calls_for_entry. simpl. rewrite count_occ_app. simpl.
    destruct (decide (x = y)) as [<-|]; [congruence|].
    specialize (I2 y Hf). unfold Queries.calls_for_entry in I2. lia.
  - intros y Hy Hf. simpl.
    destruct (decide (VariantManager.entry_loc y = VariantManager.entry_loc x)) as [E|E].
    + rewrite E, lookup_insert_eq. discriminate.
    + rewrite lookup_insert_ne by congruence.
      apply in_app_or in Hy as [Hy|[<-|[]]]; [exact (I1 y Hy Hf)|congruence].
  - intros y Hf. unfold Queries.calls_for_entry. simpl. rewrite count_occ_app. simpl.
    destruct (decide (x = y)) as [<-|].
    + assert (~ In x (VariantManager.registry_calls st)) as Hn.
      { intros Hin. exact (I1 x Hin Hf Hc). }
      apply (count_occ_not_In (fun a b : VariantManager.VariantEntry => decide (a = b)))
        in Hn.
      rewrite Hn. lia.
    + specialize (I2 y Hf). unfold Queries.calls_for_entry in I2. lia.
Qed.

Lemma variant_cached_getVariant st m n t l c :
  VariantManager.containers st !! l = Some c ->
  VariantManager.containers (snd (VariantManager.getVariant findInstanceContainers m n t st))
    !! l = Some c.
Proof.
  intros H. unfold VariantManager.getVariant.
  destruct (VariantManager.machine_to_variant_dict_map st !! m) as [d|]; [|exact H].
  destruct (d !! n) as [x|]; [|exact H].
  destruct (VariantManager.containers st !! VariantManager.entry_loc x) as [c'|] eqn:Hc;
    [exact H|].
  destruct (findInstanceContainers (VariantManager.vm_id (VariantManager.entry_metadata x)));
    [exact H|].
  cbn [snd VariantManager.containers VariantManager.set_container VariantManager.log_call].
  rewrite lookup_insert_ne; [exact H|]. intros E. rewrite E in Hc. congruence.
Qed.

Lemma variant_run_queries_inv qs st :
  variant_calls_inv st -> variant_calls_inv (Queries.run_variant_queries findInstanceContainers qs st).
Proof.
  revert st. induction qs as [|q qs IH]; intros st H; simpl; [exact H|].
  apply IH. destruct q; simpl; [apply variant_calls_inv_getVariant|]; exact H.
Qed.

Lemma variant_run_queries_cached qs st l c :
  VariantManager.containers st !! l = Some c ->
  VariantManager.containers (Queries.run_variant_queries findInstanceContainers qs st) !! l
  = Some c.
Proof.
  revert st. induction qs as [|q qs IH]; intros st H; simpl; [exact H|].
  apply IH. destruct q; simpl; [apply variant_cached_getVariant|]; exact H.
Qed.

Lemma variant_initialize_calls l :
  VariantManager.registry_calls (snd (VariantManager.initialize l VariantManager.init)) = [].
Proof.
  unfold VariantManager.initialize.
  assert (forall st, VariantManager.registry_calls (snd (VariantManager.initialize_loop l st))
                     = VariantManager.registry_calls st) as H.
  { induction l as [|md l IH]; intros st; [reflexivity|].
    simpl. unfold se_bind.
    assert (VariantManager.registry_calls (snd (VariantManager.add_variant md st))
            = VariantManager.registry_calls st) as Hs.
    { unfold VariantManager.add_variant, VariantManager.new_entry. cbv zeta.
      repeat match goal with |- context [match ?x with _ => _ end] => destruct x
                        | |- context [if ?x then _ else _] => destruct x end;
        reflexivity. }
    destruct (VariantManager.add_variant md st) as [[u|e] s]; simpl in *;
      [rewrite IH|]; exact Hs. }
  apply H.
Qed.

End VariantLifetime.

(** C8: a materialized container is returned again, as the same handle and
    with no registry lookup and no state change, by the materialization step,
    [getMaterialByGUID] and [getVariant]; a cached container is never
    replaced by any later sequence of queries; and over any sequence of
    queries after [initialize], the registry is looked up at most once for
    each node (resp. variant entry) whose id it can resolve. *)
Theorem materialized_container_is_reused :
  (forall findInstanceContainers (st : MaterialManager) node c,
     containers st !! node_loc node = Some c ->
     getContainerOnNode findInstanceContainers node st = (Ok c, st))
  /\ (forall findInstanceContainers (st : MaterialManager) guid node c,
        guid_to_root_materials_map st !! guid = Some node ->
        containers st !! node_loc node = Some c ->
        getMaterialByGUID findInstanceContainers guid st = (Ok (Some c), st))
  /\ (forall findInstanceContainers (st : VariantManager.VariantManager) machine_type_name
             variant_name variant_type d entry c,
        VariantManager.machine_to_variant_dict_map st !! machine_type_name = Some d ->
        d !! variant_name = Some entry ->
        VariantManager.containers st !! VariantManager.entry_loc entry = Some c ->
        VariantManager.getVariant findInstanceContainers machine_type_name variant_name
          variant_type st = (Ok (Some c), st))
  /\ (forall findInstanceContainers (st : MaterialManager) qs l c,
        containers st !! l = Some c ->
        containers (Queries.run_material_queries findInstanceContainers qs st) !! l = Some c)
  /\ (forall findInstanceContainers (st : VariantManager.VariantManager) qs l c,
        VariantManager.containers st !! l = Some c ->
        VariantManager.containers (Queries.run_variant_queries findInstanceContainers qs st) !! l
        = Some c)
  /\ (forall findInstanceContainers material_metadata_list qs node,
        findInstanceContainers (md_id (metadata node)) <> [] ->
        Queries.calls_for_node node
          (registry_calls (Queries.run_material_queries findInstanceContainers qs
                             (snd (initialize material_metadata_list init)))) <= 1)
  /\ (forall findInstanceContainers variant_metadata_list qs entry,
        findInstanceContainers (VariantManager.vm_id (VariantManager.entry_metadata entry))
        <> [] ->
        Queries.calls_for_entry entry
          (VariantManager.registry_calls
             (Queries.run_variant_queries findInstanceContainers qs
                (snd (VariantManager.initialize variant_metadata_list VariantManager.init))))
        <= 1).
Proof.
  split.
  { intros f st node c H. unfold getContainerOnNode. rewrite H. reflexivity. }
  split.
  { intros f st guid node c Hg H. unfold getMaterialByGUID, getContainerOnNode, se_bind.
    rewrite Hg, H. reflexivity. }
  split.
  { intros f st m n t d entry c Hm Hn H. unfold VariantManager.getVariant.
    rewrite Hm, Hn, H. reflexivity. }
  split.
  { intros f st qs l c H.
    pose proof (run_material_queries_steps f qs st) as Hs.
    induction Hs as [|x y z Hxy _ IH]; [exact H|].
    exact (IH (cached_step f x y l c Hxy H)). }
  split.
  { intros f st qs l c H. exact (variant_run_queries_cached f qs st l c H). }
  split.
  { intros f l qs node Hf.
    assert (Hinv : calls_inv f (snd (initialize l init))).
    { unfold calls_inv. rewrite initialize_calls. split; [intros n []|intros n _; simpl; lia]. }
    pose proof (run_material_queries_steps f qs (snd (initialize l init))) as Hs.
    assert (calls_inv f (Queries.run_material_queries f qs (snd (initialize l init))))
      as [_ I2].
    { induction Hs as [|x y z Hxy _ IH]; [exact Hinv|].
      exact (IH (calls_inv_step f x y Hxy Hinv)). }
    exact (I2 node Hf). }
  intros f l qs entry Hf.
  assert (Hinv : variant_calls_inv f (snd (VariantManager.initialize l VariantManager.init))).
  { unfold variant_calls_inv. rewrite variant_initialize_calls.
    split; [intros e []|intros e _; simpl; lia]. }
  exact (proj2 (variant_run_queries_inv f qs _ Hinv) entry Hf).
Qed.

(** Witness of C8: a lookup of "G1" caches the root node's container; a
    second lookup of "G1", a lookup of "AA 0.4" twice, and the variant
    lookup repeated, leave one registry call per node. *)
Lemma materialized_container_is_reused_witness :
  let st1 := snd (getMaterialByGUID Scenario.registry "G1" Scenario.material_index) in
  getMaterialByGUID Scenario.registry "G1" st1 = (Ok (Some (mkInstanceContainer 11)), st1)
  /\ Queries.calls_for_node {| node_loc := 0; metadata := Scenario.generic_pla |}
       (registry_calls (Queries.run_material_queries Scenario.registry
          [Queries.QGetMaterialByGUID "G1"; Queries.QGetMaterialByGUID "G1";
           Queries.QGetMaterial "ultimaker3" (Some "AA 0.4") float_2_85 "generic_pla";
           Queries.QGetMaterial "ultimaker3" (Some "AA 0.4") float_2_85 "generic_pla"]
          (snd (initialize Scenario.materials init)))) <= 1
  /\ Queries.calls_for_entry
       {| VariantManager.entry_loc := 0; VariantManager.entry_metadata := Scenario.aa04 |}
       (VariantManager.registry_calls (Queries.run_variant_queries Scenario.registry
          [Queries.QGetVariant "ultimaker3" "AA 0.4" None;
           Queries.QGetVariant "ultimaker3" "AA 0.4" (Some "nozzle")]
          (snd (VariantManager.initialize [Scenario.aa04; Scenario.bb04]
                  VariantManager.init)))) <= 1.
Proof.
  destruct materialized_container_is_reused as (_ & Hguid & _ & _ & _ & Hm & Hv).
  intros st1. split; [|split].
  - refine (Hguid Scenario.registry st1 "G1"
              {| node_loc := 0; metadata := Scenario.generic_pla |} (mkInstanceContainer 11)
              _ _); vm_compute; reflexivity.
  - apply Hm. vm_compute. discriminate.
  - apply Hv. vm_compute. discriminate.
Defined.

(** ** The GUID table *)

Lemma add_guid_entry_lookup md (st : MaterialManager) g :
  metadata <$> guid_to_root_materials_map (add_guid_entry md st) !! g
  = match metadata <$> guid_to_root_materials_map st !! g with
    | Some m => Some m
    | None => if is_root_record md && String.eqb (md_GUID md) g then Some md else None
    end.
Proof.
  unfold add_guid_entry, is_root_record.
  destruct (String.eqb (md_id md) "empty_material"); simpl.
  { destruct (guid_to_root_materials_map st !! g); reflexivity. }
  destruct (bool_decide (Some (md_id md) = md_base_file md)); simpl.
  2:{ destruct (guid_to_root_materials_map st !! g); reflexivity. }
  destruct (String.eqb_spec (md_GUID md) g) as [<-|Hne].
  - destruct (guid_to_root_materials_map st !! md_GUID md) as [n|] eqn:E.
    + rewrite E. reflexivity.
    + simpl. rewrite lookup_insert_eq. reflexivity.
  - destruct (guid_to_root_materials_map st !! md_GUID md) as [n|] eqn:E.
    + destruct (guid_to_root_materials_map st !! g); reflexivity.
    + simpl. rewrite lookup_insert_ne by congruence.
      destruct (guid_to_root_materials_map st !! g); reflexivity.
Qed.

Lemma initialize_guid_table_lookup l (st : MaterialManager) g :
  metadata <$> guid_to_root_materials_map (initialize_guid_table l st) !! g
  = match metadata <$> guid_to_root_materials_map st !! g with
    | Some m => Some m
    | None => first_root l g
    end.
Proof.
  revert st. induction l as [|md l IH]; intros st; simpl.
  - destruct (guid_to_root_materials_map st !! g); reflexivity.
  - rewrite IH, add_guid_entry_lookup.
    destruct (metadata <$> guid_to_root_materials_map st !! g); [reflexivity|].
    destruct (is_root_record md && String.eqb (md_GUID md) g); reflexivity.
Qed.

Lemma add_material_to_tree_guid md st :
  guid_to_root_materials_map (snd (add_material_to_tree md st))
  = guid_to_root_materials_map st.
Proof.
  unfold add_material_to_tree, new_node. cbv zeta.
  repeat match goal with |- context [match ?x with _ => _ end] => destruct x
                    | |- context [if ?x then _ else _] => destruct x end;
    reflexivity.
Qed.

Lemma initialize_material_tree_guid l st :
  guid_to_root_materials_map (snd (initialize_material_tree l st))
  = guid_to_root_materials_map st.
Proof.
  revert st. induction l as [|md l IH]; intros st; [reflexivity|].
  simpl. unfold se_bind. pose proof (add_material_to_tree_guid md st) as H.
  destruct (add_material_to_tree md st) as [[u|e] s]; simpl in *; [rewrite IH|]; exact H.
Qed.

Lemma initialize_guid_lookup l g :
  metadata <$> guid_to_root_materials_map (snd (initialize l init)) !! g = first_root l g.
Proof.
  unfold initialize. rewrite initialize_material_tree_guid, initialize_guid_table_lookup.
  reflexivity.
Qed.

(** C6: Table #1 maps each GUID to a node carrying the first root record of
    the input declaring it (a record other than "empty_material" whose id
    equals its [base_file]), and to nothing when no root record declares it;
    building it raises nothing, and the second loop of [initialize] leaves
    it as it is. After a successful [initialize], [getMaterialByGUID g]
    returns [None] when no root record declares [g], and otherwise
    materializes the node of the first root record declaring [g]. *)
Theorem guid_table_first_root_wins :
  (forall (material_metadata_list : list MaterialMetadata) g,
     metadata <$> guid_to_root_materials_map
                    (initialize_guid_table material_metadata_list init) !! g
     = first_root material_metadata_list g)
  /\ (forall (material_metadata_list : list MaterialMetadata) g,
        metadata <$> guid_to_root_materials_map
                       (snd (initialize material_metadata_list init)) !! g
        = first_root material_metadata_list g)
  /\ (forall findInstanceContainers material_metadata_list st g,
        initialize material_metadata_list init = (Ok tt, st) ->
        first_root material_metadata_list g = None ->
        getMaterialByGUID findInstanceContainers g st = (Ok None, st))
  /\ (forall findInstanceContainers material_metadata_list st g md,
        initialize material_metadata_list init = (Ok tt, st) ->
        first_root material_metadata_list g = Some md ->
        exists node, metadata node = md
          /\ guid_to_root_materials_map st !! g = Some node
          /\ getMaterialByGUID findInstanceContainers g st
             = (c <-- getContainerOnNode findInstanceContainers node ;; se_ret (Some c)) st).
Proof.
  split.
  { intros l g. rewrite initialize_guid_table_lookup. reflexivity. }
  split; [exact initialize_guid_lookup|].
  split.
  { intros f l st g Hi Hr. pose proof (initialize_guid_lookup l g) as H.
    rewrite Hi, Hr in H. simpl in H. unfold getMaterialByGUID.
    destruct (guid_to_root_materials_map st !! g); [discriminate|reflexivity]. }
  intros f l st g md Hi Hr. pose proof (initialize_guid_lookup l g) as H.
  rewrite Hi, Hr in H. simpl in H. unfold getMaterialByGUID.
  destruct (guid_to_root_materials_map st !! g) as [node|]; [|discriminate].
  injection H as H. exists node. auto.
Qed.

(** Witness of C6: with two root records declaring "G1", the first one is
    the one [getMaterialByGUID "G1"] materializes, and "G2" gives [None]. *)
Lemma guid_table_first_root_wins_witness :
  let l := [Scenario.generic_pla; Scenario.generic_pla_dup_root] in
  let st := snd (initialize l init) in
  initialize l init = (Ok tt, st)
  /\ first_root l "G1" = Some Scenario.generic_pla
  /\ getMaterialByGUID Scenario.registry "G2" st = (Ok None, st)
  /\ exists node, metadata node = Scenario.generic_pla
       /\ guid_to_root_materials_map st !! "G1" = Some node
       /\ getMaterialByGUID Scenario.registry "G1" st
          = (c <-- getContainerOnNode Scenario.registry node ;; se_ret (Some c)) st.
Proof.
  intros l st.
  assert (Hi : initialize l init = (Ok tt, st)) by (vm_compute; reflexivity).
  assert (Hr : first_root l "G1" = Some Scenario.generic_pla) by (vm_compute; reflexivity).
  destruct guid_table_first_root_wins as (_ & _ & Hnone & Hsome).
  split; [exact Hi|]. split; [exact Hr|]. split.
  - refine (Hnone Scenario.registry l st "G2" Hi _). vm_compute. reflexivity.
  - exact (Hsome Scenario.registry l st "G1" Scenario.generic_pla Hi Hr).
Defined.

(** ** Duplicate entries in the second loop of [initialize] *)

Section Tree.

Variable l : list MaterialMetadata.

(** The GUID table of the state is the one Table #1 builds from [l]. *)
Definition guid_ok (st : MaterialManager) : Prop :=
  forall g, metadata <$> guid_to_root_materials_map st !! g = first_root l g.

Lemma guid_ok_root md st root :
  guid_ok st -> guid_to_root_materials_map st !! md_GUID md = Some root ->
  leaf_root_id l md = Some (md_id (metadata root)).
Proof.
  intros HG E. unfold leaf_root_id. rewrite <- HG, E. reflexivity.
Qed.

Lemma guid_ok_none md st :
  guid_ok st -> guid_to_root_materials_map st !! md_GUID md = None ->
  first_root l (md_GUID md) = None.
Proof. intros HG E. rewrite <- HG, E. reflexivity. Qed.

Lemma step_machine_leaf md st st' K :
  guid_ok st -> add_material_to_tree md st = (Ok tt, st') ->
  metadata <$> machine_leaf st' K
  = if decide (machine_leaf_key l md = Some K) then Some md
    else metadata <$> machine_leaf st K.
Proof.
  intros HG H. destruct K as [[d m] r]. unfold add_material_to_tree in H.
  destruct (String.eqb (md_id md) "empty_material") eqn:Es.
  { injection H as <-. unfold machine_leaf_key. rewrite Es. simpl. reflexivity. }
  destruct (guid_to_root_materials_map st !! md_GUID md) as [root|] eqn:Eg;
    [|discriminate].
  pose proof (guid_ok_root md st root HG Eg) as Hr. cbv zeta in H.
  destruct (py_truthy_str (md_variant_name md)) eqn:Et; simpl in H.
  - assert (Hk : machine_leaf_key l md = None)
      by (unfold machine_leaf_key; rewrite Es, Et; reflexivity).
    rewrite Hk. case_decide; [discriminate|].
    destruct (variant_material_map _ !! md_id (metadata root)); [discriminate|].
    injection H as <-. unfold machine_leaf; simpl.
    rewrite lookup_insert.
    destruct (decide (md_approximate_diameter md = d)) as [<-|Hd]; simpl; [|reflexivity].
    rewrite lookup_insert.
    destruct (decide (md_definition md = m)) as [<-|Hm]; simpl.
    + destruct (diameter_machine_variant_material_map st !! md_approximate_diameter md)
        as [mvm|]; simpl; [|rewrite lookup_empty; reflexivity].
      destruct (mvm !! md_definition md); reflexivity.
    + destruct (diameter_machine_variant_material_map st !! md_approximate_diameter md)
        as [mvm|]; simpl; [reflexivity|rewrite lookup_empty; reflexivity].
  - assert (Hk : machine_leaf_key l md
                 = Some (md_approximate_diameter md, md_definition md, md_id (metadata root)))
      by (unfold machine_leaf_key; rewrite Es, Et, Hr; reflexivity).
    rewrite Hk. injection H as <-. unfold machine_leaf; simpl.
    rewrite lookup_insert.
    destruct (decide (md_approximate_diameter md = d)) as [<-|Hd]; simpl.
    2:{ rewrite decide_False by congruence. reflexivity. }
    rewrite lookup_insert.
    destruct (decide (md_definition md = m)) as [<-|Hm]; simpl.
    2:{ rewrite decide_False by congruence.
        destruct (diameter_machine_variant_material_map st !! md_approximate_diameter md)
          as [mvm|]; simpl; [reflexivity|rewrite lookup_empty; reflexivity]. }
    rewrite lookup_insert.
    destruct (decide (md_id (metadata root) = r)) as [<-|Hrr]; simpl.
    { rewrite decide_True by reflexivity. reflexivity. }
    rewrite decide_False by congruence.
    destruct (diameter_machine_variant_material_map st !! md_approximate_diameter md)
      as [mvm|]; simpl; [|rewrite lookup_empty; reflexivity].
    destruct (mvm !! md_definition md); reflexivity.
Qed.

Lemma step_variant_leaf md st st' K :
  guid_ok st -> add_material_to_tree md st = (Ok tt, st') ->
  metadata <$> variant_leaf st' K
  = if decide (variant_leaf_key l md = Some K) then Some md
    else metadata <$> variant_leaf st K.
Proof.
  intros HG H. destruct K as [[[d m] v] r]. unfold add_material_to_tree in H.
  destruct (String.eqb (md_id md) "empty_material") eqn:Es.
  { injection H as <-. unfold variant_leaf_key. rewrite Es. simpl. reflexivity. }
  destruct (guid_to_root_materials_map st !! md_GUID md) as [root|] eqn:Eg;
    [|discriminate].
  pose proof (guid_ok_root md st root HG Eg) as Hr. cbv zeta in H.
  destruct (py_truthy_str (md_variant_name md)) eqn:Et; simpl in H.
  - assert (Hk : variant_leaf_key l md
                 = Some (md_approximate_diameter md, md_definition md,
                         default "" (md_variant_name md), md_id (metadata root)))
      by (unfold variant_leaf_key; rewrite Es, Et, Hr; reflexivity).
    rewrite Hk.
    destruct (variant_material_map _ !! md_id (metadata root)) eqn:Ev; [discriminate|].
    injection H as <-. unfold variant_leaf; simpl.
    rewrite lookup_insert.
    destruct (decide (md_approximate_diameter md = d)) as [<-|Hd]; simpl.
    2:{ rewrite decide_False by congruence. reflexivity. }
    rewrite lookup_insert.
    destruct (decide (md_definition md = m)) as [<-|Hm]; simpl.
    2:{ rewrite decide_False by congruence.
        destruct (diameter_machine_variant_material_map st !! md_approximate_diameter md)
          as [mvm|]; simpl; [reflexivity|rewrite lookup_empty; reflexivity]. }
    rewrite lookup_insert.
    destruct (decide (default "" (md_variant_name md) = v)) as [<-|Hv]; simpl.
    2:{ rewrite decide_False by congruence.
        destruct (diameter_machine_variant_material_map st !! md_approximate_diameter md)
          as [mvm|]; simpl; [|rewrite lookup_empty; reflexivity].
        destruct (mvm !! md_definition md); reflexivity. }
    rewrite lookup_insert.
    destruct (decide (md_id (metadata root) = r)) as [<-|Hrr]; simpl.
    { rewrite decide_True by reflexivity. reflexivity. }
    rewrite decide_False by congruence.
    destruct (diameter_machine_variant_material_map st !! md_approximate_diameter md)
      as [mvm|]; simpl; [|rewrite lookup_empty; reflexivity].
    destruct (mvm !! md_definition md) as [mn|]; simpl; [|reflexivity].
    destruct (children_map mn !! default "" (md_variant_name md)); reflexivity.
  - assert (Hk : variant_leaf_key l md = None)
      by (unfold variant_leaf_key; rewrite Es, Et; reflexivity).
    rewrite Hk. case_decide; [discriminate|].
    injection H as <-. unfold variant_leaf; simpl.
    rewrite lookup_insert.
    destruct (decide (md_approximate_diameter md = d)) as [<-|Hd]; simpl; [|reflexivity].
    rewrite lookup_insert.
    destruct (decide (md_definition md = m)) as [<-|Hm]; simpl.
    + destruct (diameter_machine_variant_material_map st !! md_approximate_diameter md)
        as [mvm|]; simpl; [|rewrite lookup_empty; reflexivity].
      destruct (mvm !! md_definition md); reflexivity.
    + destruct (diameter_machine_variant_material_map st !! md_approximate_diameter md)
        as [mvm|]; simpl; [reflexivity|rewrite lookup_empty; reflexivity].
Qed.

Lemma step_err md st st' e :
  guid_ok st -> add_material_to_tree md st = (Err e, st') ->
  (String.eqb (md_id md) "empty_material" = false /\ first_root l (md_GUID md) = None)
  \/ (exists K, variant_leaf_key l md = Some K /\ is_Some (variant_leaf st K)
               /\ exists msg, e = RuntimeError msg).
Proof.
  intros HG H. unfold add_material_to_tree in H.
  destruct (String.eqb (md_id md) "empty_material") eqn:Es; [discriminate|].
  destruct (guid_to_root_materials_map st !! md_GUID md) as [root|] eqn:Eg.
  2:{ left. split; [reflexivity|]. exact (guid_ok_none md st HG Eg). }
  right. pose proof (guid_ok_root md st root HG Eg) as Hr. cbv zeta in H.
  destruct (py_truthy_str (md_variant_name md)) eqn:Et; simpl in H; [|discriminate].
  destruct (variant_material_map _ !! md_id (metadata root)) as [leaf|] eqn:Ev;
    [|discriminate].
  injection H as <- <-.
  eexists. split.
  { unfold variant_leaf_key. rewrite Es, Et, Hr. reflexivity. }
  split; [|eexists; reflexivity].
  unfold variant_leaf.
  destruct (diameter_machine_variant_material_map st !! md_approximate_diameter md)
    as [mvm|]; simpl in Ev |- *; [|rewrite lookup_empty in Ev; discriminate].
  destruct (mvm !! md_definition md) as [mn|]; simpl in Ev |- *;
    [|rewrite lookup_empty in Ev; discriminate].
  destruct (children_map mn !! default "" (md_variant_name md)); simpl in Ev |- *;
    [|rewrite lookup_empty in Ev; discriminate].
  rewrite Ev. eexists; reflexivity.
Qed.

Lemma step_dup md st K :
  guid_ok st -> variant_leaf_key l md = Some K -> is_Some (variant_leaf st K) ->
  exists msg st', add_material_to_tree md st = (Err (RuntimeError msg), st').
Proof.
  intros HG Hk [leaf Hl]. destruct K as [[[d m] v] r].
  unfold variant_leaf_key in Hk. unfold add_material_to_tree.
  destruct (String.eqb (md_id md) "empty_material") eqn:Es; [discriminate|].
  destruct (py_truthy_str (md_variant_name md)) eqn:Et; [|discriminate].
  simpl in Hk. unfold leaf_root_id in Hk.
  destruct (guid_to_root_materials_map st !! md_GUID md) as [root|] eqn:Eg.
  2:{ rewrite (guid_ok_none md st HG Eg) in Hk. discriminate. }
  pose proof (guid_ok_root md st root HG Eg) as Hr. unfold leaf_root_id in Hr.
  rewrite Hr in Hk. simpl in Hk. injection Hk as <- <- <- <-.
  cbv beta zeta. simpl.
  unfold variant_leaf in Hl.
  destruct (diameter_machine_variant_material_map st !! md_approximate_diameter md)
    as [mvm|]; simpl in Hl |- *; [|discriminate].
  destruct (mvm !! md_definition md) as [mn|]; simpl in Hl |- *; [|discriminate].
  destruct (children_map mn !! default "" (md_variant_name md)); simpl in Hl |- *;
    [|discriminate].
  rewrite Hl. eauto.
Qed.

Lemma step_guid_ok md st st' r :
  guid_ok st -> add_material_to_tree md st = (r, st') -> guid_ok st'.
Proof.
  intros HG H g. pose proof (add_material_to_tree_guid md st) as E.
  rewrite H in E. simpl in E. rewrite E. apply HG.
Qed.

Lemma initialize_material_tree_app p1 p2 st :
  initialize_material_tree (p1 ++ p2) st
  = (_ <-- initialize_material_tree p1 ;; initialize_material_tree p2) st.
Proof.
  revert st. induction p1 as [|md p1 IH]; intros st; simpl; [reflexivity|].
  unfold se_bind. destruct (add_material_to_tree md st) as [[u|e] s]; [|reflexivity].
  rewrite IH. reflexivity.
Qed.

Lemma tree_ok_variant_leaf p st st' K :
  guid_ok st -> initialize_material_tree p st = (Ok tt, st') ->
  is_Some (variant_leaf st K) -> is_Some (variant_leaf st' K).
Proof.
  revert st. induction p as [|md p IH]; intros st HG H HK.
  { injection H as <-. exact HK. }
  simpl in H. unfold se_bind in H.
  destruct (add_material_to_tree md st) as [[[]|e] s] eqn:E; [|discriminate].
  apply (IH s); [exact (step_guid_ok md st s _ HG E)|exact H|].
  pose proof (step_variant_leaf md st s K HG E) as Hs.
  apply (fmap_is_Some metadata). rewrite Hs.
  case_decide; [eexists; reflexivity|]. apply fmap_is_Some. exact HK.
Qed.

Lemma tree_variant_leaf_err p st md K :
  guid_ok st -> is_Some (variant_leaf st K) -> In md p -> variant_leaf_key l md = Some K ->
  exists e, fst (initialize_material_tree p st) = Err e.
Proof.
  revert st. induction p as [|md0 p IH]; intros st HG HK Hin Hk; [destruct Hin|].
  simpl. unfold se_bind.
  destruct (add_material_to_tree md0 st) as [[[]|e] s] eqn:E; [|eexists; reflexivity].
  destruct Hin as [<-|Hin].
  - destruct (step_dup md0 st K HG Hk HK) as (msg & st' & E'). congruence.
  - apply (IH s); [exact (step_guid_ok md0 st s _ HG E)| |exact Hin|exact Hk].
    pose proof (step_variant_leaf md0 st s K HG E) as Hs.
    apply (fmap_is_Some metadata). rewrite Hs.
    case_decide; [eexists; reflexivity|]. apply fmap_is_Some. exact HK.
Qed.

Lemma tree_dup_err (p1 : list MaterialMetadata) md1 p2 md2 p3 st K :
  guid_ok st -> variant_leaf_key l md1 = Some K -> variant_leaf_key l md2 = Some K ->
  exists e, fst (initialize_material_tree (p1 ++ md1 :: p2 ++ md2 :: p3)%list st) = Err e.
Proof.
  intros HG H1 H2. rewrite initialize_material_tree_app. unfold se_bind at 1.
  pose proof (initialize_material_tree_guid p1 st) as Eg.
  destruct (initialize_material_tree p1 st) as [[[]|e] s] eqn:E; [|eexists; reflexivity].
  assert (HG1 : guid_ok s) by (intros g; simpl in Eg; rewrite Eg; apply HG).
  simpl. unfold se_bind.
  destruct (add_material_to_tree md1 s) as [[[]|e] s'] eqn:E1; [|eexists; reflexivity].
  apply (tree_variant_leaf_err (p2 ++ md2 :: p3) s' md2 K);
    [exact (step_guid_ok md1 s s' _ HG1 E1)| |apply in_or_app; right; left; reflexivity|
     exact H2].
  pose proof (step_variant_leaf md1 s s' K HG1 E1) as Hs.
  apply (fmap_is_Some metadata). rewrite Hs. rewrite decide_True by exact H1.
  eexists; reflexivity.
Qed.

Lemma tree_err_kind p st e s :
  guid_ok st -> initialize_material_tree p st = (Err e, s) ->
  (exists md, In md p /\ String.eqb (md_id md) "empty_material" = false
              /\ first_root l (md_GUID md) = None)
  \/ exists msg, e = RuntimeError msg.
Proof.
  revert st. induction p as [|md p IH]; intros st HG H; [discriminate|].
  simpl in H. unfold se_bind in H.
  destruct (add_material_to_tree md st) as [[[]|e'] s'] eqn:E.
  - destruct (IH s' (step_guid_ok md st s' _ HG E) H) as [(md' & Hin & Hrest)|Hm].
    + left. exists md'. split; [right; exact Hin|exact Hrest].
    + right. exact Hm.
  - injection H as He Hs'. subst e' s'.
    destruct (step_err md st s e HG E) as [[Hs Hr]|(K & _ & _ & Hm)].
    + left. exists md. split; [left; reflexivity|]. auto.
    + right. exact Hm.
Qed.

Lemma tree_err_cause p st e s :
  guid_ok st -> initialize_material_tree p st = (Err e, s) ->
  (exists md, In md p /\ String.eqb (md_id md) "empty_material" = false
              /\ first_root l (md_GUID md) = None)
  \/ (exists md K, In md p /\ variant_leaf_key l md = Some K /\ is_Some (variant_leaf st K))
  \/ (exists (p1 : list MaterialMetadata) md1 p2 md2 p3 K, p = (p1 ++ md1 :: p2 ++ md2 :: p3)%list
        /\ variant_leaf_key l md1 = Some K /\ variant_leaf_key l md2 = Some K).
Proof.
  revert st. induction p as [|md p IH]; intros st HG H; [discriminate|].
  simpl in H. unfold se_bind in H.
  destruct (add_material_to_tree md st) as [[[]|e'] s'] eqn:E.
  - destruct (IH s' (step_guid_ok md st s' _ HG E) H)
      as [(md' & Hin & Hrest)|[(md' & K & Hin & Hk & HK)|(p1 & md1 & p2 & md2 & p3 & K & -> & H1 & H2)]].
    + left. exists md'. split; [right; exact Hin|exact Hrest].
    + pose proof (step_variant_leaf md st s' K HG E) as Hs.
      case_decide as Hmd.
      * right; right. apply in_split in Hin as (p2 & p3 & ->).
        exists [], md, p2, md', p3, K. auto.
      * right; left. exists md', K. split; [right; exact Hin|]. split; [exact Hk|].
        apply (fmap_is_Some metadata). rewrite <- Hs. apply fmap_is_Some. exact HK.
    + right; right. exists (md :: p1), md1, p2, md2, p3, K. auto.
  - injection H as He Hs'. subst e' s'.
    destruct (step_err md st s e HG E) as [[Hs Hr]|(K & Hk & HK & _)].
    + left. exists md. split; [left; reflexivity|]. auto.
    + right; left. exists md, K. split; [left; reflexivity|]. auto.
Qed.

Lemma find_app {A} (f : A -> bool) (p1 p2 : list A) :
  find f (p1 ++ p2) = match find f p1 with Some x => Some x | None => find f p2 end.
Proof.
  induction p1 as [|a p1 IH]; simpl; [destruct (find f p2); reflexivity|].
  destruct (f a); [reflexivity|exact IH].
Qed.

Lemma tree_machine_leaf p st st' K :
  guid_ok st -> initialize_material_tree p st = (Ok tt, st') ->
  metadata <$> machine_leaf st' K
  = match find (fun md => bool_decide (machine_leaf_key l md = Some K)) (rev p) with
    | Some md => Some md
    | None => metadata <$> machine_leaf st K
    end.
Proof.
  revert st. induction p as [|md p IH]; intros st HG H.
  { injection H as <-. reflexivity. }
  simpl in H. unfold se_bind in H.
  destruct (add_material_to_tree md st) as [[[]|e] s] eqn:E; [|discriminate].
  rewrite (IH s (step_guid_ok md st s _ HG E) H).
  simpl. rewrite find_app. simpl.
  rewrite (step_machine_leaf md st s K HG E).
  destruct (find _ (rev p)) as [x|]; [reflexivity|].
  case_decide as Hk.
  - rewrite bool_decide_true by exact Hk. reflexivity.
  - rewrite bool_decide_false by exact Hk. reflexivity.
Qed.

End Tree.

Lemma initialize_guid_table_tree l (st : MaterialManager) :
  diameter_machine_variant_material_map (initialize_guid_table l st)
  = diameter_machine_variant_material_map st.
Proof.
  revert st. induction l as [|md l IH]; intros st; simpl; [reflexivity|].
  rewrite IH. unfold add_guid_entry.
  destruct (String.eqb (md_id md) "empty_material"); [reflexivity|].
  case_bool_decide; [|reflexivity].
  destruct (guid_to_root_materials_map st !! md_GUID md); reflexivity.
Qed.

Lemma initialize_pass1_guid_ok l : guid_ok l (initialize_guid_table l init).
Proof.
  intros g. rewrite initialize_guid_table_lookup. reflexivity.
Qed.

Lemma initialize_pass1_no_leaves l :
  (forall K, machine_leaf (initialize_guid_table l init) K = None)
  /\ (forall K, variant_leaf (initialize_guid_table l init) K = None).
Proof.
  split; intros K.
  - destruct K as [[d m] r]. unfold machine_leaf. rewrite initialize_guid_table_tree.
    reflexivity.
  - destruct K as [[[d m] v] r]. unfold variant_leaf. rewrite initialize_guid_table_tree.
    reflexivity.
Qed.

Section VariantIndex.
Import VariantManager.

Lemma add_variant_entry v st st' m n :
  add_variant v st = (Ok tt, st') ->
  is_Some (variant_entry st' m n)
  <-> variant_entry_key v = Some (m, n) \/ is_Some (variant_entry st m n).
Proof.
  intros H. unfold add_variant in H. unfold variant_entry_key.
  case_bool_decide as Hx.
  { injection H as <-. split; [intros Hs; right; exact Hs|].
    intros [?|Hs]; [discriminate|exact Hs]. }
  destruct (machine_to_variant_dict_map st !! vm_definition v) as [d0|] eqn:E0.
  - simpl in H. rewrite E0 in H. simpl in H.
    destruct (d0 !! vm_name v) as [x|] eqn:E1; [discriminate|].
    injection H as <-. unfold variant_entry. simpl.
    destruct (decide (m = vm_definition v)) as [->|Hm].
    + rewrite lookup_insert_eq, E0.
      destruct (decide (n = vm_name v)) as [->|Hn].
      * rewrite lookup_insert_eq. split; [intros _; left; reflexivity|intros _; eexists; reflexivity].
      * rewrite lookup_insert_ne by congruence. split; [intros Hs; right; exact Hs|].
        intros [Hk|Hs]; [congruence|exact Hs].
    + rewrite lookup_insert_ne by congruence. split; [intros Hs; right; exact Hs|].
      intros [Hk|Hs]; [congruence|exact Hs].
  - simpl in H. rewrite lookup_insert_eq in H. simpl in H.
    rewrite lookup_empty in H. injection H as <-. unfold variant_entry. simpl.
    destruct (decide (m = vm_definition v)) as [->|Hm].
    + rewrite lookup_insert_eq, E0.
      destruct (decide (n = vm_name v)) as [->|Hn].
      * rewrite lookup_insert_eq. split; [intros _; left; reflexivity|intros _; eexists; reflexivity].
      * rewrite lookup_insert_ne, lookup_empty by congruence.
        split; [intros Hs; destruct Hs; discriminate|].
        intros [Hk|Hs]; [congruence|destruct Hs; discriminate].
    + rewrite lookup_insert_ne, lookup_insert_ne by congruence.
      split; [intros Hs; right; exact Hs|].
      intros [Hk|Hs]; [congruence|exact Hs].
Qed.

Lemma add_variant_dup v st m n :
  variant_entry_key v = Some (m, n) -> is_Some (variant_entry st m n) ->
  exists msg st', add_variant v st = (Err (RuntimeError msg), st').
Proof.
  intros Hk [x Hx]. unfold variant_entry_key in Hk. unfold add_variant.
  case_bool_decide as Hex; [discriminate|]. injection Hk as <- <-.
  unfold variant_entry in Hx.
  destruct (machine_to_variant_dict_map st !! vm_definition v) as [d0|] eqn:E0;
    [|discriminate].
  simpl. rewrite E0. simpl. rewrite Hx. eexists _, _. reflexivity.
Qed.

Lemma add_variant_err v st e st' :
  add_variant v st = (Err e, st') -> exists msg, e = RuntimeError msg.
Proof.
  unfold add_variant. case_bool_decide as Hx; [discriminate|].
  destruct (_ !! vm_name v); [|destruct new_entry; discriminate].
  intros Heq. injection Heq as <- _. eexists. reflexivity.
Qed.

Lemma initialize_loop_app (p1 p2 : list VariantMetadata) st :
  initialize_loop (p1 ++ p2)%list st
  = (_ <-- initialize_loop p1 ;; initialize_loop p2) st.
Proof.
  revert st. induction p1 as [|v p1 IH]; intros st; simpl; [reflexivity|].
  unfold se_bind. destruct (add_variant v st) as [[u|e] s]; [|reflexivity].
  rewrite IH. reflexivity.
Qed.

Lemma initialize_loop_err p st e s :
  initialize_loop p st = (Err e, s) -> exists msg, e = RuntimeError msg.
Proof.
  revert st. induction p as [|v p IH]; intros st H; [discriminate|].
  simpl in H. unfold se_bind in H.
  destruct (add_variant v st) as [[[]|e'] s'] eqn:E.
  - exact (IH s' H).
  - injection H as <- _. exact (add_variant_err v st e' s' E).
Qed.

Lemma initialize_loop_entry_err p st v m n :
  is_Some (variant_entry st m n) -> In v p -> variant_entry_key v = Some (m, n) ->
  exists e, fst (initialize_loop p st) = Err e.
Proof.
  revert st. induction p as [|v0 p IH]; intros st HK Hin Hk; [destruct Hin|].
  simpl. unfold se_bind.
  destruct (add_variant v0 st) as [[[]|e] s] eqn:E; [|eexists; reflexivity].
  destruct Hin as [<-|Hin].
  - destruct (add_variant_dup v0 st m n Hk HK) as (msg & st' & E'). congruence.
  - apply (IH s); [|exact Hin|exact Hk].
    apply (add_variant_entry v0 st s m n E). right. exact HK.
Qed.

Lemma initialize_loop_dup (p1 : list VariantMetadata) v1 p2 v2 p3 st m n :
  variant_entry_key v1 = Some (m, n) -> variant_entry_key v2 = Some (m, n) ->
  exists msg, fst (initialize_loop (p1 ++ v1 :: p2 ++ v2 :: p3)%list st)
              = Err (RuntimeError msg).
Proof.
  intros H1 H2.
  destruct (initialize_loop (p1 ++ v1 :: p2 ++ v2 :: p3)%list st) as [r s] eqn:Er.
  assert (He : exists e, r = Err e).
  { rewrite initialize_loop_app in Er. unfold se_bind at 1 in Er.
    destruct (initialize_loop p1 st) as [[[]|e] s1] eqn:E; [|injection Er as <- _; eauto].
    simpl in Er. unfold se_bind in Er.
    destruct (add_variant v1 s1) as [[[]|e] s2] eqn:E1; [|injection Er as <- _; eauto].
    destruct (initialize_loop_entry_err (p2 ++ v2 :: p3)%list s2 v2 m n) as [e He];
      [|apply in_or_app; right; left; reflexivity|exact H2|].
    - apply (add_variant_entry v1 s1 s2 m n E1). left. exact H1.
    - rewrite Er in He. simpl in He. eauto. }
  destruct He as [e ->]. destruct (initialize_loop_err _ _ e s Er) as [msg ->].
  exists msg. reflexivity.
Qed.

End VariantIndex.

(** C1, the counterexample: two machine-level records of ultimaker3 whose
    GUID resolves to the root generic_pla share the key
    ("3", "ultimaker3", "generic_pla"); [initialize] succeeds and the leaf
    holds the later record. *)
Lemma machine_level_duplicate_overwrites :
  fst (initialize [Scenario.generic_pla; Scenario.generic_pla_um3;
                   Scenario.generic_pla_um3_copy] init) = Ok tt
  /\ metadata <$> machine_leaf
       (snd (initialize [Scenario.generic_pla; Scenario.generic_pla_um3;
                         Scenario.generic_pla_um3_copy] init))
       ("3", "ultimaker3", "generic_pla")
     = Some Scenario.generic_pla_um3_copy.
Proof. vm_compute. split; reflexivity. Qed.

(** C1 (amended): duplicate keys in the two builds.
    - Two variant-level material records with the same
      (diameter, machine, variant name, root material id) make
      [MaterialManager.initialize] fail; the error is the RuntimeError of
      the duplicate check unless some record's GUID has no root record.
    - Two Variant Index records with the same (machine, variant name) make
      [VariantManager.initialize] fail with a RuntimeError.
    - [MaterialManager.initialize] fails only on a record whose GUID has no
      root record or on such a variant-level duplicate: two machine-level
      records with the same (diameter, machine, root material id) raise
      nothing.
    - After a successful build each machine-level leaf holds the LAST record
      of the input with its key: a later duplicate overwrites an earlier
      one. *)
Theorem initialize_duplicate_keys :
  (forall (l p1 : list MaterialMetadata) md1 p2 md2 p3 K,
     l = (p1 ++ md1 :: p2 ++ md2 :: p3)%list ->
     variant_leaf_key l md1 = Some K -> variant_leaf_key l md2 = Some K ->
     exists e, fst (initialize l init) = Err e
       /\ ((forall md, In md l -> String.eqb (md_id md) "empty_material" = false ->
                       is_Some (first_root l (md_GUID md))) ->
           exists msg, e = RuntimeError msg))
  /\ (forall (l p1 : list VariantManager.VariantMetadata) v1 p2 v2 p3 K,
     l = (p1 ++ v1 :: p2 ++ v2 :: p3)%list ->
     variant_entry_key v1 = Some K -> variant_entry_key v2 = Some K ->
     exists msg, fst (VariantManager.initialize l VariantManager.init)
                 = Err (RuntimeError msg))
  /\ (forall l e, fst (initialize l init) = Err e ->
       (exists md, In md l /\ String.eqb (md_id md) "empty_material" = false
                   /\ first_root l (md_GUID md) = None)
       \/ (exists (p1 : list MaterialMetadata) md1 p2 md2 p3 K,
             l = (p1 ++ md1 :: p2 ++ md2 :: p3)%list
             /\ variant_leaf_key l md1 = Some K /\ variant_leaf_key l md2 = Some K))
  /\ (forall l st, initialize l init = (Ok tt, st) -> forall K,
       metadata <$> machine_leaf st K
       = find (fun md => bool_decide (machine_leaf_key l md = Some K)) (rev l)).
Proof.
  split; [|split; [|split]].
  - intros l p1 md1 p2 md2 p3 K Hl H1 H2. unfold initialize.
    pose proof (initialize_pass1_guid_ok l) as HG.
    destruct (initialize_material_tree l (initialize_guid_table l init)) as [r s] eqn:E.
    destruct (tree_dup_err l p1 md1 p2 md2 p3 (initialize_guid_table l init) K HG H1 H2)
      as [e He].
    rewrite <- Hl, E in He. simpl in He. subst r.
    exists e. split; [reflexivity|]. intros Hroots.
    destruct (tree_err_kind l l _ e s HG E) as [(md & Hin & Hs & Hn)|Hm]; [|exact Hm].
    destruct (Hroots md Hin Hs) as [x Hx]. congruence.
  - intros l p1 v1 p2 v2 p3 [m n] -> H1 H2.
    exact (initialize_loop_dup p1 v1 p2 v2 p3 VariantManager.init m n H1 H2).
  - intros l e H. unfold initialize in H.
    pose proof (initialize_pass1_guid_ok l) as HG.
    destruct (initialize_material_tree l (initialize_guid_table l init)) as [r s] eqn:E.
    simpl in H. subst r.
    destruct (tree_err_cause l l _ e s HG E) as [A|[(md & K & Hin & Hk & HK)|B]].
    + left. exact A.
    + rewrite (proj2 (initialize_pass1_no_leaves l)) in HK. destruct HK; discriminate.
    + right. exact B.
  - intros l st H K. unfold initialize in H.
    rewrite (tree_machine_leaf l l _ st K (initialize_pass1_guid_ok l) H).
    rewrite (proj1 (initialize_pass1_no_leaves l)).
    destruct (find _ (rev l)); reflexivity.
Qed.

Lemma initialize_duplicate_keys_witness :
  (exists e, fst (initialize [Scenario.generic_pla; Scenario.generic_pla_um3_aa04;
                              Scenario.generic_pla_um3_aa04] init) = Err e)
  /\ (exists msg, fst (VariantManager.initialize [Scenario.aa04; Scenario.aa04]
                         VariantManager.init) = Err (RuntimeError msg))
  /\ metadata <$> machine_leaf
       (snd (initialize [Scenario.generic_pla; Scenario.generic_pla_um3;
                         Scenario.generic_pla_um3_copy] init))
       ("3", "ultimaker3", "generic_pla")
     = find (fun md => bool_decide (machine_leaf_key
                 [Scenario.generic_pla; Scenario.generic_pla_um3;
                  Scenario.generic_pla_um3_copy] md = Some ("3", "ultimaker3", "generic_pla")))
            (rev [Scenario.generic_pla; Scenario.generic_pla_um3;
                  Scenario.generic_pla_um3_copy]).
Proof.
  destruct initialize_duplicate_keys as (HA & HB & HC & HD).
  split; [|split].
  - destruct (HA [Scenario.generic_pla; Scenario.generic_pla_um3_aa04;
                  Scenario.generic_pla_um3_aa04]
                 [Scenario.generic_pla] Scenario.generic_pla_um3_aa04 []
                 Scenario.generic_pla_um3_aa04 [] ("3", "ultimaker3", "AA 0.4", "generic_pla"))
      as [e [He _]]; [reflexivity|vm_compute; reflexivity|vm_compute; reflexivity|].
    exists e. exact He.
  - exact (HB [Scenario.aa04; Scenario.aa04] [] Scenario.aa04 [] Scenario.aa04 []
              ("ultimaker3", "AA 0.4") eq_refl eq_refl eq_refl).
  - apply (HD [Scenario.generic_pla; Scenario.generic_pla_um3; Scenario.generic_pla_um3_copy]
              (snd (initialize [Scenario.generic_pla; Scenario.generic_pla_um3;
                                Scenario.generic_pla_um3_copy] init))).
    vm_compute. reflexivity.
Defined.

(** ** Further properties of the two builds and of the queries *)

Section Tree2.

Variable l : list MaterialMetadata.

Lemma step_err_state md st e st' :
  add_material_to_tree md st = (Err e, st') -> st' = st.
Proof.
  unfold add_material_to_tree. destruct (String.eqb _ _); [discriminate|].
  destruct (guid_to_root_materials_map st !! md_GUID md) as [root|];
    [|intros H; injection H as _ <-; reflexivity].
  cbv zeta. destruct (negb _); [destruct new_node; discriminate|].
  destruct (variant_material_map _ !! _); [|destruct new_node; discriminate].
  intros H. injection H as _ <-. reflexivity.
Qed.

Lemma step_missing_root md st :
  guid_ok l st -> String.eqb (md_id md) "empty_material" = false ->
  first_root l (md_GUID md) = None ->
  add_material_to_tree md st = (Err (KeyError (md_GUID md)), st).
Proof.
  intros HG Hs Hn. unfold add_material_to_tree. rewrite Hs.
  specialize (HG (md_GUID md)). rewrite Hn in HG.
  destruct (guid_to_root_materials_map st !! md_GUID md); [discriminate|reflexivity].
Qed.

Lemma step_machine_node md st st' d m :
  add_material_to_tree md st = (Ok tt, st') ->
  is_Some (machine_node_at st' d m)
  <-> (String.eqb (md_id md) "empty_material" = false
       /\ md_approximate_diameter md = d /\ md_definition md = m)
      \/ is_Some (machine_node_at st d m).
Proof.
  intros H. unfold add_material_to_tree in H.
  destruct (String.eqb (md_id md) "empty_material") eqn:Es.
  { injection H as <-. split; [intros Hs; right; exact Hs|].
    intros [(? & _)|Hs]; [discriminate|exact Hs]. }
  destruct (guid_to_root_materials_map st !! md_GUID md) as [root|]; [|discriminate].
  cbv zeta in H.
  assert (Hst : exists mn', diameter_machine_variant_material_map st'
            = <[md_approximate_diameter md := <[md_definition md := mn']>
                 (default ∅ (diameter_machine_variant_material_map st
                               !! md_approximate_diameter md))]>
                (diameter_machine_variant_material_map st)).
  { destruct (negb _); simpl in H.
    - injection H as <-. eexists. reflexivity.
    - destruct (variant_material_map _ !! _); [discriminate|].
      injection H as <-. eexists. reflexivity. }
  destruct Hst as [mn' Hst]. unfold machine_node_at. rewrite Hst.
  destruct (decide (md_approximate_diameter md = d)) as [<-|Hd].
  - rewrite lookup_insert_eq.
    destruct (decide (md_definition md = m)) as [<-|Hm].
    + rewrite lookup_insert_eq. split; [intros _; left; auto|intros _; eexists; reflexivity].
    + rewrite lookup_insert_ne by congruence.
      destruct (diameter_machine_variant_material_map st !! md_approximate_diameter md);
        simpl; [|rewrite lookup_empty];
        (split; [intros Hs; right; exact Hs|intros [(_ & _ & ?)|Hs]; [congruence|exact Hs]]).
  - rewrite lookup_insert_ne by congruence.
    split; [intros Hs; right; exact Hs|intros [(_ & ? & _)|Hs]; [congruence|exact Hs]].
Qed.

Lemma tree_variant_leaf p st st' K :
  guid_ok l st -> initialize_material_tree p st = (Ok tt, st') ->
  metadata <$> variant_leaf st' K
  = match find (fun md => bool_decide (variant_leaf_key l md = Some K)) (rev p) with
    | Some md => Some md
    | None => metadata <$> variant_leaf st K
    end.
Proof.
  revert st. induction p as [|md p IH]; intros st HG H.
  { injection H as <-. reflexivity. }
  simpl in H. unfold se_bind in H.
  destruct (add_material_to_tree md st) as [[[]|e] s] eqn:E; [|discriminate].
  rewrite (IH s (step_guid_ok l md st s _ HG E) H).
  simpl. rewrite find_app. simpl.
  rewrite (step_variant_leaf l md st s K HG E).
  destruct (find _ (rev p)) as [x|]; [reflexivity|].
  case_decide as Hk.
  - rewrite bool_decide_true by exact Hk. reflexivity.
  - rewrite bool_decide_false by exact Hk. reflexivity.
Qed.

Lemma tree_missing_err p st md :
  guid_ok l st -> In md p -> String.eqb (md_id md) "empty_material" = false ->
  first_root l (md_GUID md) = None ->
  exists e, fst (initialize_material_tree p st) = Err e.
Proof.
  revert st. induction p as [|md0 p IH]; intros st HG Hin Hs Hn; [destruct Hin|].
  simpl. unfold se_bind.
  destruct (add_material_to_tree md0 st) as [[[]|e] s] eqn:E; [|eexists; reflexivity].
  destruct Hin as [<-|Hin].
  - rewrite (step_missing_root md0 st HG Hs Hn) in E. discriminate.
  - exact (IH s (step_guid_ok l md0 st s _ HG E) Hin Hs Hn).
Qed.

Lemma tree_machine_node p st st' d m :
  initialize_material_tree p st = (Ok tt, st') ->
  is_Some (machine_node_at st' d m)
  <-> (exists md, In md p /\ String.eqb (md_id md) "empty_material" = false
                  /\ md_approximate_diameter md = d /\ md_definition md = m)
      \/ is_Some (machine_node_at st d m).
Proof.
  revert st. induction p as [|md p IH]; intros st H.
  { injection H as <-. split; [intros Hs; right; exact Hs|].
    intros [(md & [] & _)|Hs]; exact Hs. }
  simpl in H. unfold se_bind in H.
  destruct (add_material_to_tree md st) as [[[]|e] s] eqn:E; [|discriminate].
  rewrite (IH s H), (step_machine_node md st s d m E). split.
  - intros [(md' & Hin & Hrest)|[Hmd|Hs]].
    + left. exists md'. split; [right; exact Hin|exact Hrest].
    + left. exists md. split; [left; reflexivity|exact Hmd].
    + right. exact Hs.
  - intros [(md' & [<-|Hin] & Hrest)|Hs].
    + right. left. exact Hrest.
    + left. exists md'. split; [exact Hin|exact Hrest].
    + right. right. exact Hs.
Qed.

(** Leaves of the tree never hold the empty material. *)
Definition no_empty_leaf (st : MaterialManager) : Prop :=
  (forall K n, machine_leaf st K = Some n ->
               String.eqb (md_id (metadata n)) "empty_material" = false)
  /\ (forall K n, variant_leaf st K = Some n ->
                  String.eqb (md_id (metadata n)) "empty_material" = false).

Lemma key_not_empty_machine md K :
  machine_leaf_key l md = Some K -> String.eqb (md_id md) "empty_material" = false.
Proof.
  unfold machine_leaf_key. destruct (String.eqb _ _); [discriminate|reflexivity].
Qed.

Lemma key_not_empty_variant md K :
  variant_leaf_key l md = Some K -> String.eqb (md_id md) "empty_material" = false.
Proof.
  unfold variant_leaf_key. destruct (String.eqb _ _); [discriminate|reflexivity].
Qed.

Lemma tree_no_empty_leaf p st :
  guid_ok l st -> no_empty_leaf st ->
  no_empty_leaf (snd (initialize_material_tree p st)).
Proof.
  revert st. induction p as [|md p IH]; intros st HG [H1 H2]; [split; assumption|].
  simpl. unfold se_bind.
  destruct (add_material_to_tree md st) as [[[]|e] s] eqn:E.
  - apply (IH s (step_guid_ok l md st s _ HG E)). split.
    + intros K n Hn. pose proof (step_machine_leaf l md st s K HG E) as Hs.
      rewrite Hn in Hs. simpl in Hs. case_decide as Hk.
      * injection Hs as ->. exact (key_not_empty_machine md K Hk).
      * destruct (machine_leaf st K) as [n'|] eqn:E'; [|discriminate].
        injection Hs as Hs. rewrite Hs. exact (H1 K n' E').
    + intros K n Hn. pose proof (step_variant_leaf l md st s K HG E) as Hs.
      rewrite Hn in Hs. simpl in Hs. case_decide as Hk.
      * injection Hs as ->. exact (key_not_empty_variant md K Hk).
      * destruct (variant_leaf st K) as [n'|] eqn:E'; [|discriminate].
        injection Hs as Hs. rewrite Hs. exact (H2 K n' E').
  - simpl. rewrite (step_err_state md st e s E). split; assumption.
Qed.

End Tree2.

Lemma in_two_split {A} (l : list A) (a b : A) :
  In a l -> In b l -> a <> b ->
  exists p1 x p2 y p3, l = (p1 ++ x :: p2 ++ y :: p3)%list
                       /\ ((x = a /\ y = b) \/ (x = b /\ y = a)).
Proof.
  induction l as [|c l IH]; intros Ha Hb Hab; [destruct Ha|].
  destruct Ha as [Ha|Ha]; destruct Hb as [Hb|Hb].
  - congruence.
  - subst c. apply in_split in Hb as (p2 & p3 & ->). exists [], a, p2, b, p3. auto.
  - subst c. apply in_split in Ha as (p2 & p3 & ->). exists [], b, p2, a, p3. auto.
  - destruct (IH Ha Hb Hab) as (p1 & x & p2 & y & p3 & -> & Hxy).
    exists (c :: p1), x, p2, y, p3. auto.
Qed.

Section VariantIndex2.
Import VariantManager.

Lemma add_variant_entry_md v st st' m n :
  add_variant v st = (Ok tt, st') ->
  entry_metadata <$> variant_entry st' m n
  = if decide (variant_entry_key v = Some (m, n)) then Some v
    else entry_metadata <$> variant_entry st m n.
Proof.
  intros H. unfold add_variant in H. unfold variant_entry_key.
  case_bool_decide as Hx.
  { injection H as <-. reflexivity. }
  destruct (machine_to_variant_dict_map st !! vm_definition v) as [d0|] eqn:E0.
  - simpl in H. rewrite E0 in H. simpl in H.
    destruct (d0 !! vm_name v) as [x|] eqn:E1; [discriminate|].
    injection H as <-. unfold variant_entry. simpl.
    destruct (decide (m = vm_definition v)) as [->|Hm].
    + rewrite lookup_insert_eq, E0.
      destruct (decide (n = vm_name v)) as [->|Hn].
      * rewrite lookup_insert_eq, decide_True by reflexivity. reflexivity.
      * rewrite lookup_insert_ne, decide_False by congruence. reflexivity.
    + rewrite lookup_insert_ne, decide_False by congruence. reflexivity.
  - simpl in H. rewrite lookup_insert_eq in H. simpl in H.
    rewrite lookup_empty in H. injection H as <-. unfold variant_entry. simpl.
    destruct (decide (m = vm_definition v)) as [->|Hm].
    + rewrite lookup_insert_eq, E0.
      destruct (decide (n = vm_name v)) as [->|Hn].
      * rewrite lookup_insert_eq, decide_True by reflexivity. reflexivity.
      * rewrite lookup_insert_ne, lookup_empty, decide_False by congruence. reflexivity.
    + rewrite lookup_insert_ne, lookup_insert_ne, decide_False by congruence. reflexivity.
Qed.

Lemma add_variant_machine v st st' m :
  add_variant v st = (Ok tt, st') ->
  is_Some (machine_to_variant_dict_map st' !! m)
  <-> (exists n, variant_entry_key v = Some (m, n))
      \/ is_Some (machine_to_variant_dict_map st !! m).
Proof.
  intros H. unfold add_variant in H. unfold variant_entry_key.
  case_bool_decide as Hx.
  { injection H as <-. split; [intros Hs; right; exact Hs|].
    intros [[n ?]|Hs]; [discriminate|exact Hs]. }
  assert (Hst : exists d', machine_to_variant_dict_map st'
                = <[vm_definition v := d']> (machine_to_variant_dict_map st)).
  { destruct (machine_to_variant_dict_map st !! vm_definition v) as [d0|] eqn:E0.
    - simpl in H. rewrite E0 in H. simpl in H.
      destruct (d0 !! vm_name v); [discriminate|].
      injection H as <-. eexists. reflexivity.
    - simpl in H. rewrite lookup_insert_eq in H. simpl in H.
      rewrite lookup_empty in H. injection H as <-. simpl.
      rewrite insert_insert_eq. eexists. reflexivity. }
  destruct Hst as [d' ->].
  destruct (decide (m = vm_definition v)) as [->|Hm].
  - rewrite lookup_insert_eq. split; [intros _; left; eexists; reflexivity|].
    intros _. eexists. reflexivity.
  - rewrite lookup_insert_ne by congruence. split; [intros Hs; right; exact Hs|].
    intros [[n Hk]|Hs]; [congruence|exact Hs].
Qed.

Lemma add_variant_err_state v st e st' :
  add_variant v st = (Err e, st') ->
  machine_to_variant_dict_map st' = machine_to_variant_dict_map st
  /\ exists m n, variant_entry_key v = Some (m, n) /\ is_Some (variant_entry st m n).
Proof.
  unfold add_variant, variant_entry_key. case_bool_decide as Hx; [discriminate|].
  destruct (machine_to_variant_dict_map st !! vm_definition v) as [d0|] eqn:E0.
  - simpl. rewrite E0. simpl.
    destruct (d0 !! vm_name v) as [x|] eqn:E1; [|destruct (new_entry v st); intros Hc; discriminate Hc].
    intros H. injection H as _ <-. split; [reflexivity|].
    exists (vm_definition v), (vm_name v). split; [reflexivity|].
    unfold variant_entry. rewrite E0, E1. eexists. reflexivity.
  - simpl. rewrite lookup_insert_eq. simpl. rewrite lookup_empty.
    intros Hc; discriminate Hc.
Qed.

Lemma loop_entry_md p st st' m n :
  initialize_loop p st = (Ok tt, st') ->
  entry_metadata <$> variant_entry st' m n
  = match find (fun v => bool_decide (variant_entry_key v = Some (m, n))) (rev p) with
    | Some v => Some v
    | None => entry_metadata <$> variant_entry st m n
    end.
Proof.
  revert st. induction p as [|v p IH]; intros st H.
  { injection H as <-. reflexivity. }
  simpl in H. unfold se_bind in H.
  destruct (add_variant v st) as [[[]|e] s] eqn:E; [|discriminate].
  rewrite (IH s H). simpl. rewrite find_app. simpl.
  rewrite (add_variant_entry_md v st s m n E).
  destruct (find _ (rev p)) as [x|]; [reflexivity|].
  case_decide as Hk.
  - rewrite bool_decide_true by exact Hk. reflexivity.
  - rewrite bool_decide_false by exact Hk. reflexivity.
Qed.

Lemma loop_machine p st st' m :
  initialize_loop p st = (Ok tt, st') ->
  is_Some (machine_to_variant_dict_map st' !! m)
  <-> (exists v n, In v p /\ variant_entry_key v = Some (m, n))
      \/ is_Some (machine_to_variant_dict_map st !! m).
Proof.
  revert st. induction p as [|v p IH]; intros st H.
  { injection H as <-. split; [intros Hs; right; exact Hs|].
    intros [(v & n & [] & _)|Hs]; exact Hs. }
  simpl in H. unfold se_bind in H.
  destruct (add_variant v st) as [[[]|e] s] eqn:E; [|discriminate].
  rewrite (IH s H), (add_variant_machine v st s m E). split.
  - intros [(v' & n & Hin & Hk)|[[n Hk]|Hs]].
    + left. exists v', n. split; [right; exact Hin|exact Hk].
    + left. exists v, n. split; [left; reflexivity|exact Hk].
    + right. exact Hs.
  - intros [(v' & n & [<-|Hin] & Hk)|Hs].
    + right. left. exists n. exact Hk.
    + left. exists v', n. split; [exact Hin|exact Hk].
    + right. right. exact Hs.
Qed.

Lemma loop_err_cause p st e s :
  initialize_loop p st = (Err e, s) ->
  (exists v m n, In v p /\ variant_entry_key v = Some (m, n) /\ is_Some (variant_entry st m n))
  \/ (exists (p1 : list VariantMetadata) v1 p2 v2 p3 K,
        p = (p1 ++ v1 :: p2 ++ v2 :: p3)%list
        /\ variant_entry_key v1 = Some K /\ variant_entry_key v2 = Some K).
Proof.
  revert st. induction p as [|v p IH]; intros st H; [discriminate|].
  simpl in H. unfold se_bind in H.
  destruct (add_variant v st) as [[[]|e'] s'] eqn:E.
  - destruct (IH s' H)
      as [(v' & m & n & Hin & Hk & HK)|(p1 & v1 & p2 & v2 & p3 & K & -> & H1 & H2)].
    + apply (add_variant_entry v st s' m n E) in HK as [Hv|HK].
      * right. apply in_split in Hin as (p2 & p3 & ->).
        exists [], v, p2, v', p3, (m, n). auto.
      * left. exists v', m, n. split; [right; exact Hin|auto].
    + right. exists (v :: p1), v1, p2, v2, p3, K. auto.
  - injection H as <- <-.
    destruct (add_variant_err_state v st e' s' E) as (_ & m & n & Hk & HK).
    left. exists v, m, n. split; [left; reflexivity|auto].
Qed.

(** Entries of the Variant Index never hold an excluded variant. *)
Definition no_excluded_entry (st : VariantManager) : Prop :=
  forall m n e, variant_entry st m n = Some e ->
                vm_id (entry_metadata e) ∉ exclude_variant_id_list.

Lemma loop_no_excluded p st :
  no_excluded_entry st -> no_excluded_entry (snd (initialize_loop p st)).
Proof.
  revert st. induction p as [|v p IH]; intros st H; [exact H|].
  simpl. unfold se_bind.
  destruct (add_variant v st) as [[[]|e] s] eqn:E.
  - apply IH. intros m n x Hx. pose proof (add_variant_entry_md v st s m n E) as Hs.
    rewrite Hx in Hs. simpl in Hs. case_decide as Hk.
    + injection Hs as ->. unfold variant_entry_key in Hk.
      case_bool_decide as Hex; [discriminate|exact Hex].
    + destruct (variant_entry st m n) as [x'|] eqn:E'; [|discriminate].
      injection Hs as Hs. rewrite Hs. exact (H m n x' E').
  - simpl. intros m n x Hx. apply (H m n x).
    unfold variant_entry in *. rewrite <- (proj1 (add_variant_err_state v st e s E)).
    exact Hx.
Qed.

End VariantIndex2.

(** Facts about a successful [MaterialManager.initialize] from the empty manager. *)

Lemma init_ok_roots l st :
  initialize l init = (Ok tt, st) ->
  forall md, In md l -> String.eqb (md_id md) "empty_material" = false ->
             is_Some (first_root l (md_GUID md)).
Proof.
  intros H md Hin Hs. destruct (first_root l (md_GUID md)) eqn:Hn; [eexists; reflexivity|].
  destruct (tree_missing_err l l (initialize_guid_table l init) md
              (initialize_pass1_guid_ok l) Hin Hs Hn) as [e He].
  unfold initialize in H. rewrite H in He. discriminate.
Qed.

Lemma init_ok_no_dup l st :
  initialize l init = (Ok tt, st) ->
  forall (p1 : list MaterialMetadata) md1 p2 md2 p3 K,
    l = (p1 ++ md1 :: p2 ++ md2 :: p3)%list ->
    variant_leaf_key l md1 = Some K -> variant_leaf_key l md2 = Some K -> False.
Proof.
  intros H p1 md1 p2 md2 p3 K Hl H1 H2.
  destruct (tree_dup_err l p1 md1 p2 md2 p3 (initialize_guid_table l init) K
              (initialize_pass1_guid_ok l) H1 H2) as [e He].
  rewrite <- Hl in He. unfold initialize in H. rewrite H in He. discriminate.
Qed.

Lemma init_variant_leaf_iff l st K md :
  initialize l init = (Ok tt, st) ->
  metadata <$> variant_leaf st K = Some md <-> In md l /\ variant_leaf_key l md = Some K.
Proof.
  intros H. pose proof H as H'. unfold initialize in H'.
  rewrite (tree_variant_leaf l l _ st K (initialize_pass1_guid_ok l) H').
  rewrite (proj2 (initialize_pass1_no_leaves l)). split.
  - destruct (find _ (rev l)) as [x|] eqn:Ef; [|discriminate].
    intros Hx. injection Hx as <-. apply find_some in Ef as [Hin Hk].
    apply bool_decide_eq_true in Hk. split; [apply in_rev; exact Hin|exact Hk].
  - intros [Hin Hk]. destruct (find _ (rev l)) as [x|] eqn:Ef.
    + apply find_some in Ef as [Hx Hkx]. apply bool_decide_eq_true in Hkx.
      apply in_rev in Hx. destruct (decide (x = md)) as [->|Hne]; [reflexivity|].
      exfalso. destruct (in_two_split l x md Hx Hin Hne)
        as (p1 & y & p2 & z & p3 & Hl & [[-> ->]|[-> ->]]).
      * exact (init_ok_no_dup l st H p1 x p2 md p3 K Hl Hkx Hk).
      * exact (init_ok_no_dup l st H p1 md p2 x p3 K Hl Hk Hkx).
    + exfalso. pose proof (find_none _ _ Ef md (proj1 (in_rev l md) Hin)) as Hf.
      simpl in Hf. rewrite bool_decide_eq_false in Hf. exact (Hf Hk).
Qed.

Lemma init_machine_node_iff l st d m :
  initialize l init = (Ok tt, st) ->
  is_Some (machine_node_at st d m)
  <-> exists md, In md l /\ String.eqb (md_id md) "empty_material" = false
                 /\ md_approximate_diameter md = d /\ md_definition md = m.
Proof.
  intros H. unfold initialize in H. rewrite (tree_machine_node l _ st d m H).
  assert (E0 : machine_node_at (initialize_guid_table l init) d m = None)
    by (unfold machine_node_at; rewrite initialize_guid_table_tree; reflexivity).
  rewrite E0.
  split; [intros [A|[x Hx]]; [exact A|discriminate]|intros A; left; exact A].
Qed.

Lemma avail_variant_dict st m v diameter mn :
  machine_node_at st (py_str_int (py_round diameter)) m = Some mn ->
  exists D, getAvailableMaterials m (Some v) diameter st = Some D
    /\ forall r, D !! r = metadata <$> variant_leaf st (py_str_int (py_round diameter), m, v, r).
Proof.
  unfold machine_node_at, getAvailableMaterials, variant_leaf.
  destruct (diameter_machine_variant_material_map st !! py_str_int (py_round diameter))
    as [mvm|]; [|discriminate].
  intros Hm. rewrite Hm. destruct (children_map mn !! v) as [vn|].
  - eexists. split; [reflexivity|]. intros r. apply lookup_fmap.
  - eexists. split; [reflexivity|]. intros r. apply lookup_empty.
Qed.

Lemma cont_step_tables f (st st' : MaterialManager) :
  cont_step f st st' ->
  guid_to_root_materials_map st' = guid_to_root_materials_map st
  /\ diameter_machine_variant_material_map st' = diameter_machine_variant_material_map st.
Proof.
  intros [n <-]. unfold getContainerOnNode.
  destruct (containers st !! node_loc n); [auto|].
  destruct (f (md_id (metadata n))); simpl; auto.
Qed.

(** Facts about a successful [VariantManager.initialize] from the empty manager. *)

Lemma vinit_ok_no_dup l st :
  VariantManager.initialize l VariantManager.init = (Ok tt, st) ->
  forall (p1 : list VariantManager.VariantMetadata) v1 p2 v2 p3 K,
    l = (p1 ++ v1 :: p2 ++ v2 :: p3)%list ->
    variant_entry_key v1 = Some K -> variant_entry_key v2 = Some K -> False.
Proof.
  intros H p1 v1 p2 v2 p3 [m n] -> H1 H2.
  destruct (initialize_loop_dup p1 v1 p2 v2 p3 VariantManager.init m n H1 H2) as [msg He].
  unfold VariantManager.initialize in H. rewrite H in He. discriminate.
Qed.

Lemma vinit_entry_iff l st m n v :
  VariantManager.initialize l VariantManager.init = (Ok tt, st) ->
  VariantManager.entry_metadata <$> variant_entry st m n = Some v
  <-> In v l /\ variant_entry_key v = Some (m, n).
Proof.
  intros H. pose proof H as H'. unfold VariantManager.initialize in H'.
  rewrite (loop_entry_md l _ st m n H'). split.
  - destruct (find _ (rev l)) as [x|] eqn:Ef; [|discriminate].
    intros Hx. injection Hx as <-. apply find_some in Ef as [Hin Hk].
    apply bool_decide_eq_true in Hk. split; [apply in_rev; exact Hin|exact Hk].
  - intros [Hin Hk]. destruct (find _ (rev l)) as [x|] eqn:Ef.
    + apply find_some in Ef as [Hx Hkx]. apply bool_decide_eq_true in Hkx.
      apply in_rev in Hx. destruct (decide (x = v)) as [->|Hne]; [reflexivity|].
      exfalso. destruct (in_two_split l x v Hx Hin Hne)
        as (p1 & y & p2 & z & p3 & Hl & [[-> ->]|[-> ->]]).
      * exact (vinit_ok_no_dup l st H p1 x p2 v p3 _ Hl Hkx Hk).
      * exact (vinit_ok_no_dup l st H p1 v p2 x p3 _ Hl Hk Hkx).
    + exfalso. pose proof (find_none _ _ Ef v (proj1 (in_rev l v) Hin)) as Hf.
      simpl in Hf. rewrite bool_decide_eq_false in Hf. exact (Hf Hk).
Qed.

Lemma vinit_machine_iff l st m :
  VariantManager.initialize l VariantManager.init = (Ok tt, st) ->
  is_Some (VariantManager.machine_to_variant_dict_map st !! m)
  <-> exists v n, In v l /\ variant_entry_key v = Some (m, n).
Proof.
  intros H. unfold VariantManager.initialize in H. rewrite (loop_machine l _ st m H).
  simpl. rewrite lookup_empty.
  split; [intros [A|[x Hx]]; [exact A|discriminate]|intros A; left; exact A].
Qed.

Lemma add_variant_containers v st :
  VariantManager.containers (snd (VariantManager.add_variant v st))
  = VariantManager.containers st.
Proof.
  unfold VariantManager.add_variant. case_bool_decide; [reflexivity|].
  destruct (VariantManager.machine_to_variant_dict_map st !! _); simpl;
    [|rewrite lookup_insert_eq; simpl; rewrite lookup_empty; reflexivity].
  destruct (_ !! VariantManager.vm_name v); reflexivity.
Qed.

Lemma vinit_containers l :
  VariantManager.containers (snd (VariantManager.initialize l VariantManager.init)) = ∅.
Proof.
  unfold VariantManager.initialize.
  enough (forall st, VariantManager.containers (snd (VariantManager.initialize_loop l st))
                     = VariantManager.containers st) as E by (rewrite E; reflexivity).
  induction l as [|v l IH]; intros st; [reflexivity|]. simpl. unfold se_bind.
  pose proof (add_variant_containers v st) as Hc.
  destruct (VariantManager.add_variant v st) as [[u|e] s]; simpl in *; [rewrite IH|]; exact Hc.
Qed.

Lemma getVariant_map f st m n t :
  VariantManager.machine_to_variant_dict_map
    (snd (VariantManager.getVariant f m n t st))
  = VariantManager.machine_to_variant_dict_map st.
Proof.
  unfold VariantManager.getVariant.
  destruct (VariantManager.machine_to_variant_dict_map st !! m) as [d|]; [|reflexivity].
  destruct (d !! n) as [e|]; [|reflexivity].
  destruct (VariantManager.containers st !! _); [reflexivity|].
  destruct (f _); reflexivity.
Qed.

(** X1: [MaterialManager.initialize] on an empty manager succeeds exactly
    when every record other than "empty_material" has a GUID declared by a
    root record of the input, and no two records become the same
    variant-level leaf. *)
Theorem material_initialize_succeeds_iff (l : list MaterialMetadata) :
  fst (initialize l init) = Ok tt
  <-> (forall md, In md l -> String.eqb (md_id md) "empty_material" = false ->
                  is_Some (first_root l (md_GUID md)))
      /\ ~ (exists (p1 : list MaterialMetadata) md1 p2 md2 p3 K,
              l = (p1 ++ md1 :: p2 ++ md2 :: p3)%list
              /\ variant_leaf_key l md1 = Some K /\ variant_leaf_key l md2 = Some K).
Proof.
  split.
  - intros H. destruct (initialize l init) as [r st] eqn:E. simpl in H. subst r.
    split; [exact (init_ok_roots l st E)|].
    intros (p1 & md1 & p2 & md2 & p3 & K & Hl & H1 & H2).
    exact (init_ok_no_dup l st E p1 md1 p2 md2 p3 K Hl H1 H2).
  - intros [Hr Hd]. destruct (initialize l init) as [[[]|e] s] eqn:E; [reflexivity|exfalso].
    unfold initialize in E.
    destruct (tree_err_cause l l _ e s (initialize_pass1_guid_ok l) E)
      as [(md & Hin & Hs & Hn)|[(md & K & Hin & Hk & HK)|B]].
    + destruct (Hr md Hin Hs) as [x Hx]. congruence.
    + rewrite (proj2 (initialize_pass1_no_leaves l)) in HK. destruct HK; discriminate.
    + exact (Hd B).
Qed.

Lemma material_initialize_succeeds_iff_witness :
  (forall md, In md Scenario.materials ->
              String.eqb (md_id md) "empty_material" = false ->
              is_Some (first_root Scenario.materials (md_GUID md)))
  /\ ~ (exists (p1 : list MaterialMetadata) md1 p2 md2 p3 K,
          Scenario.materials = (p1 ++ md1 :: p2 ++ md2 :: p3)%list
          /\ variant_leaf_key Scenario.materials md1 = Some K
          /\ variant_leaf_key Scenario.materials md2 = Some K).
Proof.
  apply (material_initialize_succeeds_iff Scenario.materials). vm_compute. reflexivity.
Defined.

(** X2: after a successful [initialize] from an empty manager, the
    variant-level leaf at (diameter, machine, variant name, root material id)
    holds a record exactly when that record is in the input and is filed
    under that key. *)
Theorem variant_leaf_round_trip (l : list MaterialMetadata) (st : MaterialManager)
  (H : initialize l init = (Ok tt, st)) :
  forall K md, metadata <$> variant_leaf st K = Some md
               <-> In md l /\ variant_leaf_key l md = Some K.
Proof. intros K md. exact (init_variant_leaf_iff l st K md H). Qed.

Lemma variant_leaf_round_trip_witness :
  initialize Scenario.materials init = (Ok tt, Scenario.material_index)
  /\ (metadata <$> variant_leaf Scenario.material_index ("3", "ultimaker3", "AA 0.4", "generic_pla")
      = Some Scenario.generic_pla_um3_aa04
      <-> In Scenario.generic_pla_um3_aa04 Scenario.materials
          /\ variant_leaf_key Scenario.materials Scenario.generic_pla_um3_aa04
             = Some ("3", "ultimaker3", "AA 0.4", "generic_pla")).
Proof.
  assert (H : initialize Scenario.materials init = (Ok tt, Scenario.material_index))
    by (vm_compute; reflexivity).
  split; [exact H|].
  exact (variant_leaf_round_trip Scenario.materials Scenario.material_index H _ _).
Defined.

(** X3: after a successful [initialize] from an empty manager, [getMaterial]
    asked for the machine, variant name and root material id of a
    variant-level record, with a diameter that rounds to the record's
    approximate diameter, materializes the node holding that record; asked
    with no variant name for the key of a machine-level record, it
    materializes the node holding the last record of the input with that
    key. *)
Theorem getMaterial_finds_indexed_records
  (findInstanceContainers : string -> list InstanceContainer)
  (l : list MaterialMetadata) (st : MaterialManager)
  (H : initialize l init = (Ok tt, st)) :
  (forall md d m v r diameter,
     In md l -> variant_leaf_key l md = Some (d, m, v, r) ->
     py_str_int (py_round diameter) = d ->
     exists leaf, metadata leaf = md
       /\ getMaterial findInstanceContainers m (Some v) diameter r st
          = (c <-- getContainerOnNode findInstanceContainers leaf ;; se_ret (Some c)) st)
  /\ (forall md d m r diameter,
        In md l -> machine_leaf_key l md = Some (d, m, r) ->
        py_str_int (py_round diameter) = d ->
        exists leaf,
          Some (metadata leaf)
          = find (fun md' => bool_decide (machine_leaf_key l md' = Some (d, m, r))) (rev l)
          /\ getMaterial findInstanceContainers m None diameter r st
             = (c <-- getContainerOnNode findInstanceContainers leaf ;; se_ret (Some c)) st).
Proof.
  split.
  - intros md d m v r diameter Hin Hk Hd. subst d.
    pose proof (proj2 (init_variant_leaf_iff l st _ md H) (conj Hin Hk)) as Hv.
    destruct (variant_leaf st (py_str_int (py_round diameter), m, v, r)) as [leaf|] eqn:Ev;
      [|discriminate].
    injection Hv as Hv. exists leaf. split; [exact Hv|].
    unfold variant_leaf in Ev.
    destruct (diameter_machine_variant_material_map st !! py_str_int (py_round diameter))
      as [mvm|] eqn:Eb; [|discriminate].
    destruct (mvm !! m) as [mn|] eqn:Em; [|discriminate].
    destruct (children_map mn !! v) as [vn|] eqn:Ec; [|discriminate].
    apply (getMaterial_variant_leaf findInstanceContainers st m v diameter r mvm mn vn leaf
             Eb); [|exact Ec|exact Ev].
    unfold resolved_machine_node. rewrite Em. reflexivity.
  - intros md d m r diameter Hin Hk Hd. subst d. pose proof H as H'. unfold initialize in H'.
    pose proof (tree_machine_leaf l l _ st (py_str_int (py_round diameter), m, r)
                  (initialize_pass1_guid_ok l) H') as Hm.
    rewrite (proj1 (initialize_pass1_no_leaves l)) in Hm.
    destruct (find _ (rev l)) as [md'|] eqn:Ef.
    2:{ exfalso. pose proof (find_none _ _ Ef md (proj1 (in_rev l md) Hin)) as Hf.
        simpl in Hf. rewrite bool_decide_eq_false in Hf. exact (Hf Hk). }
    destruct (machine_leaf st (py_str_int (py_round diameter), m, r)) as [leaf|] eqn:Ev;
      [|discriminate].
    injection Hm as Hm. exists leaf. split; [rewrite Hm; reflexivity|].
    unfold machine_leaf in Ev.
    destruct (diameter_machine_variant_material_map st !! py_str_int (py_round diameter))
      as [mvm|] eqn:Eb; [|discriminate].
    destruct (mvm !! m) as [mn|] eqn:Em; [|discriminate].
    apply (getMaterial_machine_leaf findInstanceContainers st m None diameter r mvm mn leaf
             Eb); [| |exact Ev].
    + unfold resolved_machine_node. rewrite Em. reflexivity.
    + intros vname vn Hc. discriminate Hc.
Qed.

Lemma getMaterial_finds_indexed_records_witness :
  exists leaf, metadata leaf = Scenario.generic_pla_um3_aa04
    /\ getMaterial Scenario.registry "ultimaker3" (Some "AA 0.4") float_2_85 "generic_pla"
         Scenario.material_index
       = (c <-- getContainerOnNode Scenario.registry leaf ;; se_ret (Some c))
           Scenario.material_index.
Proof.
  assert (H : initialize Scenario.materials init = (Ok tt, Scenario.material_index))
    by (vm_compute; reflexivity).
  refine (proj1 (getMaterial_finds_indexed_records Scenario.registry Scenario.materials
                   Scenario.material_index H)
            Scenario.generic_pla_um3_aa04 "3" "ultimaker3" "AA 0.4" "generic_pla" float_2_85
            _ _ _).
  - right. left. reflexivity.
  - vm_compute. reflexivity.
  - vm_compute. reflexivity.
Defined.

(** X4: after a successful [initialize] from an empty manager, when some
    record other than "empty_material" has machine [m] and the approximate
    diameter that [diameter] rounds to, [getAvailableMaterials m (Some v)
    diameter] returns a dict that maps a root material id [r] to a record
    exactly when that record is in the input and is filed as the
    variant-level leaf (diameter, [m], [v], [r]). *)
Theorem getAvailableMaterials_variant_records (l : list MaterialMetadata) (st : MaterialManager)
  (m v : string) (diameter : Q)
  (H : initialize l init = (Ok tt, st))
  (Hm : exists md0, In md0 l /\ String.eqb (md_id md0) "empty_material" = false
                    /\ md_approximate_diameter md0 = py_str_int (py_round diameter)
                    /\ md_definition md0 = m) :
  exists D, getAvailableMaterials m (Some v) diameter st = Some D
    /\ forall r md, D !! r = Some md
                    <-> In md l /\ variant_leaf_key l md
                                   = Some (py_str_int (py_round diameter), m, v, r).
Proof.
  apply (init_machine_node_iff l st (py_str_int (py_round diameter)) m H) in Hm as [mn Hmn].
  destruct (avail_variant_dict st m v diameter mn Hmn) as (D & HD & Hr).
  exists D. split; [exact HD|]. intros r md. rewrite Hr.
  exact (init_variant_leaf_iff l st _ md H).
Qed.

Lemma getAvailableMaterials_variant_records_witness :
  exists D, getAvailableMaterials "ultimaker3" (Some "AA 0.4") float_2_85 Scenario.material_index
            = Some D
    /\ forall r md, D !! r = Some md
                    <-> In md Scenario.materials
                        /\ variant_leaf_key Scenario.materials md
                           = Some (py_str_int (py_round float_2_85), "ultimaker3", "AA 0.4", r).
Proof.
  refine (getAvailableMaterials_variant_records Scenario.materials Scenario.material_index
            "ultimaker3" "AA 0.4" float_2_85 _ _).
  - vm_compute. reflexivity.
  - exists Scenario.generic_pla_um3. split; [right; right; left; reflexivity|].
    vm_compute. auto.
Defined.

(** X5: [VariantManager.initialize] on an empty manager succeeds exactly
    when no two records outside the exclude list have the same
    (machine, variant name). *)
Theorem variant_initialize_succeeds_iff (l : list VariantManager.VariantMetadata) :
  fst (VariantManager.initialize l VariantManager.init) = Ok tt
  <-> ~ (exists (p1 : list VariantManager.VariantMetadata) v1 p2 v2 p3 K,
           l = (p1 ++ v1 :: p2 ++ v2 :: p3)%list
           /\ variant_entry_key v1 = Some K /\ variant_entry_key v2 = Some K).
Proof.
  split.
  - intros H. destruct (VariantManager.initialize l VariantManager.init) as [r st] eqn:E.
    simpl in H. subst r. intros (p1 & v1 & p2 & v2 & p3 & K & Hl & H1 & H2).
    exact (vinit_ok_no_dup l st E p1 v1 p2 v2 p3 K Hl H1 H2).
  - intros Hd. destruct (VariantManager.initialize l VariantManager.init) as [[[]|e] s] eqn:E;
      [reflexivity|exfalso].
    unfold VariantManager.initialize in E.
    destruct (loop_err_cause l _ e s E) as [(v & m & n & _ & _ & HK)|B].
    + unfold variant_entry in HK. simpl in HK. rewrite lookup_empty in HK.
      destruct HK; discriminate.
    + exact (Hd B).
Qed.

Lemma variant_initialize_succeeds_iff_witness :
  ~ (exists (p1 : list VariantManager.VariantMetadata) v1 p2 v2 p3 K,
       [Scenario.aa04; Scenario.bb04] = (p1 ++ v1 :: p2 ++ v2 :: p3)%list
       /\ variant_entry_key v1 = Some K /\ variant_entry_key v2 = Some K).
Proof.
  apply (variant_initialize_succeeds_iff [Scenario.aa04; Scenario.bb04]).
  vm_compute. reflexivity.
Defined.

(** X6: after a successful [VariantManager.initialize] from an empty manager,
    [getVariantMetadata m n] raises [KeyError m] exactly when no record
    outside the exclude list has machine [m], and returns a record exactly
    when that record is in the input, outside the exclude list, with machine
    [m] and name [n]. *)
Theorem getVariantMetadata_after_initialize (l : list VariantManager.VariantMetadata)
  (st : VariantManager.VariantManager)
  (H : VariantManager.initialize l VariantManager.init = (Ok tt, st)) :
  forall m n t,
    (VariantManager.getVariantMetadata m n t st = Err (KeyError m)
     <-> ~ exists v n', In v l /\ variant_entry_key v = Some (m, n'))
    /\ (forall vmd, VariantManager.getVariantMetadata m n t st = Ok (Some vmd)
                    <-> In vmd l /\ variant_entry_key vmd = Some (m, n)).
Proof.
  intros m n t. split.
  - rewrite <- (vinit_machine_iff l st m H). unfold VariantManager.getVariantMetadata.
    destruct (VariantManager.machine_to_variant_dict_map st !! m) as [d|].
    + split; [destruct (d !! n); discriminate|].
      intros Hn. exfalso. apply Hn. eexists. reflexivity.
    + split; [intros _ [x Hx]; discriminate|reflexivity].
  - intros vmd. rewrite <- (vinit_entry_iff l st m n vmd H).
    unfold VariantManager.getVariantMetadata, variant_entry.
    destruct (VariantManager.machine_to_variant_dict_map st !! m) as [d|];
      [|split; discriminate].
    destruct (d !! n) as [x|]; simpl; [|split; discriminate].
    split; intros Hx; injection Hx as ->; reflexivity.
Qed.

Lemma getVariantMetadata_after_initialize_witness :
  (VariantManager.getVariantMetadata "ultimaker3" "BB 0.4" None Scenario.variant_index
   = Ok (Some Scenario.bb04)
   <-> In Scenario.bb04 [Scenario.aa04; Scenario.bb04]
       /\ variant_entry_key Scenario.bb04 = Some ("ultimaker3", "BB 0.4")).
Proof.
  refine (proj2 (getVariantMetadata_after_initialize [Scenario.aa04; Scenario.bb04]
                   Scenario.variant_index _ "ultimaker3" "BB 0.4" None) Scenario.bb04).
  vm_compute. reflexivity.
Defined.

(** X7: on a Variant Index freshly built by a successful
    [VariantManager.initialize], [getVariant] asked for the machine and name
    of a record outside the exclude list looks that record's id up in the
    registry: it returns the first container found, or raises the lazy-load
    RuntimeError when there is none. *)
Theorem getVariant_after_initialize
  (findInstanceContainers : string -> list InstanceContainer)
  (l : list VariantManager.VariantMetadata) (st : VariantManager.VariantManager)
  (H : VariantManager.initialize l VariantManager.init = (Ok tt, st)) :
  forall m n t v, In v l -> variant_entry_key v = Some (m, n) ->
    fst (VariantManager.getVariant findInstanceContainers m n t st)
    = match findInstanceContainers (VariantManager.vm_id v) with
      | [] => Err (RuntimeError ("Cannot lazy-load variant container ["
                                 ++ VariantManager.vm_id v
                                 ++ "], cannot be found in ContainerRegistry"))
      | c :: _ => Ok (Some c)
      end.
Proof.
  intros m n t v Hin Hk.
  pose proof (proj2 (vinit_entry_iff l st m n v H) (conj Hin Hk)) as He.
  assert (Hc : VariantManager.containers st = ∅).
  { pose proof (vinit_containers l) as E. rewrite H in E. exact E. }
  unfold variant_entry in He. unfold VariantManager.getVariant.
  destruct (VariantManager.machine_to_variant_dict_map st !! m) as [d|]; [|discriminate].
  destruct (d !! n) as [x|]; [|discriminate]. injection He as <-.
  rewrite Hc, lookup_empty.
  destruct (findInstanceContainers _); reflexivity.
Qed.

Lemma getVariant_after_initialize_witness :
  fst (VariantManager.getVariant Scenario.registry "ultimaker3" "AA 0.4" None
         Scenario.variant_index)
  = match Scenario.registry (VariantManager.vm_id Scenario.aa04) with
    | [] => Err (RuntimeError ("Cannot lazy-load variant container ["
                               ++ VariantManager.vm_id Scenario.aa04
                               ++ "], cannot be found in ContainerRegistry"))
    | c :: _ => Ok (Some c)
    end.
Proof.
  refine (getVariant_after_initialize Scenario.registry [Scenario.aa04; Scenario.bb04]
            Scenario.variant_index _ "ultimaker3" "AA 0.4" None Scenario.aa04 _ _).
  - vm_compute. reflexivity.
  - left. reflexivity.
  - vm_compute. reflexivity.
Defined.

(** X8: no sequence of material queries ([getMaterial],
    [getMaterialByGUID], [getAvailableMaterials]) changes the GUID table or
    the material tree, and no sequence of variant queries ([getVariant],
    [getVariantMetadata]) changes the Variant Index: lookups only fill
    container slots. *)
Theorem queries_leave_tables_unchanged :
  (forall findInstanceContainers qs (st : MaterialManager),
     guid_to_root_materials_map (Queries.run_material_queries findInstanceContainers qs st)
     = guid_to_root_materials_map st
     /\ diameter_machine_variant_material_map
          (Queries.run_material_queries findInstanceContainers qs st)
        = diameter_machine_variant_material_map st)
  /\ (forall findInstanceContainers qs (st : VariantManager.VariantManager),
        VariantManager.machine_to_variant_dict_map
          (Queries.run_variant_queries findInstanceContainers qs st)
        = VariantManager.machine_to_variant_dict_map st).
Proof.
  split.
  - intros f qs st. pose proof (run_material_queries_steps f qs st) as Hs.
    induction Hs as [|x y z Hxy _ IH]; [auto|].
    destruct (cont_step_tables f x y Hxy) as [E1 E2]. destruct IH as [I1 I2].
    rewrite I1, I2, E1, E2. auto.
  - intros f qs. induction qs as [|q qs IH]; intros st; [reflexivity|].
    simpl. rewrite IH. destruct q; simpl; [apply getVariant_map|reflexivity].
Qed.

(** X9: whether it succeeds or raises, [MaterialManager.initialize] from an
    empty manager never files a record with id "empty_material" in the GUID
    table or in a leaf of the tree, and [VariantManager.initialize] never
    files a record whose id is in the exclude list ("empty_variant"). *)
Theorem excluded_records_never_indexed :
  (forall l g n, guid_to_root_materials_map (snd (initialize l init)) !! g = Some n ->
                 String.eqb (md_id (metadata n)) "empty_material" = false)
  /\ (forall l K n, machine_leaf (snd (initialize l init)) K = Some n ->
                    String.eqb (md_id (metadata n)) "empty_material" = false)
  /\ (forall l K n, variant_leaf (snd (initialize l init)) K = Some n ->
                    String.eqb (md_id (metadata n)) "empty_material" = false)
  /\ (forall l m n e,
        variant_entry (snd (VariantManager.initialize l VariantManager.init)) m n = Some e ->
        VariantManager.vm_id (VariantManager.entry_metadata e)
        ∉ VariantManager.exclude_variant_id_list).
Proof.
  assert (HT : forall l, no_empty_leaf (snd (initialize l init))).
  { intros l. unfold initialize. apply (tree_no_empty_leaf l); [apply initialize_pass1_guid_ok|].
    split; intros K n; [rewrite (proj1 (initialize_pass1_no_leaves l))
                       |rewrite (proj2 (initialize_pass1_no_leaves l))]; discriminate. }
  split; [|split; [|split]].
  - intros l g n Hn. pose proof (initialize_guid_lookup l g) as E. rewrite Hn in E.
    simpl in E. symmetry in E. apply find_some in E as [_ Hr].
    apply andb_prop in Hr as [Hr _]. unfold is_root_record in Hr.
    apply andb_prop in Hr as [Hr _]. apply negb_true_iff in Hr. exact Hr.
  - intros l. exact (proj1 (HT l)).
  - intros l. exact (proj2 (HT l)).
  - intros l. unfold VariantManager.initialize. apply loop_no_excluded.
    intros m n e He. unfold variant_entry in He. simpl in He. rewrite lookup_empty in He.
    discriminate.
Qed.

Lemma excluded_records_never_indexed_witness :
  String.eqb (md_id (metadata {| node_loc := 0; metadata := Scenario.generic_pla |}))
    "empty_material" = false
  /\ String.eqb (md_id (metadata {| node_loc := 2; metadata := Scenario.generic_pla_um3_aa04 |}))
       "empty_material" = false.
Proof.
  destruct excluded_records_never_indexed as (H1 & _ & H3 & _). split.
  - apply (H1 Scenario.materials "G1"). vm_compute. reflexivity.
  - apply (H3 Scenario.materials ("3", "ultimaker3", "AA 0.4", "generic_pla")).
    vm_compute. reflexivity.
Defined.

Section VariantCoherence.

Variable findInstanceContainers : string -> list InstanceContainer.

(** Entries of the Variant Index and filled container slots have locations
    below [next_loc], distinct entries have distinct locations, and a filled
    slot of an entry holds the first container the registry gives for the
    entry's id. *)
Definition variant_coherent (st : VariantManager.VariantManager) : Prop :=
  (forall m n e, variant_entry st m n = Some e ->
                 VariantManager.entry_loc e < VariantManager.next_loc st)
  /\ (forall k c, VariantManager.containers st !! k = Some c -> k < VariantManager.next_loc st)
  /\ (forall m n e m' n' e', variant_entry st m n = Some e -> variant_entry st m' n' = Some e' ->
        VariantManager.entry_loc e = VariantManager.entry_loc e' -> e = e')
  /\ (forall m n e c, variant_entry st m n = Some e ->
        VariantManager.containers st !! VariantManager.entry_loc e = Some c ->
        hd_error (findInstanceContainers (VariantManager.vm_id (VariantManager.entry_metadata e)))
        = Some c).

Lemma add_variant_err_st v st e st' :
  VariantManager.add_variant v st = (Err e, st') -> st' = st.
Proof.
  unfold VariantManager.add_variant. case_bool_decide; [discriminate|].
  destruct (VariantManager.machine_to_variant_dict_map st !! _) as [d0|] eqn:E0.
  - simpl. rewrite E0. simpl. destruct (d0 !! _); [|destruct (VariantManager.new_entry v st);
      intros Hc; discriminate Hc].
    intros Hc. injection Hc as _ <-. reflexivity.
  - simpl. rewrite lookup_insert_eq. simpl. rewrite lookup_empty. intros Hc; discriminate Hc.
Qed.

Lemma add_variant_ok_st v st st' :
  VariantManager.add_variant v st = (Ok tt, st') ->
  st' = st
  \/ (VariantManager.next_loc st' = S (VariantManager.next_loc st)
      /\ VariantManager.containers st' = VariantManager.containers st
      /\ forall m n, variant_entry st' m n
                     = if decide (variant_entry_key v = Some (m, n))
                       then Some {| VariantManager.entry_loc := VariantManager.next_loc st;
                                    VariantManager.entry_metadata := v |}
                       else variant_entry st m n).
Proof.
  intros H. unfold VariantManager.add_variant in H. unfold variant_entry_key.
  case_bool_decide as Hx; [injection H as <-; left; reflexivity|]. right.
  destruct (VariantManager.machine_to_variant_dict_map st !! VariantManager.vm_definition v)
    as [d0|] eqn:E0.
  - simpl in H. rewrite E0 in H. simpl in H.
    destruct (d0 !! VariantManager.vm_name v) as [x|] eqn:E1; [discriminate|].
    injection H as <-. split; [reflexivity|split; [reflexivity|]].
    intros m n. unfold variant_entry. simpl.
    destruct (decide (m = VariantManager.vm_definition v)) as [->|Hm].
    + rewrite lookup_insert_eq, E0.
      destruct (decide (n = VariantManager.vm_name v)) as [->|Hn].
      * rewrite lookup_insert_eq, decide_True by reflexivity. reflexivity.
      * rewrite lookup_insert_ne, decide_False by congruence. reflexivity.
    + rewrite lookup_insert_ne, decide_False by congruence. reflexivity.
  - simpl in H. rewrite lookup_insert_eq in H. simpl in H.
    rewrite lookup_empty in H. injection H as <-. split; [reflexivity|split; [reflexivity|]].
    intros m n. unfold variant_entry. simpl.
    destruct (decide (m = VariantManager.vm_definition v)) as [->|Hm].
    + rewrite lookup_insert_eq, E0.
      destruct (decide (n = VariantManager.vm_name v)) as [->|Hn].
      * rewrite lookup_insert_eq, decide_True by reflexivity. reflexivity.
      * rewrite lookup_insert_ne, lookup_empty, decide_False by congruence. reflexivity.
    + rewrite lookup_insert_ne, lookup_insert_ne, decide_False by congruence. reflexivity.
Qed.

Lemma add_variant_coherent v st :
  variant_coherent st -> variant_coherent (snd (VariantManager.add_variant v st)).
Proof.
  intros HC. destruct (VariantManager.add_variant v st) as [[[]|e] st'] eqn:E; simpl.
  2:{ rewrite (add_variant_err_st v st e st' E). exact HC. }
  destruct (add_variant_ok_st v st st' E) as [->|(Hn & Hc & He)]; [exact HC|].
  destruct HC as (H0 & H1 & H2 & H3). split; [|split; [|split]].
  - intros m n x Hx. rewrite He in Hx. rewrite Hn. case_decide.
    + injection Hx as <-. simpl. lia.
    + specialize (H0 m n x Hx). lia.
  - intros k c Hk. rewrite Hc in Hk. rewrite Hn. specialize (H1 k c Hk). lia.
  - intros m n x m' n' x' Hx Hx' Hl. rewrite He in Hx, Hx'.
    destruct (decide (variant_entry_key v = Some (m, n))) as [A|A] in Hx;
      destruct (decide (variant_entry_key v = Some (m', n'))) as [B|B] in Hx'.
    + congruence.
    + injection Hx as <-. specialize (H0 _ _ _ Hx'). simpl in Hl. lia.
    + injection Hx' as <-. specialize (H0 _ _ _ Hx). simpl in Hl. lia.
    + exact (H2 _ _ _ _ _ _ Hx Hx' Hl).
  - intros m n x c Hx Hcx. rewrite He in Hx. rewrite Hc in Hcx. case_decide.
    + injection Hx as <-. simpl in Hcx. specialize (H1 _ _ Hcx). lia.
    + exact (H3 _ _ _ _ Hx Hcx).
Qed.

Lemma initialize_loop_coherent p st :
  variant_coherent st -> variant_coherent (snd (VariantManager.initialize_loop p st)).
Proof.
  revert st. induction p as [|v p IH]; intros st HC; [exact HC|].
  simpl. unfold se_bind. pose proof (add_variant_coherent v st HC) as H.
  destruct (VariantManager.add_variant v st) as [[[]|e] s]; simpl in *; [apply IH|]; exact H.
Qed.

Lemma getVariant_coherent m n t st :
  variant_coherent st ->
  variant_coherent (snd (VariantManager.getVariant findInstanceContainers m n t st)).
Proof.
  intros HC. unfold VariantManager.getVariant.
  destruct (VariantManager.machine_to_variant_dict_map st !! m) as [d|] eqn:Em; [|exact HC].
  destruct (d !! n) as [x|] eqn:En; [|exact HC].
  destruct (VariantManager.containers st !! VariantManager.entry_loc x); [exact HC|].
  destruct (findInstanceContainers (VariantManager.vm_id (VariantManager.entry_metadata x)))
    as [|c cs] eqn:Ef; [exact HC|].
  assert (Hx : variant_entry st m n = Some x) by (unfold variant_entry; rewrite Em; exact En).
  destruct HC as (H0 & H1 & H2 & H3).
  assert (Heq : forall m' n', variant_entry
                  (VariantManager.set_container (VariantManager.entry_loc x) c
                     (VariantManager.log_call x st)) m' n' = variant_entry st m' n')
    by reflexivity.
  simpl. split; [|split; [|split]].
  - intros m' n' y Hy. rewrite Heq in Hy. exact (H0 _ _ _ Hy).
  - intros k c' Hk. simpl in Hk. destruct (decide (k = VariantManager.entry_loc x)) as [->|Hne].
    + exact (H0 _ _ _ Hx).
    + rewrite lookup_insert_ne in Hk by congruence. exact (H1 _ _ Hk).
  - intros m1 n1 y m2 n2 y'. rewrite !Heq. exact (H2 m1 n1 y m2 n2 y').
  - intros m' n' y c' Hy Hc. rewrite Heq in Hy. simpl in Hc.
    destruct (decide (VariantManager.entry_loc y = VariantManager.entry_loc x)) as [E|E].
    + rewrite E, lookup_insert_eq in Hc. injection Hc as <-.
      rewrite (H2 _ _ _ _ _ _ Hy Hx E), Ef. reflexivity.
    + rewrite lookup_insert_ne in Hc by congruence. exact (H3 _ _ _ _ Hy Hc).
Qed.

Lemma run_variant_queries_coherent qs st :
  variant_coherent st ->
  variant_coherent (Queries.run_variant_queries findInstanceContainers qs st).
Proof.
  revert st. induction qs as [|q qs IH]; intros st HC; [exact HC|].
  simpl. apply IH. destruct q; simpl; [apply getVariant_coherent|]; exact HC.
Qed.

Lemma getVariant_coherent_result m n t st c :
  variant_coherent st ->
  fst (VariantManager.getVariant findInstanceContainers m n t st) = Ok (Some c) ->
  exists e, variant_entry st m n = Some e
    /\ hd_error (findInstanceContainers (VariantManager.vm_id (VariantManager.entry_metadata e)))
       = Some c.
Proof.
  intros (_ & _ & _ & H3) H. unfold VariantManager.getVariant in H.
  destruct (VariantManager.machine_to_variant_dict_map st !! m) as [d|] eqn:Em; [|discriminate].
  destruct (d !! n) as [x|] eqn:En; [|discriminate].
  assert (Hx : variant_entry st m n = Some x) by (unfold variant_entry; rewrite Em; exact En).
  exists x. split; [exact Hx|].
  destruct (VariantManager.containers st !! VariantManager.entry_loc x) as [c'|] eqn:Ec.
  - simpl in H. injection H as <-. exact (H3 _ _ _ _ Hx Ec).
  - destruct (findInstanceContainers _) as [|c' cs]; simpl in H; [discriminate|].
    injection H as <-. reflexivity.
Qed.

End VariantCoherence.

Section MaterialCoherence.

Variable findInstanceContainers : string -> list InstanceContainer.

(** A node is reachable from the lookup tables: the GUID table, a
    machine-level leaf or a variant-level leaf. *)
Definition in_tables (st : MaterialManager) (n : MaterialNode) : Prop :=
  (exists g, guid_to_root_materials_map st !! g = Some n)
  \/ (exists K, machine_leaf st K = Some n)
  \/ (exists K, variant_leaf st K = Some n).

(** Reachable nodes and filled container slots have locations below
    [next_loc], distinct reachable nodes have distinct locations, and the
    filled slot of a reachable node holds the first container the registry
    gives for the id of the node's record. *)
Definition material_coherent (st : MaterialManager) : Prop :=
  (forall n, in_tables st n -> node_loc n < next_loc st)
  /\ (forall k c, containers st !! k = Some c -> k < next_loc st)
  /\ (forall n n', in_tables st n -> in_tables st n' -> node_loc n = node_loc n' -> n = n')
  /\ (forall n c, in_tables st n -> containers st !! node_loc n = Some c ->
        hd_error (findInstanceContainers (md_id (metadata n))) = Some c).

Lemma in_tables_ext st st' n :
  guid_to_root_materials_map st' = guid_to_root_materials_map st ->
  diameter_machine_variant_material_map st' = diameter_machine_variant_material_map st ->
  in_tables st' n <-> in_tables st n.
Proof.
  intros Eg Et.
  assert (Em : forall K, machine_leaf st' K = machine_leaf st K)
    by (intros [[d m] r]; unfold machine_leaf; rewrite Et; reflexivity).
  assert (Ev : forall K, variant_leaf st' K = variant_leaf st K)
    by (intros [[[d m] v] r]; unfold variant_leaf; rewrite Et; reflexivity).
  unfold in_tables. rewrite Eg.
  split; intros [A|[[K HK]|[K HK]]]; auto;
    [right; left; exists K; rewrite <- Em; exact HK
    |right; right; exists K; rewrite <- Ev; exact HK
    |right; left; exists K; rewrite Em; exact HK
    |right; right; exists K; rewrite Ev; exact HK].
Qed.

Lemma machine_leaf_default st d m r :
  machine_leaf st (d, m, r)
  = material_map (default empty_machine_node
                    (default ∅ (diameter_machine_variant_material_map st !! d) !! m)) !! r.
Proof.
  unfold machine_leaf.
  destruct (diameter_machine_variant_material_map st !! d) as [mvm|]; simpl.
  - destruct (mvm !! m); simpl; [reflexivity|rewrite lookup_empty; reflexivity].
  - rewrite !lookup_empty. reflexivity.
Qed.

Lemma variant_leaf_default st d m v r :
  variant_leaf st (d, m, v, r)
  = variant_material_map
      (default empty_variant_node
         (children_map (default empty_machine_node
                          (default ∅ (diameter_machine_variant_material_map st !! d) !! m))
          !! v)) !! r.
Proof.
  unfold variant_leaf.
  destruct (diameter_machine_variant_material_map st !! d) as [mvm|]; simpl.
  - destruct (mvm !! m) as [mn|]; simpl; [|rewrite !lookup_empty; reflexivity].
    destruct (children_map mn !! v); simpl; [reflexivity|rewrite lookup_empty; reflexivity].
  - rewrite !lookup_empty. reflexivity.
Qed.

Lemma tree_update_leaves st st' d def mn' :
  diameter_machine_variant_material_map st'
  = <[d := <[def := mn']> (default ∅ (diameter_machine_variant_material_map st !! d))]>
      (diameter_machine_variant_material_map st) ->
  (forall d' m' r', machine_leaf st' (d', m', r')
                    = if decide ((d', m') = (d, def)) then material_map mn' !! r'
                      else machine_leaf st (d', m', r'))
  /\ (forall d' m' v' r', variant_leaf st' (d', m', v', r')
        = if decide ((d', m') = (d, def))
          then variant_material_map (default empty_variant_node (children_map mn' !! v')) !! r'
          else variant_leaf st (d', m', v', r')).
Proof.
  intros Ht. split.
  - intros d' m' r'. rewrite !machine_leaf_default, Ht.
    destruct (decide (d' = d)) as [->|Hd].
    + rewrite lookup_insert_eq. simpl. destruct (decide (m' = def)) as [->|Hm].
      * rewrite lookup_insert_eq, decide_True by reflexivity. reflexivity.
      * rewrite lookup_insert_ne, decide_False by congruence. reflexivity.
    + rewrite lookup_insert_ne, decide_False by congruence. reflexivity.
  - intros d' m' v' r'. rewrite !variant_leaf_default, Ht.
    destruct (decide (d' = d)) as [->|Hd].
    + rewrite lookup_insert_eq. simpl. destruct (decide (m' = def)) as [->|Hm].
      * rewrite lookup_insert_eq, decide_True by reflexivity. reflexivity.
      * rewrite lookup_insert_ne, decide_False by congruence. reflexivity.
    + rewrite lookup_insert_ne, decide_False by congruence. reflexivity.
Qed.

Lemma alloc_coherent st st' nn :
  material_coherent st -> node_loc nn = next_loc st ->
  next_loc st' = S (next_loc st) -> containers st' = containers st ->
  (forall n, in_tables st' n -> in_tables st n \/ n = nn) ->
  material_coherent st'.
Proof.
  intros (H0 & H1 & H2 & H3) Hl Hn Hc Ht. split; [|split; [|split]].
  - intros n Hin. rewrite Hn. destruct (Ht n Hin) as [A| ->]; [specialize (H0 n A); lia|lia].
  - intros k c Hk. rewrite Hc in Hk. rewrite Hn. specialize (H1 k c Hk). lia.
  - intros n n' Hin Hin' Heq.
    destruct (Ht n Hin) as [A| ->]; destruct (Ht n' Hin') as [B| ->]; [| | |reflexivity].
    + exact (H2 n n' A B Heq).
    + specialize (H0 n A). lia.
    + specialize (H0 n' B). lia.
  - intros n c Hin Hcn. rewrite Hc in Hcn. destruct (Ht n Hin) as [A| ->].
    + exact (H3 n c A Hcn).
    + rewrite Hl in Hcn. specialize (H1 _ _ Hcn). lia.
Qed.

Lemma add_guid_entry_alloc md st :
  add_guid_entry md st = st
  \/ (next_loc (add_guid_entry md st) = S (next_loc st)
      /\ containers (add_guid_entry md st) = containers st
      /\ forall n, in_tables (add_guid_entry md st) n ->
                   in_tables st n \/ n = {| node_loc := next_loc st; metadata := md |}).
Proof.
  unfold add_guid_entry. destruct (String.eqb _ _); [left; reflexivity|].
  case_bool_decide; [|left; reflexivity].
  destruct (guid_to_root_materials_map st !! md_GUID md) eqn:Eg; [left; reflexivity|].
  right. simpl. split; [reflexivity|split; [reflexivity|]].
  intros n [[g Hg]|Hrest].
  - simpl in Hg. destruct (decide (g = md_GUID md)) as [->|Hne].
    + rewrite lookup_insert_eq in Hg. injection Hg as <-. right. reflexivity.
    + rewrite lookup_insert_ne in Hg by congruence. left. left. exists g. exact Hg.
  - left. right. exact Hrest.
Qed.

Lemma initialize_guid_table_coherent l st :
  material_coherent st -> material_coherent (initialize_guid_table l st).
Proof.
  revert st. induction l as [|md l IH]; intros st HC; [exact HC|]. simpl. apply IH.
  destruct (add_guid_entry_alloc md st) as [-> |(Hn & Hc & Ht)]; [exact HC|].
  exact (alloc_coherent st _ {| node_loc := next_loc st; metadata := md |} HC eq_refl Hn Hc Ht).
Qed.

Lemma step_alloc md st st' :
  add_material_to_tree md st = (Ok tt, st') ->
  st' = st
  \/ (next_loc st' = S (next_loc st) /\ containers st' = containers st
      /\ forall n, in_tables st' n ->
                   in_tables st n \/ n = {| node_loc := next_loc st; metadata := md |}).
Proof.
  intros H. unfold add_material_to_tree in H.
  destruct (String.eqb (md_id md) "empty_material"); [injection H as <-; left; reflexivity|].
  destruct (guid_to_root_materials_map st !! md_GUID md) as [root|]; [|discriminate].
  cbv zeta in H.
  set (mvm := default ∅ (diameter_machine_variant_material_map st !! md_approximate_diameter md))
    in *.
  set (mn := default empty_machine_node (mvm !! md_definition md)) in *.
  set (nn := {| node_loc := next_loc st; metadata := md |}).
  right.
  destruct (negb (py_truthy_str (md_variant_name md))); simpl in H.
  - injection H as E.
    pose proof (tree_update_leaves st st' (md_approximate_diameter md) (md_definition md)
                  {| material_map := <[md_id (metadata root) := nn]> (material_map mn);
                     children_map := children_map mn |}) as [M V];
      [rewrite <- E; reflexivity|].
    split; [rewrite <- E; reflexivity|split; [rewrite <- E; reflexivity|]].
    intros n [[g Hg]|[[[[d' m'] r'] Hk]|[[[[d' m'] v'] r'] Hk]]].
    + left. left. exists g. rewrite <- E in Hg. exact Hg.
    + rewrite M in Hk. destruct (decide ((d', m') = _)) as [Hdm|Hdm].
      * injection Hdm as -> ->. simpl in Hk.
        destruct (decide (r' = md_id (metadata root))) as [->|Hr].
        { rewrite lookup_insert_eq in Hk. injection Hk as <-. right. reflexivity. }
        rewrite lookup_insert_ne in Hk by congruence. left. right. left.
        exists (md_approximate_diameter md, md_definition md, r').
        rewrite machine_leaf_default. exact Hk.
      * left. right. left. exists (d', m', r'). exact Hk.
    + rewrite V in Hk. left. right. right. exists (d', m', v', r').
      destruct (decide ((d', m') = _)) as [Hdm|Hdm]; [|exact Hk].
      injection Hdm as -> ->. rewrite variant_leaf_default. exact Hk.
  - destruct (variant_material_map _ !! md_id (metadata root)); [discriminate|].
    injection H as E.
    set (vn := default empty_variant_node
                 (children_map mn !! default "" (md_variant_name md))) in *.
    pose proof (tree_update_leaves st st' (md_approximate_diameter md) (md_definition md)
                  {| material_map := material_map mn;
                     children_map := <[default "" (md_variant_name md) :=
                                         {| variant_material_map :=
                                              <[md_id (metadata root) := nn]>
                                                (variant_material_map vn) |}]>
                                       (children_map mn) |}) as [M V];
      [rewrite <- E; reflexivity|].
    split; [rewrite <- E; reflexivity|split; [rewrite <- E; reflexivity|]].
    intros n [[g Hg]|[[[[d' m'] r'] Hk]|[[[[d' m'] v'] r'] Hk]]].
    + left. left. exists g. rewrite <- E in Hg. exact Hg.
    + rewrite M in Hk. left. right. left. exists (d', m', r').
      destruct (decide ((d', m') = _)) as [Hdm|Hdm]; [|exact Hk].
      injection Hdm as -> ->. rewrite machine_leaf_default. exact Hk.
    + rewrite V in Hk. destruct (decide ((d', m') = _)) as [Hdm|Hdm].
      * injection Hdm as -> ->. simpl in Hk.
        destruct (decide (v' = default "" (md_variant_name md))) as [->|Hv].
        { rewrite lookup_insert_eq in Hk. simpl in Hk.
          destruct (decide (r' = md_id (metadata root))) as [->|Hr].
          { rewrite lookup_insert_eq in Hk. injection Hk as <-. right. reflexivity. }
          rewrite lookup_insert_ne in Hk by congruence. left. right. right.
          exists (md_approximate_diameter md, md_definition md, default "" (md_variant_name md), r').
          rewrite variant_leaf_default. exact Hk. }
        rewrite lookup_insert_ne in Hk by congruence. left. right. right.
        exists (md_approximate_diameter md, md_definition md, v', r').
        rewrite variant_leaf_default. exact Hk.
      * left. right. right. exists (d', m', v', r'). exact Hk.
Qed.

Lemma initialize_material_tree_coherent p st :
  material_coherent st -> material_coherent (snd (initialize_material_tree p st)).
Proof.
  revert st. induction p as [|md p IH]; intros st HC; [exact HC|].
  simpl. unfold se_bind.
  destruct (add_material_to_tree md st) as [[[]|e] s] eqn:E.
  - apply IH. destruct (step_alloc md st s E) as [-> |(Hn & Hc & Ht)]; [exact HC|].
    exact (alloc_coherent st _ {| node_loc := next_loc st; metadata := md |} HC eq_refl Hn Hc Ht).
  - simpl. rewrite (step_err_state md st e s E). exact HC.
Qed.

Lemma initialize_coherent l : material_coherent (snd (initialize l init)).
Proof.
  unfold initialize. apply initialize_material_tree_coherent, initialize_guid_table_coherent.
  split; [|split; [|split]].
  - intros n [[g Hg]|[[[[d m] r] Hk]|[[[[d m] v] r] Hk]]]; discriminate.
  - intros k c Hk. discriminate.
  - intros n n' [[g Hg]|[[[[d m] r] Hk]|[[[[d m] v] r] Hk]]]; discriminate.
  - intros n c [[g Hg]|[[[[d m] r] Hk]|[[[[d m] v] r] Hk]]]; discriminate.
Qed.

End MaterialCoherence.

Section MaterialQueryCoherence.

Variable findInstanceContainers : string -> list InstanceContainer.

Lemma resolved_in mvm m mn :
  resolved_machine_node mvm m = Some mn ->
  exists m', mvm !! m' = Some mn /\ (m' = m \/ m' = default_machine_definition_id).
Proof.
  unfold resolved_machine_node. destruct (mvm !! m) as [x|] eqn:E.
  - intros Hx. injection Hx as <-. exists m. auto.
  - intros Hx. exists default_machine_definition_id. auto.
Qed.

(** [getMaterial] materializes at most one node: a machine-level leaf or a
    variant-level leaf of the resolved machine (the machine or
    "fdmprinter"), filed under the requested root material id. *)
Lemma getMaterial_one_call st m v diameter r :
  getMaterial findInstanceContainers m v diameter r st = (Ok None, st)
  \/ exists n m', (m' = m \/ m' = default_machine_definition_id)
       /\ (machine_leaf st (py_str_int (py_round diameter), m', r) = Some n
           \/ exists v', v = Some v'
                         /\ variant_leaf st (py_str_int (py_round diameter), m', v', r) = Some n)
       /\ getMaterial findInstanceContainers m v diameter r st
          = (c <-- getContainerOnNode findInstanceContainers n ;; se_ret (Some c)) st.
Proof.
  destruct (diameter_machine_variant_material_map st !! py_str_int (py_round diameter))
    as [mvm|] eqn:Eb.
  2:{ left. unfold getMaterial. rewrite Eb. reflexivity. }
  destruct (resolved_machine_node mvm m) as [mn|] eqn:Em.
  2:{ left. unfold getMaterial. rewrite Eb.
      change (match mvm !! m with Some n => Some n
              | None => mvm !! default_machine_definition_id end) with
        (resolved_machine_node mvm m).
      rewrite Em. destruct v; reflexivity. }
  destruct (resolved_in mvm m mn Em) as (m' & Em' & Hm').
  assert (Hv : (exists vname vn leaf, v = Some vname /\ children_map mn !! vname = Some vn
                                      /\ variant_material_map vn !! r = Some leaf)
               \/ (forall vname vn, v = Some vname -> children_map mn !! vname = Some vn ->
                                    variant_material_map vn !! r = None)).
  { destruct v as [vname|]; [|right; intros vname vn Hc; discriminate Hc].
    destruct (children_map mn !! vname) as [vn|] eqn:Ec.
    - destruct (variant_material_map vn !! r) as [leaf|] eqn:El.
      + left. exists vname, vn, leaf. auto.
      + right. intros vname' vn' Hn Hc. injection Hn as <-. congruence.
    - right. intros vname' vn' Hn Hc. injection Hn as <-. congruence. }
  destruct Hv as [(vname & vn & leaf & -> & Ec & El)|Hv].
  - right. exists leaf, m'. split; [exact Hm'|]. split.
    + right. exists vname. split; [reflexivity|].
      unfold variant_leaf. rewrite Eb, Em', Ec. exact El.
    + exact (getMaterial_variant_leaf findInstanceContainers st m vname diameter r mvm mn vn
               leaf Eb Em Ec El).
  - destruct (material_map mn !! r) as [leaf|] eqn:El.
    + right. exists leaf, m'. split; [exact Hm'|]. split.
      * left. unfold machine_leaf. rewrite Eb, Em'. exact El.
      * exact (getMaterial_machine_leaf findInstanceContainers st m v diameter r mvm mn leaf
                 Eb Em Hv El).
    + left. unfold getMaterial. rewrite Eb.
      change (match mvm !! m with Some n => Some n
              | None => mvm !! default_machine_definition_id end) with
        (resolved_machine_node mvm m).
      rewrite Em.
      destruct v as [vname|].
      * destruct (children_map mn !! vname) as [vn|] eqn:Ec.
        -- rewrite (Hv vname vn eq_refl Ec). unfold se_bind, se_ret. rewrite El. reflexivity.
        -- unfold se_bind, se_ret. rewrite El. reflexivity.
      * unfold se_bind, se_ret. rewrite El. reflexivity.
Qed.

Lemma bind_ret_snd (n : MaterialNode) st :
  snd ((c <-- getContainerOnNode findInstanceContainers n ;; se_ret (Some c)) st)
  = snd (getContainerOnNode findInstanceContainers n st).
Proof.
  unfold se_bind, se_ret. destruct (getContainerOnNode _ n st) as [[c|e] s]; reflexivity.
Qed.

Lemma bind_ret_fst (n : MaterialNode) st c :
  fst ((c <-- getContainerOnNode findInstanceContainers n ;; se_ret (Some c)) st) = Ok (Some c)
  -> fst (getContainerOnNode findInstanceContainers n st) = Ok c.
Proof.
  unfold se_bind, se_ret. destruct (getContainerOnNode _ n st) as [[c'|e] s]; simpl;
    intros H; [injection H as ->; reflexivity|discriminate].
Qed.

Lemma getContainerOnNode_coherent n st :
  in_tables st n -> material_coherent findInstanceContainers st ->
  material_coherent findInstanceContainers (snd (getContainerOnNode findInstanceContainers n st)).
Proof.
  intros Hn HC. pose proof (cont_step_tables findInstanceContainers st _
                              (ex_intro _ n eq_refl)) as [Eg Et].
  assert (Hin : forall x, in_tables (snd (getContainerOnNode findInstanceContainers n st)) x
                          <-> in_tables st x) by (intros x; exact (in_tables_ext _ _ x Eg Et)).
  revert Hin. unfold getContainerOnNode.
  destruct (containers st !! node_loc n) as [c0|] eqn:Ec0; [intros _; exact HC|].
  destruct HC as (H0 & H1 & H2 & H3).
  destruct (findInstanceContainers (md_id (metadata n))) as [|c cs] eqn:Ef; simpl; intros Hin.
  - split; [|split; [|split]].
    + intros x Hx. apply Hin in Hx. exact (H0 x Hx).
    + exact H1.
    + intros x x' Hx Hx'. apply Hin in Hx, Hx'. exact (H2 x x' Hx Hx').
    + intros x c' Hx. apply Hin in Hx. exact (H3 x c' Hx).
  - split; [|split; [|split]].
    + intros x Hx. apply Hin in Hx. exact (H0 x Hx).
    + intros k c' Hk. destruct (decide (k = node_loc n)) as [->|Hne]; [exact (H0 n Hn)|].
      cbn [containers set_container log_call] in Hk.
      rewrite lookup_insert_ne in Hk by congruence. exact (H1 k c' Hk).
    + intros x x' Hx Hx'. apply Hin in Hx, Hx'. exact (H2 x x' Hx Hx').
    + intros x c' Hx Hc. apply Hin in Hx. cbn [containers set_container log_call] in Hc.
      destruct (decide (node_loc x = node_loc n)) as [E|E].
      * rewrite E, lookup_insert_eq in Hc. injection Hc as <-.
        rewrite (H2 x n Hx Hn E), Ef. reflexivity.
      * rewrite lookup_insert_ne in Hc by congruence. exact (H3 x c' Hx Hc).
Qed.

Lemma getContainerOnNode_result n st c :
  in_tables st n -> material_coherent findInstanceContainers st ->
  fst (getContainerOnNode findInstanceContainers n st) = Ok c ->
  hd_error (findInstanceContainers (md_id (metadata n))) = Some c.
Proof.
  intros Hn (_ & _ & _ & H3) H. unfold getContainerOnNode in H.
  destruct (containers st !! node_loc n) as [c0|] eqn:Ec0.
  - simpl in H. injection H as <-. exact (H3 n c0 Hn Ec0).
  - destruct (findInstanceContainers _) as [|c' cs]; simpl in H; [discriminate|].
    injection H as <-. reflexivity.
Qed.

Lemma getMaterial_coherent st m v diameter r :
  material_coherent findInstanceContainers st ->
  material_coherent findInstanceContainers
    (snd (getMaterial findInstanceContainers m v diameter r st)).
Proof.
  intros HC. destruct (getMaterial_one_call st m v diameter r)
    as [E|(n & m' & _ & Hleaf & E)]; rewrite E; [exact HC|].
  rewrite bind_ret_snd. apply getContainerOnNode_coherent; [|exact HC].
  destruct Hleaf as [Hk|(v' & _ & Hk)]; [right; left|right; right]; eexists; exact Hk.
Qed.

Lemma getMaterialByGUID_coherent st g :
  material_coherent findInstanceContainers st ->
  material_coherent findInstanceContainers
    (snd (getMaterialByGUID findInstanceContainers g st)).
Proof.
  intros HC. unfold getMaterialByGUID.
  destruct (guid_to_root_materials_map st !! g) as [n|] eqn:Eg; [|exact HC].
  rewrite bind_ret_snd. apply getContainerOnNode_coherent; [|exact HC].
  left. exists g. exact Eg.
Qed.

Lemma run_material_queries_coherent qs st :
  material_coherent findInstanceContainers st ->
  material_coherent findInstanceContainers
    (Queries.run_material_queries findInstanceContainers qs st).
Proof.
  revert st. induction qs as [|q qs IH]; intros st HC; [exact HC|].
  simpl. apply IH. destruct q; simpl;
    [apply getMaterial_coherent|apply getMaterialByGUID_coherent|]; exact HC.
Qed.

Lemma run_material_queries_tables qs st :
  guid_to_root_materials_map (Queries.run_material_queries findInstanceContainers qs st)
  = guid_to_root_materials_map st
  /\ diameter_machine_variant_material_map
       (Queries.run_material_queries findInstanceContainers qs st)
     = diameter_machine_variant_material_map st.
Proof.
  pose proof (run_material_queries_steps findInstanceContainers qs st) as Hs.
  induction Hs as [|x y z Hxy _ IH]; [auto|].
  destruct (cont_step_tables findInstanceContainers x y Hxy) as [E1 E2].
  destruct IH as [I1 I2]. rewrite I1, I2, E1, E2. auto.
Qed.

End MaterialQueryCoherence.

Lemma variant_coherent_init f : variant_coherent f VariantManager.init.
Proof.
  unfold variant_coherent, variant_entry. cbn.
  split; [|split; [|split]]; intros *; rewrite ?lookup_empty; intros Hx; discriminate Hx.
Qed.

Lemma run_variant_queries_entry f qs st m n :
  variant_entry (Queries.run_variant_queries f qs st) m n = variant_entry st m n.
Proof.
  revert st. induction qs as [|q qs IH]; intros st; [reflexivity|].
  simpl. rewrite IH. destruct q; simpl; [|reflexivity].
  unfold variant_entry. rewrite getVariant_map. reflexivity.
Qed.

Lemma machine_leaf_tables (st st' : MaterialManager) K :
  diameter_machine_variant_material_map st' = diameter_machine_variant_material_map st ->
  machine_leaf st' K = machine_leaf st K.
Proof. intros E. destruct K as [[d m] r]. unfold machine_leaf. rewrite E. reflexivity. Qed.

Lemma variant_leaf_tables (st st' : MaterialManager) K :
  diameter_machine_variant_material_map st' = diameter_machine_variant_material_map st ->
  variant_leaf st' K = variant_leaf st K.
Proof. intros E. destruct K as [[[d m] v] r]. unfold variant_leaf. rewrite E. reflexivity. Qed.

Lemma init_machine_leaf l st K md :
  initialize l init = (Ok tt, st) ->
  metadata <$> machine_leaf st K = Some md -> In md l /\ machine_leaf_key l md = Some K.
Proof.
  intros H Hk. unfold initialize in H.
  rewrite (tree_machine_leaf l l _ st K (initialize_pass1_guid_ok l) H),
    (proj1 (initialize_pass1_no_leaves l)) in Hk.
  destruct (find _ (rev l)) as [x|] eqn:Ef; [|discriminate].
  injection Hk as <-. apply find_some in Ef as [Hin Hk].
  apply bool_decide_eq_true in Hk. split; [apply in_rev; exact Hin|exact Hk].
Qed.

(** X10: after a successful [VariantManager.initialize] from an empty
    manager and any sequence of variant queries, a container returned by
    [getVariant m n t] is the first container the registry finds for the id
    of the input record filed under ([m], [n]): the cache never hands out
    the container of another variant. *)
Theorem getVariant_returns_registry_first_match
  (findInstanceContainers : string -> list InstanceContainer)
  (l : list VariantManager.VariantMetadata) (st : VariantManager.VariantManager)
  (qs : list Queries.VariantQuery) (m n : string) (t : option string) (c : InstanceContainer)
  (H : VariantManager.initialize l VariantManager.init = (Ok tt, st))
  (Hc : fst (VariantManager.getVariant findInstanceContainers m n t
               (Queries.run_variant_queries findInstanceContainers qs st)) = Ok (Some c)) :
  exists v, In v l /\ variant_entry_key v = Some (m, n)
    /\ hd_error (findInstanceContainers (VariantManager.vm_id v)) = Some c.
Proof.
  assert (HC : variant_coherent findInstanceContainers st).
  { pose proof (initialize_loop_coherent findInstanceContainers l VariantManager.init
                  (variant_coherent_init findInstanceContainers)) as HC.
    unfold VariantManager.initialize in H. rewrite H in HC. exact HC. }
  destruct (getVariant_coherent_result findInstanceContainers m n t _ c
              (run_variant_queries_coherent findInstanceContainers qs st HC) Hc)
    as (e & He & Hhd).
  rewrite run_variant_queries_entry in He.
  exists (VariantManager.entry_metadata e).
  assert (Hm : VariantManager.entry_metadata <$> variant_entry st m n
               = Some (VariantManager.entry_metadata e)) by (rewrite He; reflexivity).
  destruct (proj1 (vinit_entry_iff l st m n _ H) Hm) as [Hin Hk].
  exact (conj Hin (conj Hk Hhd)).
Qed.

Lemma getVariant_returns_registry_first_match_witness :
  exists v, In v [Scenario.aa04; Scenario.bb04] /\ variant_entry_key v = Some ("ultimaker3", "AA 0.4")
    /\ hd_error (Scenario.registry (VariantManager.vm_id v))
       = Some (mkInstanceContainer (String.length "ultimaker3_aa04")).
Proof.
  refine (getVariant_returns_registry_first_match Scenario.registry
            [Scenario.aa04; Scenario.bb04] Scenario.variant_index
            [Queries.QGetVariant "ultimaker3" "AA 0.4" None; Queries.QGetVariant "ultimaker3" "BB 0.4" None]
            "ultimaker3" "AA 0.4" None _ _ _).
  - vm_compute. reflexivity.
  - vm_compute. reflexivity.
Defined.

(** X11: after [initialize] from an empty manager, whether it succeeded or
    raised, and any sequence of material queries, a container returned by
    [getMaterialByGUID g] is the first container the registry finds for the
    id of the first root record of the input declaring [g]. *)
Theorem getMaterialByGUID_returns_first_root_container
  (findInstanceContainers : string -> list InstanceContainer)
  (l : list MaterialMetadata) (qs : list Queries.MaterialQuery) (g : string)
  (c : InstanceContainer)
  (Hc : fst (getMaterialByGUID findInstanceContainers g
               (Queries.run_material_queries findInstanceContainers qs (snd (initialize l init))))
        = Ok (Some c)) :
  exists md, first_root l g = Some md /\ hd_error (findInstanceContainers (md_id md)) = Some c.
Proof.
  pose proof (run_material_queries_coherent findInstanceContainers qs _
                (initialize_coherent findInstanceContainers l)) as HC.
  destruct (run_material_queries_tables findInstanceContainers qs (snd (initialize l init)))
    as [Eg0 _].
  unfold getMaterialByGUID in Hc.
  destruct (guid_to_root_materials_map
              (Queries.run_material_queries findInstanceContainers qs (snd (initialize l init)))
            !! g) as [n|] eqn:Eg; [|simpl in Hc; discriminate Hc].
  apply bind_ret_fst in Hc.
  pose proof (getContainerOnNode_result findInstanceContainers n _ c
                (or_introl (ex_intro _ g Eg)) HC Hc) as Hhd.
  exists (metadata n). split; [|exact Hhd].
  rewrite <- (initialize_guid_lookup l g), <- Eg0, Eg. reflexivity.
Qed.

Lemma getMaterialByGUID_returns_first_root_container_witness :
  exists md, first_root Scenario.materials "G1" = Some md
    /\ hd_error (Scenario.registry (md_id md))
       = Some (mkInstanceContainer (String.length "generic_pla")).
Proof.
  refine (getMaterialByGUID_returns_first_root_container Scenario.registry Scenario.materials
            [Queries.QGetMaterial "ultimaker3" None float_2_85 "generic_pla"] "G1" _ _).
  vm_compute. reflexivity.
Defined.

(** X12: after a successful [initialize] from an empty manager and any
    sequence of material queries, a container returned by [getMaterial m v
    diameter r] is the first container the registry finds for the id of an
    input record filed under root material [r], the diameter bucket of
    [diameter], and machine [m] or "fdmprinter": as a machine-level leaf,
    or as a variant-level leaf of the requested variant [v]. *)
Theorem getMaterial_returns_indexed_container
  (findInstanceContainers : string -> list InstanceContainer)
  (l : list MaterialMetadata) (st : MaterialManager) (qs : list Queries.MaterialQuery)
  (m : string) (v : option string) (diameter : Q) (r : string) (c : InstanceContainer)
  (H : initialize l init = (Ok tt, st))
  (Hc : fst (getMaterial findInstanceContainers m v diameter r
               (Queries.run_material_queries findInstanceContainers qs st)) = Ok (Some c)) :
  exists md m', In md l /\ (m' = m \/ m' = "fdmprinter")
    /\ (machine_leaf_key l md = Some (py_str_int (py_round diameter), m', r)
        \/ exists v', v = Some v'
             /\ variant_leaf_key l md = Some (py_str_int (py_round diameter), m', v', r))
    /\ hd_error (findInstanceContainers (md_id md)) = Some c.
Proof.
  pose proof (initialize_coherent findInstanceContainers l) as HC0.
  rewrite H in HC0. simpl in HC0.
  pose proof (run_material_queries_coherent findInstanceContainers qs st HC0) as HC.
  destruct (run_material_queries_tables findInstanceContainers qs st) as [_ Et].
  destruct (getMaterial_one_call findInstanceContainers
              (Queries.run_material_queries findInstanceContainers qs st) m v diameter r)
    as [E|(n & m' & Hm' & Hleaf & E)]; rewrite E in Hc; [discriminate Hc|].
  apply bind_ret_fst in Hc.
  assert (Hin : in_tables (Queries.run_material_queries findInstanceContainers qs st) n)
    by (destruct Hleaf as [Hk|(v' & _ & Hk)]; [right; left|right; right]; eexists; exact Hk).
  pose proof (getContainerOnNode_result findInstanceContainers n _ c Hin HC Hc) as Hhd.
  exists (metadata n), m'.
  destruct Hleaf as [Hk|(v' & Ev & Hk)].
  - rewrite (machine_leaf_tables _ _ _ Et) in Hk.
    assert (Hk' : metadata <$> machine_leaf st (py_str_int (py_round diameter), m', r)
                  = Some (metadata n)) by (rewrite Hk; reflexivity).
    destruct (init_machine_leaf l st _ _ H Hk') as [Hin' Hkey].
    split; [exact Hin'|]. split; [exact Hm'|]. split; [left; exact Hkey|exact Hhd].
  - rewrite (variant_leaf_tables _ _ _ Et) in Hk.
    assert (Hk' : metadata <$> variant_leaf st (py_str_int (py_round diameter), m', v', r)
                  = Some (metadata n)) by (rewrite Hk; reflexivity).
    destruct (proj1 (init_variant_leaf_iff l st _ _ H) Hk') as [Hin' Hkey].
    split; [exact Hin'|]. split; [exact Hm'|]. split; [right; exists v'; auto|exact Hhd].
Qed.

Lemma getMaterial_returns_indexed_container_witness :
  exists md m', In md Scenario.materials /\ (m' = "ultimaker3" \/ m' = "fdmprinter")
    /\ (machine_leaf_key Scenario.materials md
          = Some (py_str_int (py_round float_2_85), m', "generic_pla")
        \/ exists v', Some "AA 0.4" = Some v'
             /\ variant_leaf_key Scenario.materials md
                = Some (py_str_int (py_round float_2_85), m', v', "generic_pla"))
    /\ hd_error (Scenario.registry (md_id md))
       = Some (mkInstanceContainer (String.length (md_id Scenario.generic_pla_um3_aa04))).
Proof.
  refine (getMaterial_returns_indexed_container Scenario.registry Scenario.materials
            Scenario.material_index
            [Queries.QGetMaterial "ultimaker3" (Some "AA 0.4") float_2_85 "generic_pla"]
            "ultimaker3" (Some "AA 0.4") float_2_85 "generic_pla" _ _ _).
  - vm_compute. reflexivity.
  - vm_compute. reflexivity.
Defined.
